(** * metarmap: METAR parser, flight-category classifier, airport registry
      and LED overlays

    A shallow embedding of [metarmap.ino] (software version 1.5): the
    [MetarParser] class, [WeatherAPIClient::parseWeatherData] and
    [fetchWeatherData], and the [LEDController] overlays; then the
    settings of [SystemState] with their file, the page arithmetic and
    the settings request of [WebServerHandler], the credential files of
    [WiFiManager], and the button, the update schedule and [loop] of the
    sketch.  What the platform answers (the clock, the free heap, the
    button pin, the network, [ctime], [random]) is an argument of the
    function that asks for it.

    Conventions of the embedding.
    - A C string is the [string] of the characters before its terminator;
      a [const char*] into the report line is a [nat] offset into it, and
      reading the terminator yields [NUL].
    - [int] values are [Z]; the [unsigned long] millisecond clock is a [Z]
      with the 32-bit wrap-around of its subtraction written out.
    - [float] values are modelled by the rational numbers they stand for
      ([Q]): every comparison the program makes is against a constant that
      is exactly representable, and the digit strings it converts are short.
    - [METAR::flags] is the [uint16_t] bit mask of the source, with
      [Z.lor] and [Z.land].
    - Arrays ([airports], [leds], [baseColors]) are lists read with [!!]
      and written with [<[i:=x]>]. *)

From Stdlib Require Import ZArith QArith Lqa String Ascii Bool Lia.
From stdpp Require Import base list.

Open Scope string_scope.

(** ** The C library and Arduino [String] operations the program uses *)

Module CLib.

Definition NUL : ascii := Ascii.zero.

(** [s[i]]; the terminator is read at [i = strlen s]. *)
Definition char_at (s : string) (i : nat) : ascii :=
  match String.get i s with Some c => c | None => NUL end.

Definition isdigit (c : ascii) : bool :=
  (48 <=? nat_of_ascii c)%nat && (nat_of_ascii c <=? 57)%nat.

Definition isspace (c : ascii) : bool :=
  (nat_of_ascii c =? 32)%nat
  || ((9 <=? nat_of_ascii c)%nat && (nat_of_ascii c <=? 13)%nat).

Definition digit_val (c : ascii) : Z := Z.of_nat (nat_of_ascii c) - 48.

(** [p + n] for a pointer [p] to the start of [s]. *)
Fixpoint drop (n : nat) (s : string) : string :=
  match n, s with
  | O, _ => s
  | S n', String _ s' => drop n' s'
  | S _, EmptyString => EmptyString
  end.

(** [strstr(s + from, pat)], as an offset into [s]. *)
Definition strstr_from (s pat : string) (from : nat) : option nat :=
  String.index from pat s.

Definition strstr (s pat : string) : option nat := strstr_from s pat 0.

(** [strchr(s + from, c)]. *)
Definition strchr_from (s : string) (c : ascii) (from : nat) : option nat :=
  String.index from (String c EmptyString) s.

(** [strncmp(s + p, lit, strlen(lit)) == 0]. *)
Definition starts_with (s : string) (p : nat) (lit : string) : bool :=
  String.prefix lit (drop p s).

(** [strncpy(buf, s + p, len); buf[len] = 0]. *)
Definition copy_n (s : string) (p len : nat) : string :=
  String.substring p len s.

(** The loop that advances a pointer over blanks. *)
Fixpoint count_spaces (s : string) : nat :=
  match s with
  | String " " s' => S (count_spaces s')
  | _ => O
  end.

Definition skip_spaces (s : string) (p : nat) : nat :=
  (p + count_spaces (drop p s))%nat.

Fixpoint skip_ws (s : string) : string :=
  match s with
  | String c s' => if isspace c then skip_ws s' else s
  | EmptyString => EmptyString
  end.

(** The digits at the head of [s], accumulated in base ten, and what
    follows them. *)
Fixpoint scan_digits (s : string) (acc : Z) : Z * string :=
  match s with
  | String c s' =>
      if isdigit c then scan_digits s' (10 * acc + digit_val c)%Z
      else (acc, s)
  | EmptyString => (acc, s)
  end.

(** The digits after a decimal point: numerator and power of ten. *)
Fixpoint scan_fraction (s : string) (num : Z) (den : positive)
  : Z * positive :=
  match s with
  | String c s' =>
      if isdigit c then scan_fraction s' (10 * num + digit_val c)%Z (10 * den)
      else (num, den)
  | EmptyString => (num, den)
  end.

Definition strip_sign (s : string) : bool * string :=
  match s with
  | String "-" s' => (true, s')
  | String "+" s' => (false, s')
  | _ => (false, s)
  end.

(** [atoi]: white space, an optional sign, decimal digits. *)
Definition atoi (s : string) : Z :=
  let '(neg, body) := strip_sign (skip_ws s) in
  let v := fst (scan_digits body 0%Z) in
  if neg then (- v)%Z else v.

(** [atof]: white space, an optional sign, decimal digits and an optional
    fractional part.  The exponent, hexadecimal and inf/nan forms of
    [strtod] are left out: the parser never hands over a string where they
    would change the value. *)
Definition atof (s : string) : Q :=
  let '(neg, body) := strip_sign (skip_ws s) in
  let '(ip, rest) := scan_digits body 0%Z in
  let v :=
    match rest with
    | String "." frac =>
        let '(num, den) := scan_fraction frac 0%Z 1%positive in
        (inject_Z ip + (num # den))%Q
    | _ => inject_Z ip
    end in
  if neg then (- v)%Q else v.

(** *** Arduino [String] methods *)

Fixpoint rtrim (s : string) : string :=
  match s with
  | EmptyString => EmptyString
  | String c s' =>
      match rtrim s' with
      | EmptyString => if isspace c then EmptyString else String c EmptyString
      | r => String c r
      end
  end.

(** [String::trim]. *)
Definition trim (s : string) : string := rtrim (skip_ws s).

(** [String::indexOf(ch, from)]: [-1] when there is none. *)
Definition indexOf_from (s : string) (c : ascii) (from : Z) : Z :=
  match String.index (Z.to_nat from) (String c EmptyString) s with
  | Some i => Z.of_nat i
  | None => (-1)%Z
  end.

Definition indexOf (s : string) (c : ascii) : Z := indexOf_from s c 0.

(** [String::substring(left, right)]: the indices are swapped when
    [left > right], [right] is clipped to the length. *)
Definition substring (s : string) (left right : Z) : string :=
  let '(l, r) := if (right <? left)%Z then (right, left) else (left, right) in
  let len := Z.of_nat (String.length s) in
  if (len <=? l)%Z then EmptyString
  else
    let r := Z.min r len in
    String.substring (Z.to_nat l) (Z.to_nat (r - l)) s.

(** [String::substring(left)]. *)
Definition substring_from (s : string) (left : Z) : string :=
  substring s left (Z.of_nat (String.length s)).

(** [String::endsWith]. *)
Definition endsWith (s suffix : string) : bool :=
  let n := String.length s in
  let k := String.length suffix in
  (k <=? n)%nat && String.eqb (String.substring (n - k) k s) suffix.

Definition toFloat (s : string) : Q := atof s.

(** [String::indexOf(const String&, from)]: [-1] when there is none. *)
Definition indexOf_string_from (s pat : string) (from : Z) : Z :=
  match String.index (Z.to_nat from) pat s with
  | Some i => Z.of_nat i
  | None => (-1)%Z
  end.

(** [String::toInt] is [atol]; where [atol] would saturate at the bounds
    of [long] the model keeps the number, which makes no difference once
    the value is clamped. *)
Definition toInt (s : string) : Z := atoi s.

(** [constrain(x, lo, hi)]. *)
Definition constrain (x lo hi : Z) : Z :=
  if (x <? lo)%Z then lo else if (hi <? x)%Z then hi else x.

(** [Print::print] of an unsigned number in base ten: the loop of
    [printNumber] writes the digits from the last one backwards.  A
    32-bit number has at most ten digits. *)
Fixpoint printNumber_loop (fuel : nat) (n : Z) (str : string) : string :=
  match fuel with
  | O => str
  | S fuel' =>
      let c := (n mod 10)%Z in
      let n := (n / 10)%Z in
      let str := String (ascii_of_nat (Z.to_nat (c + 48))) str in
      if (n =? 0)%Z then str else printNumber_loop fuel' n str
  end.

Definition printNumber (n : Z) : string := printNumber_loop 10 n EmptyString.

End CLib.

(** ** Constants *)

Definition MAX_AIRPORTS : nat := 50.
Definition THUNDERSTORM_FLASH_INTERVAL : Z := 100.
Definition WIND_BLINK_INTERVAL : Z := 1000.
Definition MIN_HEAP_FOR_OPERATION : Z := 8000.
Definition ICAO_CODE_LENGTH : nat := 4.
Definition ICAO_BUFFER_SIZE : nat := 5.

(** [CRGB] colours, as their 24-bit RGB codes. *)
Module LEDColors.
Definition CRGB := Z.
Definition VFR : CRGB := 0x008000%Z.
Definition MVFR : CRGB := 0x0000FF%Z.
Definition IFR : CRGB := 0xFF0000%Z.
Definition LIFR : CRGB := 0xFF00FF%Z.
Definition NO_DATA : CRGB := 0xFF4500%Z.
Definition OFF : CRGB := 0x000000%Z.
Definition WIND_WARNING : CRGB := 0xFFC003%Z.
Definition THUNDERSTORM : CRGB := 0xFFFFFF%Z.
End LEDColors.

Module FlightCategory.
Definition LIFR_CEILING : Z := 500.
Definition LIFR_VISIBILITY : Q := 1.
Definition IFR_CEILING : Z := 1000.
Definition IFR_VISIBILITY : Q := 3.
Definition MVFR_CEILING : Z := 3000.
Definition MVFR_VISIBILITY : Q := 5.
End FlightCategory.

(** [x < y] and [x > y] on floats. *)
Definition Qltb (x y : Q) : bool := negb (Qle_bool y x).

(** ** Data structures *)

Definition HAS_TEMP : Z := 0x01.
Definition HAS_DEWP : Z := 0x02.
Definition HAS_WSPD : Z := 0x04.
Definition HAS_WDIR : Z := 0x08.
Definition HAS_VISIB : Z := 0x10.
Definition HAS_ALTIM : Z := 0x20.
Definition HAS_FLTCAT : Z := 0x40.
Definition HAS_THUNDERSTORM : Z := 0x80.

Inductive METAR_STATUS :=
  | SUCCESS
  | CONNECTION_FAILURE
  | CONNECTION_TIMEOUT
  | PARSING_FAILURE
  | RESPONSE_FAILURE.

Record CloudLayer := mkCloudLayer {
  coverage : string;
  height : Z;
  type : string
}.

(** [rawText] is [None] for the null pointer; [cloudLayers] is the
    allocated array, empty for the null pointer ([numCloudLayers] is its
    length). *)
Record METAR := mkMETAR {
  rawText : option string;
  cloudLayers : list CloudLayer;
  temp : Q;
  dewp : Q;
  wspd : Q;
  visib : Q;
  altim : Q;
  wdir : Z;
  flags : Z;
  icaoId : string;
  receiptTime : string;
  obsTime : string;
  fltcat : string
}.

(** The default constructor. *)
Definition METAR_new : METAR :=
  {| rawText := None; cloudLayers := []; temp := 0; dewp := 0; wspd := 0;
     visib := 0; altim := 0; wdir := 0; flags := 0; icaoId := "";
     receiptTime := ""; obsTime := ""; fltcat := "" |}.

Definition has_flag (m : METAR) (bit : Z) : bool :=
  negb (Z.land (flags m) bit =? 0)%Z.

Definition hasTemp (m : METAR) : bool := has_flag m HAS_TEMP.
Definition hasDewp (m : METAR) : bool := has_flag m HAS_DEWP.
Definition hasWspd (m : METAR) : bool := has_flag m HAS_WSPD.
Definition hasWdir (m : METAR) : bool := has_flag m HAS_WDIR.
Definition hasVisib (m : METAR) : bool := has_flag m HAS_VISIB.
Definition hasAltim (m : METAR) : bool := has_flag m HAS_ALTIM.
Definition hasFltcat (m : METAR) : bool := has_flag m HAS_FLTCAT.
Definition hasThunderstorm (m : METAR) : bool := has_flag m HAS_THUNDERSTORM.
Definition hasObsTime (m : METAR) : bool :=
  (String.length (obsTime m) =? 7)%nat.
Definition hasCloudLayers (m : METAR) : bool :=
  (0 <? length (cloudLayers m))%nat.

Definition set_flags (m : METAR) (f : Z) : METAR :=
  {| rawText := rawText m; cloudLayers := cloudLayers m; temp := temp m;
     dewp := dewp m; wspd := wspd m; visib := visib m; altim := altim m;
     wdir := wdir m; flags := f; icaoId := icaoId m;
     receiptTime := receiptTime m; obsTime := obsTime m;
     fltcat := fltcat m |}.

Definition setTemp (m : METAR) (value : Q) : METAR :=
  {| rawText := rawText m; cloudLayers := cloudLayers m; temp := value;
     dewp := dewp m; wspd := wspd m; visib := visib m; altim := altim m;
     wdir := wdir m; flags := Z.lor (flags m) HAS_TEMP; icaoId := icaoId m;
     receiptTime := receiptTime m; obsTime := obsTime m;
     fltcat := fltcat m |}.

Definition setDewp (m : METAR) (value : Q) : METAR :=
  {| rawText := rawText m; cloudLayers := cloudLayers m; temp := temp m;
     dewp := value; wspd := wspd m; visib := visib m; altim := altim m;
     wdir := wdir m; flags := Z.lor (flags m) HAS_DEWP; icaoId := icaoId m;
     receiptTime := receiptTime m; obsTime := obsTime m;
     fltcat := fltcat m |}.

Definition setWspd (m : METAR) (value : Q) : METAR :=
  {| rawText := rawText m; cloudLayers := cloudLayers m; temp := temp m;
     dewp := dewp m; wspd := value; visib := visib m; altim := altim m;
     wdir := wdir m; flags := Z.lor (flags m) HAS_WSPD; icaoId := icaoId m;
     receiptTime := receiptTime m; obsTime := obsTime m;
     fltcat := fltcat m |}.

Definition setWdir (m : METAR) (value : Z) : METAR :=
  {| rawText := rawText m; cloudLayers := cloudLayers m; temp := temp m;
     dewp := dewp m; wspd := wspd m; visib := visib m; altim := altim m;
     wdir := value mod 65536; flags := Z.lor (flags m) HAS_WDIR;
     icaoId := icaoId m; receiptTime := receiptTime m; obsTime := obsTime m;
     fltcat := fltcat m |}.

Definition setVisib (m : METAR) (value : Q) : METAR :=
  {| rawText := rawText m; cloudLayers := cloudLayers m; temp := temp m;
     dewp := dewp m; wspd := wspd m; visib := value; altim := altim m;
     wdir := wdir m; flags := Z.lor (flags m) HAS_VISIB; icaoId := icaoId m;
     receiptTime := receiptTime m; obsTime := obsTime m;
     fltcat := fltcat m |}.

Definition setAltim (m : METAR) (value : Q) : METAR :=
  {| rawText := rawText m; cloudLayers := cloudLayers m; temp := temp m;
     dewp := dewp m; wspd := wspd m; visib := visib m; altim := value;
     wdir := wdir m; flags := Z.lor (flags m) HAS_ALTIM; icaoId := icaoId m;
     receiptTime := receiptTime m; obsTime := obsTime m;
     fltcat := fltcat m |}.

(** [safeCopy] into a buffer of [size] bytes keeps [size - 1] characters. *)
Definition safeCopy (size : nat) (src : string) : string :=
  String.substring 0 (size - 1) src.

Definition setFltcat (m : METAR) (value : string) : METAR :=
  {| rawText := rawText m; cloudLayers := cloudLayers m; temp := temp m;
     dewp := dewp m; wspd := wspd m; visib := visib m; altim := altim m;
     wdir := wdir m; flags := Z.lor (flags m) HAS_FLTCAT; icaoId := icaoId m;
     receiptTime := receiptTime m; obsTime := obsTime m;
     fltcat := safeCopy 5 value |}.

Definition setThunderstorm (m : METAR) (value : bool) : METAR :=
  if value then set_flags m (Z.lor (flags m) HAS_THUNDERSTORM)
  else set_flags m (Z.land (flags m) (Z.lxor 0xFFFF HAS_THUNDERSTORM)).

Definition setObsTime (m : METAR) (time : string) : METAR :=
  {| rawText := rawText m; cloudLayers := cloudLayers m; temp := temp m;
     dewp := dewp m; wspd := wspd m; visib := visib m; altim := altim m;
     wdir := wdir m; flags := flags m; icaoId := icaoId m;
     receiptTime := receiptTime m; obsTime := safeCopy 8 time;
     fltcat := fltcat m |}.

Definition setRawText (m : METAR) (text : string) : METAR :=
  {| rawText := Some text; cloudLayers := cloudLayers m; temp := temp m;
     dewp := dewp m; wspd := wspd m; visib := visib m; altim := altim m;
     wdir := wdir m; flags := flags m; icaoId := icaoId m;
     receiptTime := receiptTime m; obsTime := obsTime m;
     fltcat := fltcat m |}.

Definition setIcaoId (m : METAR) (icao : string) : METAR :=
  {| rawText := rawText m; cloudLayers := cloudLayers m; temp := temp m;
     dewp := dewp m; wspd := wspd m; visib := visib m; altim := altim m;
     wdir := wdir m; flags := flags m; icaoId := safeCopy ICAO_BUFFER_SIZE icao;
     receiptTime := receiptTime m; obsTime := obsTime m;
     fltcat := fltcat m |}.

Definition setCloudLayers (m : METAR) (layers : list CloudLayer) : METAR :=
  {| rawText := rawText m; cloudLayers := layers; temp := temp m;
     dewp := dewp m; wspd := wspd m; visib := visib m; altim := altim m;
     wdir := wdir m; flags := flags m; icaoId := icaoId m;
     receiptTime := receiptTime m; obsTime := obsTime m;
     fltcat := fltcat m |}.

Definition isValid (m : METAR) : bool :=
  (String.length (icaoId m) =? ICAO_CODE_LENGTH)%nat && hasFltcat m.

(** ** The METAR parser *)

Module MetarParser.
Import CLib.

Definition two_digits (s : string) (p : nat) : Z :=
  (digit_val (char_at s p) * 10 + digit_val (char_at s (p + 1)))%Z.

Definition three_digits_at (s : string) (p : nat) : bool :=
  isdigit (char_at s p) && isdigit (char_at s (p + 1))
  && isdigit (char_at s (p + 2)).

(** [parseObsTime]: [Some] of the seven characters copied into [obsTime]
    when the function returns true, [None] when it returns false.  The
    caller always passes a buffer of eight bytes. *)
Definition parseObsTime (rawMetarLine : string) : option string :=
  let timeStart := skip_spaces rawMetarLine 0 in
  let timeStart :=
    if starts_with rawMetarLine timeStart "METAR"
    then skip_spaces rawMetarLine (timeStart + 5)
    else timeStart in
  if (String.length (drop timeStart rawMetarLine) <? 4)%nat then None
  else
    let timeStart := skip_spaces rawMetarLine (timeStart + 4) in
    if (String.length (drop timeStart rawMetarLine) <? 7)%nat then None
    else
      let c := fun i => char_at rawMetarLine (timeStart + i) in
      if negb (isdigit (c 0%nat)) || negb (isdigit (c 1%nat))
         || negb (isdigit (c 2%nat)) || negb (isdigit (c 3%nat))
         || negb (isdigit (c 4%nat)) || negb (isdigit (c 5%nat))
         || (negb (Ascii.eqb (c 6%nat) "Z") && negb (Ascii.eqb (c 6%nat) "z"))
      then None
      else
        let day := two_digits rawMetarLine timeStart in
        let hour := two_digits rawMetarLine (timeStart + 2) in
        let minute := two_digits rawMetarLine (timeStart + 4) in
        if (day <? 1)%Z || (31 <? day)%Z || (23 <? hour)%Z || (59 <? minute)%Z
        then None
        else Some (copy_n rawMetarLine timeStart 7).

Definition cloudCodes : list string :=
  ["SKC"; "CLR"; "FEW"; "SCT"; "BKN"; "OVC"; "VV"].

(** The inner [for] loop: the first code of the table found at [pos]. *)
Definition match_code (rawText : string) (pos : nat) : option string :=
  List.find (fun code => starts_with rawText pos code) cloudCodes.

(** The scanning loop of [parseCloudConditions].  Each round moves [pos]
    forward, so [S (strlen rawText)] rounds of fuel are never used up.  A
    line that ends in blanks makes the C loop step over the terminator;
    the model stops there (the lines handed to the parser are trimmed). *)
Fixpoint cloud_loop (fuel : nat) (rawText : string) (pos : nat)
    (tempLayers : list CloudLayer) (metar : METAR)
  : list CloudLayer * METAR :=
  match fuel with
  | O => (tempLayers, metar)
  | S fuel' =>
      if (String.length rawText <=? pos)%nat || (10 <=? length tempLayers)%nat
      then (tempLayers, metar)
      else
        let pos := skip_spaces rawText pos in
        if (String.length rawText <=? pos)%nat then (tempLayers, metar)
        else
          match match_code rawText pos with
          | Some code =>
              let cov := String.substring 0 3 code in
              let pos := (pos + String.length code)%nat in
              if String.eqb code "SKC" || String.eqb code "CLR" then
                cloud_loop fuel' rawText pos
                  (tempLayers ++ [mkCloudLayer cov 0 ""]) metar
              else if three_digits_at rawText pos then
                let h := atoi (copy_n rawText pos 3) in
                let pos := (pos + 3)%nat in
                if starts_with rawText pos "CB" then
                  cloud_loop fuel' rawText (pos + 2)
                    (tempLayers ++ [mkCloudLayer cov h "CB"])
                    (setThunderstorm metar true)
                else if starts_with rawText pos "TCU" then
                  cloud_loop fuel' rawText (pos + 3)
                    (tempLayers ++ [mkCloudLayer cov h "TCU"]) metar
                else
                  cloud_loop fuel' rawText pos
                    (tempLayers ++ [mkCloudLayer cov h ""]) metar
              else cloud_loop fuel' rawText pos tempLayers metar
          | None => cloud_loop fuel' rawText (pos + 1) tempLayers metar
          end
  end.

(** [parseCloudConditions]: the layers found replace those of [metar]
    (allocation is taken to succeed). *)
Definition parseCloudConditions (metar : METAR) (rawText : string) : METAR :=
  let '(tempLayers, metar) :=
    cloud_loop (S (String.length rawText)) rawText 0 [] metar in
  setCloudLayers metar tempLayers.

(** [parseVisibility]; the recursive call is on a proper suffix of the
    trimmed string, so fuel [S (strlen visStr)] is enough. *)
Fixpoint parseVisibility_fuel (fuel : nat) (visStr : string) : Q :=
  match fuel with
  | O => 0
  | S fuel' =>
      let vis := trim visStr in
      if endsWith vis "+" then
        toFloat (substring vis 0 (Z.of_nat (String.length vis) - 1))
      else
        let slashPos := indexOf vis "/" in
        if (0 <? slashPos)%Z && (indexOf vis " " <? 0)%Z then
          let num := toFloat (substring vis 0 slashPos) in
          let denom := toFloat (substring_from vis (slashPos + 1)) in
          if Qltb 0 denom then (num / denom)%Q else 0
        else
          let spacePos := indexOf vis " " in
          if (0 <? spacePos)%Z then
            let whole := toFloat (substring vis 0 spacePos) in
            let fraction :=
              parseVisibility_fuel fuel' (substring_from vis (spacePos + 1)) in
            (whole + fraction)%Q
          else toFloat vis
  end.

Definition parseVisibility (visStr : string) : Q :=
  parseVisibility_fuel (S (String.length visStr)) visStr.

Definition parseTemperatureValue (tempStr : string) : Q :=
  let negative := Ascii.eqb (char_at tempStr 0) "M" in
  let temp := atof (if negative then drop 1 tempStr else tempStr) in
  if negative then (- temp)%Q else temp.

Definition calculateCeiling (metar : string) : Z :=
  let ceiling := 0%Z in
  let bknPtr := strstr metar "BKN" in
  let ovcPtr := strstr metar "OVC" in
  let ceiling :=
    match bknPtr with
    | Some bknPtr =>
        let altPtr := (bknPtr + 3)%nat in
        if three_digits_at metar altPtr
        then (atoi (copy_n metar altPtr 3) * 100)%Z
        else ceiling
    | None => ceiling
    end in
  let ceiling :=
    match ovcPtr with
    | Some ovcPtr =>
        let altPtr := (ovcPtr + 3)%nat in
        if three_digits_at metar altPtr then
          let ovcCeiling := (atoi (copy_n metar altPtr 3) * 100)%Z in
          if (ceiling =? 0)%Z || (ovcCeiling <? ceiling)%Z
          then ovcCeiling else ceiling
        else ceiling
    | None => ceiling
    end in
  ceiling.

Definition deriveFlightCategory (visibility : Q) (ceiling : Z) : string :=
  if ((0 <? ceiling)%Z && (ceiling <? FlightCategory.LIFR_CEILING)%Z)
     || (Qltb 0 visibility && Qltb visibility FlightCategory.LIFR_VISIBILITY)
  then "LIFR"
  else if ((0 <? ceiling)%Z && (FlightCategory.LIFR_CEILING <=? ceiling)%Z
           && (ceiling <? FlightCategory.IFR_CEILING)%Z)
          || (Qltb 0 visibility
              && Qle_bool FlightCategory.LIFR_VISIBILITY visibility
              && Qltb visibility FlightCategory.IFR_VISIBILITY)
  then "IFR"
  else if ((0 <? ceiling)%Z && (FlightCategory.IFR_CEILING <=? ceiling)%Z
           && (ceiling <=? FlightCategory.MVFR_CEILING)%Z)
          || (Qltb 0 visibility
              && Qle_bool FlightCategory.IFR_VISIBILITY visibility
              && Qltb visibility FlightCategory.MVFR_VISIBILITY)
  then "MVFR"
  else "VFR".

(** *** [parse], block by block *)

(** The thunderstorm check on the weather phenomena. *)
Definition parse_thunderstorm (rawMetarLine : string) (metar : METAR)
  : METAR :=
  match strstr rawMetarLine "KT" with
  | Some ktPtr =>
      match strstr_from rawMetarLine "TS" ktPtr with
      | Some tsPtr =>
          if negb (starts_with rawMetarLine tsPtr "TSNO")
          then setThunderstorm metar true
          else metar
      | None => metar
      end
  | None => metar
  end.

(** The identifier. *)
Definition parse_icao (rawMetarLine : string) (metar : METAR) : METAR :=
  if (10 <=? String.length rawMetarLine)%nat then
    let icaoStart :=
      if starts_with rawMetarLine 0 "METAR " then 6%nat
      else if starts_with rawMetarLine 0 "SPECI " then 6%nat
      else 0%nat in
    let icaoStart := skip_spaces rawMetarLine icaoStart in
    if (4 <=? String.length (drop icaoStart rawMetarLine))%nat
    then setIcaoId metar (copy_n rawMetarLine icaoStart ICAO_CODE_LENGTH)
    else metar
  else metar.

(** The wind group before the first "KT". *)
Definition parse_wind (rawMetarLine : string) (metar : METAR) : METAR :=
  match strstr rawMetarLine "KT" with
  | Some windPtr =>
      if (4 <? windPtr)%nat then
        let windStart := (windPtr - 5)%nat in
        let metar :=
          if three_digits_at rawMetarLine windStart
          then setWdir metar (atoi (copy_n rawMetarLine windStart 3))
          else metar in
        if isdigit (char_at rawMetarLine (windStart + 3))
           && isdigit (char_at rawMetarLine (windStart + 4))
        then setWspd metar (atof (copy_n rawMetarLine (windStart + 3) 2))
        else metar
      else metar
  | None => metar
  end.

Definition vis_char (c : ascii) : bool :=
  isdigit c || Ascii.eqb c "/" || Ascii.eqb c " " || Ascii.eqb c "+".

(** The backward walks: the pointer moves left while it is inside the line
    and the character before it is accepted. *)
Fixpoint walk_back (accept : ascii -> bool) (s : string) (p : nat) : nat :=
  match p with
  | O => O
  | S p' => if accept (char_at s p') then walk_back accept s p' else p
  end.

(** The characters handed to [parseVisibility], if any. *)
Definition visibility_token (rawMetarLine : string) : option string :=
  match strstr rawMetarLine "SM", strstr rawMetarLine "KT" with
  | Some visPtr, Some ktPtr =>
      if (0 <? visPtr)%nat && (ktPtr <? visPtr)%nat then
        let visStart := walk_back vis_char rawMetarLine (visPtr - 1) in
        let visStart :=
          if (visStart <? ktPtr + 2)%nat
          then skip_spaces rawMetarLine (ktPtr + 2)
          else visStart in
        if (visStart <? visPtr)%nat then
          let len := (visPtr - visStart)%nat in
          let len := if (16 <=? len)%nat then 15%nat else len in
          Some (copy_n rawMetarLine visStart len)
        else None
      else None
  | _, _ => None
  end.

Definition parse_visibility (rawMetarLine : string) (metar : METAR)
  : METAR :=
  match visibility_token rawMetarLine with
  | Some visStr =>
      if negb (Ascii.eqb (char_at visStr 0) "R")
      then setVisib metar (parseVisibility visStr)
      else metar
  | None => metar
  end.

Definition temp_char (c : ascii) : bool := isdigit c || Ascii.eqb c "M".

Fixpoint count_while (accept : ascii -> bool) (s : string) : nat :=
  match s with
  | String c s' => if accept c then S (count_while accept s') else O
  | EmptyString => O
  end.

(** Temperature and dew point around the first '/' after the visibility. *)
Definition parse_temperature (rawMetarLine : string) (metar : METAR)
  : METAR :=
  let searchStart :=
    match strstr rawMetarLine "SM" with
    | Some visPtr => if (0 <? visPtr)%nat then visPtr else 0%nat
    | None => 0%nat
    end in
  match strchr_from rawMetarLine "/" searchStart with
  | Some tempPtr =>
      if (10 <? tempPtr)%nat then
        let tempStart := walk_back temp_char rawMetarLine (tempPtr - 1) in
        if (0 <? tempStart)%nat
           && Ascii.eqb (char_at rawMetarLine (tempStart - 1)) " "
        then
          if (tempStart <? tempPtr)%nat then
            let tempLen := (tempPtr - tempStart)%nat in
            let tempLen := if (6 <=? tempLen)%nat then 5%nat else tempLen in
            let tempStr := copy_n rawMetarLine tempStart tempLen in
            let metar := setTemp metar (parseTemperatureValue tempStr) in
            let dewStart := (tempPtr + 1)%nat in
            let dewEnd :=
              (dewStart
               + count_while temp_char (drop dewStart rawMetarLine))%nat in
            if (dewStart <? dewEnd)%nat then
              let dewLen := (dewEnd - dewStart)%nat in
              let dewLen := if (6 <=? dewLen)%nat then 5%nat else dewLen in
              let dewStr := copy_n rawMetarLine dewStart dewLen in
              setDewp metar (parseTemperatureValue dewStr)
            else metar
          else metar
        else metar
      else metar
  | None => metar
  end.

Definition four_digits_after (s : string) (altPtr : nat) : bool :=
  isdigit (char_at s (altPtr + 1)) && isdigit (char_at s (altPtr + 2))
  && isdigit (char_at s (altPtr + 3)) && isdigit (char_at s (altPtr + 4)).

(** The altimeter loop over the occurrences of " A"; [altPtr] is the
    result of the last [strstr].  Every round moves to a later occurrence,
    so [S (strlen rawMetarLine)] rounds of fuel are never used up. *)
Fixpoint altimeter_loop (fuel : nat) (rawMetarLine : string)
    (altPtr : option nat) (metar : METAR) : METAR :=
  match fuel with
  | O => metar
  | S fuel' =>
      match altPtr with
      | None => metar
      | Some altPtr =>
          let altPtr := (altPtr + 1)%nat in
          if (5 <=? String.length (drop altPtr rawMetarLine))%nat
             && four_digits_after rawMetarLine altPtr
          then
            setAltim metar
              (atof (copy_n rawMetarLine (altPtr + 1) 4) / 100)%Q
          else
            altimeter_loop fuel' rawMetarLine
              (strstr_from rawMetarLine " A" (altPtr + 1)) metar
      end
  end.

Definition parse_altimeter (rawMetarLine : string) (metar : METAR) : METAR :=
  altimeter_loop (S (String.length rawMetarLine)) rawMetarLine
    (strstr rawMetarLine " A") metar.

Definition parse_fltcat (rawMetarLine : string) (metar : METAR) : METAR :=
  let ceiling := calculateCeiling rawMetarLine in
  let fltcat := deriveFlightCategory (visib metar) ceiling in
  setFltcat metar fltcat.

Definition parse_obsTime (rawMetarLine : string) (metar : METAR) : METAR :=
  match parseObsTime rawMetarLine with
  | Some obsTimeBuffer => setObsTime metar obsTimeBuffer
  | None => metar
  end.

Definition parse (rawMetarLine : string) : METAR :=
  let metar := METAR_new in
  if (String.length rawMetarLine <? 10)%nat then metar
  else
    let metar := setRawText metar rawMetarLine in
    let metar := parse_obsTime rawMetarLine metar in
    let metar := parse_thunderstorm rawMetarLine metar in
    let metar := parse_icao rawMetarLine metar in
    let metar := parse_wind rawMetarLine metar in
    let metar := parseCloudConditions metar rawMetarLine in
    let metar := parse_visibility rawMetarLine metar in
    let metar := parse_temperature rawMetarLine metar in
    let metar := parse_altimeter rawMetarLine metar in
    parse_fltcat rawMetarLine metar.

(** *** Formatting

    [snprintf(buf, size, ...)] leaves in [buf] the first [size - 1]
    characters of the text and returns the length of the whole text. *)
Definition snprintf_buffer (size : nat) (text : string) : string :=
  String.substring 0 (size - 1) text.

Definition two_chars (s : string) (p : nat) : string :=
  String (char_at s p) (String (char_at s (p + 1)) EmptyString).

(** [formatObsTime]: the text left in [output]. *)
Definition formatObsTime (obsTime : string) (outputSize : nat) : string :=
  if (String.length obsTime <? 7)%nat || (outputSize <? 20)%nat then ""
  else
    let day := two_chars obsTime 0 in
    let hour := two_chars obsTime 2 in
    let minute := two_chars obsTime 4 in
    snprintf_buffer outputSize
      (String.append "Day "
         (String.append day
            (String.append " at "
               (String.append hour
                  (String.append ":" (String.append minute " UTC")))))).

(** [formatCloudLayers].  Every [snprintf] of the loop either fits in
    what remains of the buffer, and then its text is kept, or does not,
    and then the loop is left and the text written so far is closed
    where that piece began. *)
Fixpoint write_pieces (pieces : list string) (remaining : Z) : string :=
  match pieces with
  | [] => EmptyString
  | piece :: rest =>
      let written := Z.of_nat (String.length piece) in
      if (remaining <=? written)%Z then EmptyString
      else String.append piece (write_pieces rest (remaining - written))
  end.

(** What the loop prints for layer [i] of [n]. *)
Definition layer_pieces (n i : nat) (l : CloudLayer) : list string :=
  ([coverage l]
   ++ (if (0 <? height l)%Z
       then [String.append " at "
               (String.append (printNumber (height l)) "00 ft")]
       else [])
   ++ (if negb (String.eqb (type l) "")
       then [String.append " (" (String.append (type l) ")")]
       else [])
   ++ (if (Z.of_nat i <? Z.of_nat n - 1)%Z then [", "] else []))%list.

Definition all_pieces (m : METAR) : list string :=
  concat (imap (layer_pieces (length (cloudLayers m))) (cloudLayers m)).

Definition formatCloudLayers (m : METAR) (outputSize : nat) : string :=
  if negb (hasCloudLayers m) || (outputSize =? 0)%nat then EmptyString
  else write_pieces (all_pieces m) (Z.of_nat outputSize - 1).

End MetarParser.

(** ** Airport slots and system state *)

Record AirportLED := mkAirportLED {
  icaoCode : string;
  metarData : METAR;
  hasValidData : bool
}.

(** [AirportLED(code)]. *)
Definition AirportLED_new (code : string) : AirportLED :=
  {| icaoCode := safeCopy ICAO_BUFFER_SIZE code; metarData := METAR_new;
     hasValidData := false |}.

Definition isEmpty (a : AirportLED) : bool :=
  (String.length (icaoCode a) =? 0)%nat.

(** The fields of [g_state] that the overlays read. *)
Record SystemState := mkSystemState {
  lastFetchStatus : METAR_STATUS;
  ledPowerState : bool;
  windCheckEnabled : bool;
  thunderstormsCheckEnabled : bool;
  windCheckThreshold : Z
}.

Definition METAR_STATUS_eqb (a b : METAR_STATUS) : bool :=
  match a, b with
  | SUCCESS, SUCCESS
  | CONNECTION_FAILURE, CONNECTION_FAILURE
  | CONNECTION_TIMEOUT, CONNECTION_TIMEOUT
  | PARSING_FAILURE, PARSING_FAILURE
  | RESPONSE_FAILURE, RESPONSE_FAILURE => true
  | _, _ => false
  end.

(** [for (int i = 0; i < n; i++) body], on the state the body updates. *)
Definition for_upto {S : Type} (n : nat) (body : nat -> S -> S) (s : S) : S :=
  foldl (fun s i => body i s) s (seq 0 n).

(** ** The weather client *)

Module WeatherAPIClient.
Import CLib.

(** The slot loop of [parseWeatherData]: the index of the first slot whose
    code compares equal ([strcmp == 0]), where the loop breaks. *)
Fixpoint first_match (airports : list AirportLED) (icao : string) (i : nat)
  : option nat :=
  match airports with
  | [] => None
  | a :: rest =>
      if String.eqb (icaoCode a) icao then Some i
      else first_match rest icao (S i)
  end.

(** [airports[i].metarData = metar; airports[i].hasValidData = true]. *)
Definition store_metar (metar : METAR) (a : AirportLED) : AirportLED :=
  {| icaoCode := icaoCode a; metarData := metar; hasValidData := true |}.

(** What the loop body does with one line cut out of the response. *)
Definition merge_line (line : string)
    (st : list AirportLED * Z) : list AirportLED * Z :=
  let '(airports, parsedCount) := st in
  let line := trim line in
  if (10 <? String.length line)%nat then
    let metar := MetarParser.parse line in
    if (0 <? String.length (icaoId metar))%nat then
      match first_match airports (icaoId metar) 0 with
      | Some i => (alter (store_metar metar) i airports, (parsedCount + 1)%Z)
      | None => (airports, parsedCount)
      end
    else (airports, parsedCount)
  else (airports, parsedCount).

Definition newline : ascii := "010"%char.

(** The [while (true)] loop; each round moves [startPos] past a line feed,
    so [S (length rawData)] rounds of fuel are never used up.
    [parsedCount] is an [int] that cannot overflow on a response that fits
    in memory. *)
Fixpoint parse_loop (fuel : nat) (rawData : string) (startPos : Z)
    (st : list AirportLED * Z) : list AirportLED * Z :=
  match fuel with
  | O => st
  | S fuel' =>
      let endPos := indexOf_from rawData newline startPos in
      if (endPos =? -1)%Z then st
      else
        let line := substring rawData startPos endPos in
        parse_loop fuel' rawData (endPos + 1)%Z (merge_line line st)
  end.

(** [parseWeatherData]: the status returned and the slots afterwards
    ([numAirports] is the length of [airports]). *)
Definition parseWeatherData (rawData : string) (airports : list AirportLED)
  : METAR_STATUS * list AirportLED :=
  let '(airports, parsedCount) :=
    parse_loop (S (String.length rawData)) rawData 0 (airports, 0%Z) in
  (if (0 <? parsedCount)%Z then SUCCESS else PARSING_FAILURE, airports).

(** [fetchWeatherData].  The free heap and the outcome of [fetchRawData]
    (its status and the body it stored in [rawData]) come from the
    platform and the network; [fetchRawData] and [buildAPIPath] do not
    write to [airports]. *)
Definition fetchWeatherData (freeHeap : Z)
    (fetchRawData : METAR_STATUS * string) (airports : list AirportLED)
  : METAR_STATUS * list AirportLED :=
  if (freeHeap <? MIN_HEAP_FOR_OPERATION)%Z then (CONNECTION_FAILURE, airports)
  else
    let '(status, rawData) := fetchRawData in
    if negb (METAR_STATUS_eqb status SUCCESS) then (status, airports)
    else parseWeatherData rawData airports.

(** *** The response

    [fetchRawData] after the response has been read: the status it
    returns and the text it leaves in [rawData] (empty when it returns
    before the assignment). *)
Definition CR : ascii := "013"%char.

Definition header_end_crlf : string :=
  String CR (String newline (String CR (String newline EmptyString))).
Definition header_end_lf : string :=
  String newline (String newline EmptyString).

Definition fetchRawData_response (fullResponse : string)
  : METAR_STATUS * string :=
  if (indexOf_string_from fullResponse "200 OK" 0 <? 0)%Z
  then (RESPONSE_FAILURE, EmptyString)
  else
    let headerEnd := indexOf_string_from fullResponse header_end_crlf 0 in
    let headerEnd :=
      if (headerEnd <? 0)%Z
      then indexOf_string_from fullResponse header_end_lf 0
      else headerEnd in
    if (headerEnd <? 0)%Z then (RESPONSE_FAILURE, EmptyString)
    else
      let headerEnd :=
        (headerEnd
         + (if Ascii.eqb (char_at fullResponse (Z.to_nat (headerEnd + 2))) CR
            then 4 else 2))%Z in
      let rawData := trim (substring_from fullResponse headerEnd) in
      (if (0 <? String.length rawData)%nat then SUCCESS
       else RESPONSE_FAILURE, rawData).

(** [buildAPIPath]. *)
Definition buildAPIPath (airports : list AirportLED) : string :=
  let path :=
    foldl
      (fun path a =>
         if (String.length (icaoCode a) =? 0)%nat then path
         else
           let path :=
             if negb (endsWith path "=") then String.append path ","
             else path in
           String.append path (icaoCode a))
      "/api/data/metar?ids=" airports in
  String.append path "&format=raw&taf=false&hours=1".

End WeatherAPIClient.

(** ** The LED controller *)

Module LEDController.
Import LEDColors.

(** [numLeds] is the length of [leds]; [baseColors] has the same length. *)
Record t := mk {
  leds : list CRGB;
  baseColors : list CRGB;
  lastFlashTime : Z;
  lastWindBlinkTime : Z;
  flashState : bool;
  windBlinkState : bool
}.

Definition numLeds (c : t) : nat := length (leds c).

(** The constructor: both timers at zero, both overlays idle. *)
Definition new (leds0 base0 : list CRGB) : t :=
  {| leds := leds0; baseColors := base0; lastFlashTime := 0;
     lastWindBlinkTime := 0; flashState := false; windBlinkState := false |}.

(** [a - b] on [unsigned long]. *)
Definition elapsed (a b : Z) : Z := ((a - b) mod 2 ^ 32)%Z.

Definition getFlightCategoryColor (fltcat : string) : CRGB :=
  if String.eqb fltcat "VFR" then VFR
  else if String.eqb fltcat "MVFR" then MVFR
  else if String.eqb fltcat "IFR" then IFR
  else if String.eqb fltcat "LIFR" then LIFR
  else NO_DATA.

Definition high_wind (g : SystemState) (a : AirportLED) : bool :=
  hasWspd (metarData a)
  && Qltb (inject_Z (windCheckThreshold g)) (wspd (metarData a)).

(** The body of the loop of [updateFromAirports] on [(leds, baseColors)]. *)
Definition base_body (g : SystemState) (airports : list AirportLED)
    (i : nat) (st : list CRGB * list CRGB) : list CRGB * list CRGB :=
  let '(l, b) := st in
  match airports !! i with
  | None => st
  | Some a =>
      if negb (ledPowerState g) then (<[i:=OFF]> l, <[i:=OFF]> b)
      else if isEmpty a then (<[i:=OFF]> l, <[i:=OFF]> b)
      else if negb (hasValidData a) || negb (hasFltcat (metarData a))
      then (<[i:=NO_DATA]> l, <[i:=NO_DATA]> b)
      else
        let color := getFlightCategoryColor (fltcat (metarData a)) in
        let base :=
          if windCheckEnabled g && high_wind g a then WIND_WARNING
          else color in
        (<[i:=base]> l, <[i:=base]> b)
  end.

Definition updateFromAirports (g : SystemState) (airports : list AirportLED)
    (c : t) : t :=
  let '(l, b) :=
    for_upto (Nat.min (length airports) (numLeds c))
      (base_body g airports) (leds c, baseColors c) in
  {| leds := l; baseColors := b; lastFlashTime := lastFlashTime c;
     lastWindBlinkTime := lastWindBlinkTime c; flashState := flashState c;
     windBlinkState := windBlinkState c |}.

Definition storm_slot (a : AirportLED) : bool :=
  hasValidData a && hasThunderstorm (metarData a).

(** [if (storm slot i) leds[i] = color i]. *)
Definition storm_body (airports : list AirportLED)
    (color : nat -> option CRGB) (i : nat) (l : list CRGB) : list CRGB :=
  match airports !! i, color i with
  | Some a, Some col => if storm_slot a then <[i:=col]> l else l
  | _, _ => l
  end.

(** [updateThunderstorms] at clock value [currentMillis], where
    [random(0, 100)] returns [rnd] if it is called. *)
Definition updateThunderstorms (g : SystemState) (currentMillis rnd : Z)
    (airports : list AirportLED) (c : t) : t :=
  if negb (thunderstormsCheckEnabled g) then c
  else if negb (ledPowerState g) then c
  else if negb (METAR_STATUS_eqb (lastFetchStatus g) SUCCESS) then c
  else
    let n := Nat.min (length airports) (numLeds c) in
    let hasThunderstorms := existsb storm_slot (take n airports) in
    if negb hasThunderstorms then c
    else if flashState c then
      if (100 <=? elapsed currentMillis (lastFlashTime c))%Z then
        {| leds :=
             for_upto n (storm_body airports (fun i => baseColors c !! i))
               (leds c);
           baseColors := baseColors c;
           lastFlashTime := currentMillis;
           lastWindBlinkTime := lastWindBlinkTime c;
           flashState := false;
           windBlinkState := windBlinkState c |}
      else c
    else
      if (3000 <=? elapsed currentMillis (lastFlashTime c))%Z then
        if (rnd <? 20)%Z then
          {| leds :=
               for_upto n (storm_body airports (fun _ => Some THUNDERSTORM))
                 (leds c);
             baseColors := baseColors c;
             lastFlashTime := currentMillis;
             lastWindBlinkTime := lastWindBlinkTime c;
             flashState := true;
             windBlinkState := windBlinkState c |}
        else c
      else c.

Definition wind_slot (g : SystemState) (a : AirportLED) : bool :=
  hasValidData a && high_wind g a && negb (hasThunderstorm (metarData a)).

Definition wind_body (g : SystemState) (airports : list AirportLED)
    (blink : bool) (i : nat) (l : list CRGB) : list CRGB :=
  match airports !! i with
  | Some a =>
      if wind_slot g a
      then if blink then <[i:=WIND_WARNING]> l else <[i:=OFF]> l
      else l
  | None => l
  end.

(** [updateWindBlink] at clock value [currentMillis]. *)
Definition updateWindBlink (g : SystemState) (currentMillis : Z)
    (airports : list AirportLED) (c : t) : t :=
  if negb (windCheckEnabled g) then c
  else if negb (ledPowerState g) then c
  else if negb (METAR_STATUS_eqb (lastFetchStatus g) SUCCESS) then c
  else if (WIND_BLINK_INTERVAL <=? elapsed currentMillis (lastWindBlinkTime c))%Z
  then
    let blink := negb (windBlinkState c) in
    {| leds :=
         for_upto (Nat.min (length airports) (numLeds c))
           (wind_body g airports blink) (leds c);
       baseColors := baseColors c;
       lastFlashTime := lastFlashTime c;
       lastWindBlinkTime := currentMillis;
       flashState := flashState c;
       windBlinkState := blink |}
  else c.

End LEDController.

Definition is_Some_bool {A : Type} (o : option A) : bool :=
  match o with Some _ => true | None => false end.

(** ** Settings

    The fields of [SystemState] that are kept across restarts, with the
    brightness.  The settings file is [None] when it cannot be opened for
    reading; the preference "ledsEnabled" is [None] when it was never
    stored. *)

Module Settings.
Import CLib.

Definition DEFAULT_BRIGHTNESS : Z := 30.
Definition WIND_THRESHOLD : Z := 25.
Definition DO_WINDS : bool := true.
Definition DO_THUNDERSTORMS : bool := true.

Record t := mk {
  ledPowerState : bool;
  ledBrightness : Z;
  windCheckEnabled : bool;
  thunderstormsCheckEnabled : bool;
  windCheckThreshold : Z
}.

(** Conversion of an [int] to [uint8_t] and to [unsigned int]. *)
Definition uint8 (v : Z) : Z := (v mod 256)%Z.
Definition unsigned (v : Z) : Z := (v mod 2 ^ 32)%Z.

Definition dquote : ascii := "034"%char.

(** The text of a key with its quotes and colon. *)
Definition key (name : string) : string :=
  String dquote (String.append name (String dquote ":")).

(** The number after the key found at [idx], clamped to [lo..hi]. *)
Definition read_value (content : string) (idx lo hi : Z) : Z :=
  let valStart := (indexOf_from content ":" idx + 1)%Z in
  let valEnd := indexOf_from content "," valStart in
  let valEnd :=
    if (valEnd <? 0)%Z then indexOf_from content "}" valStart else valEnd in
  let val := trim (substring content valStart (unsigned valEnd)) in
  constrain (toInt val) lo hi.

(** Whether "true" starts after [idx] and before [idx + width]. *)
Definition read_flag (content : string) (idx width : Z) : bool :=
  (idx <? indexOf_string_from content "true" idx)%Z
  && (indexOf_string_from content "true" idx <? idx + width)%Z.

Definition loadSettings (file : option string) (ledsEnabled : option bool)
  : t :=
  match file with
  | None =>
      {| ledPowerState := true; ledBrightness := DEFAULT_BRIGHTNESS;
         windCheckEnabled := DO_WINDS;
         thunderstormsCheckEnabled := DO_THUNDERSTORMS;
         windCheckThreshold := WIND_THRESHOLD |}
  | Some content =>
      let brightIdx := indexOf_string_from content (key "brightness") 0 in
      let windIdx := indexOf_string_from content (key "windEnabled") 0 in
      let tsIdx :=
        indexOf_string_from content (key "thunderstormsEnabled") 0 in
      let thresholdIdx :=
        indexOf_string_from content (key "windThreshold") 0 in
      {| ledPowerState := default true ledsEnabled;
         ledBrightness :=
           if (0 <=? brightIdx)%Z then read_value content brightIdx 0 255
           else DEFAULT_BRIGHTNESS;
         windCheckEnabled :=
           if (0 <=? windIdx)%Z then read_flag content windIdx 20
           else DO_WINDS;
         thunderstormsCheckEnabled :=
           if (0 <=? tsIdx)%Z then read_flag content tsIdx 30
           else DO_THUNDERSTORMS;
         windCheckThreshold :=
           if (0 <=? thresholdIdx)%Z
           then read_value content thresholdIdx 5 100
           else WIND_THRESHOLD |}
  end.

Definition bool_text (b : bool) : string := if b then "true" else "false".

(** What [saveSettings] prints to the file. *)
Definition settings_text (s : t) : string :=
  String.append "{"
   (String.append (key "brightness")
    (String.append (printNumber (ledBrightness s))
     (String.append ","
      (String.append (key "windEnabled")
       (String.append (bool_text (windCheckEnabled s))
        (String.append ","
         (String.append (key "thunderstormsEnabled")
          (String.append (bool_text (thunderstormsCheckEnabled s))
           (String.append ","
            (String.append (key "windThreshold")
             (String.append (printNumber (windCheckThreshold s))
                "}"))))))))))).

(** [saveSettings]: the file afterwards; [writable] says whether it could
    be opened for writing. *)
Definition saveSettings (writable : bool) (s : t) (file : option string)
  : option string :=
  if writable then Some (settings_text s) else file.

(** The setters, on the settings and the file.  Their [uint8_t] parameter
    takes the caller's [int] modulo 256. *)
Definition setBrightness (writable : bool) (brightness : Z)
    (st : t * option string) : t * option string :=
  let s :=
    {| ledPowerState := ledPowerState st.1;
       ledBrightness := constrain (uint8 brightness) 0 255;
       windCheckEnabled := windCheckEnabled st.1;
       thunderstormsCheckEnabled := thunderstormsCheckEnabled st.1;
       windCheckThreshold := windCheckThreshold st.1 |} in
  (s, saveSettings writable s st.2).

Definition setWindEnabled (writable : bool) (enabled : bool)
    (st : t * option string) : t * option string :=
  let s :=
    {| ledPowerState := ledPowerState st.1;
       ledBrightness := ledBrightness st.1;
       windCheckEnabled := enabled;
       thunderstormsCheckEnabled := thunderstormsCheckEnabled st.1;
       windCheckThreshold := windCheckThreshold st.1 |} in
  (s, saveSettings writable s st.2).

Definition setThunderstormsEnabled (writable : bool) (enabled : bool)
    (st : t * option string) : t * option string :=
  let s :=
    {| ledPowerState := ledPowerState st.1;
       ledBrightness := ledBrightness st.1;
       windCheckEnabled := windCheckEnabled st.1;
       thunderstormsCheckEnabled := enabled;
       windCheckThreshold := windCheckThreshold st.1 |} in
  (s, saveSettings writable s st.2).

Definition setWindThreshold (writable : bool) (threshold : Z)
    (st : t * option string) : t * option string :=
  let s :=
    {| ledPowerState := ledPowerState st.1;
       ledBrightness := ledBrightness st.1;
       windCheckEnabled := windCheckEnabled st.1;
       thunderstormsCheckEnabled := thunderstormsCheckEnabled st.1;
       windCheckThreshold := constrain (uint8 threshold) 5 100 |} in
  (s, saveSettings writable s st.2).

(** [g_state] as the LED controller reads it. *)
Definition system_state (status : METAR_STATUS) (s : t) : SystemState :=
  mkSystemState status (ledPowerState s) (windCheckEnabled s)
    (thunderstormsCheckEnabled s) (windCheckThreshold s).

(** [handleSettingsUpdate]: the POST parameters that are present are
    applied in the order brightness, winds, windThreshold, thunderstorms;
    when there was one the resting colours are computed again and the
    answer is 200, otherwise it is 400.  (The brightness also goes to the
    LED driver, with the same conversion to [uint8_t].) *)
Definition handleSettingsUpdate (writable : bool)
    (brightness winds windThreshold thunderstorms : option string)
    (status : METAR_STATUS) (airports : list AirportLED)
    (st : t * option string) (c : LEDController.t)
  : (t * option string) * LEDController.t * Z :=
  let st :=
    match brightness with
    | Some v => setBrightness writable (toInt v) st
    | None => st
    end in
  let st :=
    match winds with
    | Some v => setWindEnabled writable (String.eqb v "true") st
    | None => st
    end in
  let st :=
    match windThreshold with
    | Some v => setWindThreshold writable (toInt v) st
    | None => st
    end in
  let st :=
    match thunderstorms with
    | Some v => setThunderstormsEnabled writable (String.eqb v "true") st
    | None => st
    end in
  let updated :=
    is_Some_bool brightness || is_Some_bool winds
    || is_Some_bool windThreshold || is_Some_bool thunderstorms in
  if updated then
    (st,
     LEDController.updateFromAirports (system_state status st.1) airports c,
     200%Z)
  else (st, c, 400%Z).

End Settings.

(** ** The sketch: globals, button and update schedule *)

Module Sketch.
Import CLib LEDColors.

Definition LOOP_INTERVAL : Z := 5000.
Definition REQUEST_INTERVAL : Z := 900000.
Definition RETRY_TIMEOUT : Z := 15000.
Definition BUTTON_LONG_PRESS_DURATION : Z := 7000.
Definition CRITICAL_MEMORY_THRESHOLD : Z := 8000.
Definition STATUS_BUFFER_SIZE : nat := 64.

(** The size of a [char*]: the ESP32 is a 32-bit target. *)
Definition POINTER_SIZE : nat := 4.

(** The globals that the button and the update schedule read and write:
    [g_state] with its three texts, the slots, the LED controller, the
    stored display preference and the two timing variables. *)
Record Globals := mkGlobals {
  g_state : SystemState;
  programStatus : string;
  lastFetchTime : string;
  lastAttemptTime : string;
  ledsEnabledPref : option bool;
  airportLEDs : list AirportLED;
  ledController : LEDController.t;
  previousMillis : Z;
  interval : Z
}.

(** The text before the first line feed, as [*newline = 0] leaves it. *)
Fixpoint cut_at_newline (s : string) : string :=
  match s with
  | EmptyString => EmptyString
  | String c s' =>
      if Ascii.eqb c "010" then EmptyString else String c (cut_at_newline s')
  end.

(** [updateTime(buffer)], where [ctime] returns [timeStr].  [buffer] is a
    [char*] parameter, so the [sizeof] in [safeCopy] is the size of a
    pointer. *)
Definition updateTime (timeStr : option string) (buffer : string) : string :=
  match timeStr with
  | Some t => cut_at_newline (safeCopy POINTER_SIZE t)
  | None => buffer
  end.

Definition setStatus (status : string) (G : Globals) : Globals :=
  {| g_state := g_state G;
     programStatus := safeCopy STATUS_BUFFER_SIZE status;
     lastFetchTime := lastFetchTime G; lastAttemptTime := lastAttemptTime G;
     ledsEnabledPref := ledsEnabledPref G; airportLEDs := airportLEDs G;
     ledController := ledController G; previousMillis := previousMillis G;
     interval := interval G |}.

Definition setFetchStatus (status : METAR_STATUS) (g : SystemState)
  : SystemState :=
  {| lastFetchStatus := status; ledPowerState := ledPowerState g;
     windCheckEnabled := windCheckEnabled g;
     thunderstormsCheckEnabled := thunderstormsCheckEnabled g;
     windCheckThreshold := windCheckThreshold g |}.

(** [setLEDState]: the state and the stored preference. *)
Definition setLEDState (state : bool) (G : Globals) : Globals :=
  {| g_state :=
       {| lastFetchStatus := lastFetchStatus (g_state G);
          ledPowerState := state;
          windCheckEnabled := windCheckEnabled (g_state G);
          thunderstormsCheckEnabled := thunderstormsCheckEnabled (g_state G);
          windCheckThreshold := windCheckThreshold (g_state G) |};
     programStatus := programStatus G;
     lastFetchTime := lastFetchTime G; lastAttemptTime := lastAttemptTime G;
     ledsEnabledPref := Some state; airportLEDs := airportLEDs G;
     ledController := ledController G; previousMillis := previousMillis G;
     interval := interval G |}.

(** [showErrorState]: the pulse ends on the frame [CHSV(0, 255, 0)], which
    the LED library converts to black; [baseColors] is not written. *)
Definition showErrorState (c : LEDController.t) : LEDController.t :=
  {| LEDController.leds := replicate (LEDController.numLeds c) OFF;
     LEDController.baseColors := LEDController.baseColors c;
     LEDController.lastFlashTime := LEDController.lastFlashTime c;
     LEDController.lastWindBlinkTime := LEDController.lastWindBlinkTime c;
     LEDController.flashState := LEDController.flashState c;
     LEDController.windBlinkState := LEDController.windBlinkState c |}.

(** The static variables of [handleButtonPress]. *)
Record Button := mkButton {
  pressStartTime : Z;
  buttonWasPressed : bool;
  longPressHandled : bool
}.

(** [handleButtonPress], where the pin reads [buttonPressed] and [millis()]
    returns [now].  [None]: the WiFi credentials were removed and the
    device restarts. *)
Definition handleButtonPress (buttonPressed : bool) (now : Z)
    (st : Button * Globals) : option (Button * Globals) :=
  let '(b, G) := st in
  if buttonPressed && negb (buttonWasPressed b) then
    Some ({| pressStartTime := now; buttonWasPressed := true;
             longPressHandled := false |}, G)
  else if buttonPressed && buttonWasPressed b then
    let pressDuration := LEDController.elapsed now (pressStartTime b) in
    if (BUTTON_LONG_PRESS_DURATION <=? pressDuration)%Z
       && negb (longPressHandled b)
    then None
    else Some st
  else if negb buttonPressed && buttonWasPressed b then
    let pressDuration := LEDController.elapsed now (pressStartTime b) in
    let G :=
      if (pressDuration <? BUTTON_LONG_PRESS_DURATION)%Z
      then setLEDState (negb (ledPowerState (g_state G))) G
      else G in
    Some ({| pressStartTime := pressStartTime b; buttonWasPressed := false;
             longPressHandled := longPressHandled b |}, G)
  else Some st.

(** [handleWeatherUpdates].  [connected] is [wifiManager.isConnected()],
    [attemptTime] and [fetchTime] are what [ctime] returns at the two
    calls of [updateTime], [heapAtCheck] is the free heap read by
    [checkMemory] and [heapAtFetch] the one read by [fetchWeatherData],
    and [response] is the outcome of [fetchRawData].  [None]: [checkMemory]
    restarts the device. *)
Definition handleWeatherUpdates (currentMillis : Z) (connected : bool)
    (attemptTime fetchTime : option string) (heapAtCheck heapAtFetch : Z)
    (response : METAR_STATUS * string) (G : Globals) : option Globals :=
  if (LEDController.elapsed currentMillis (previousMillis G) <? interval G)%Z
  then Some G
  else if negb connected then
    let G := setStatus "WiFi Disconnected" G in
    Some {| g_state := g_state G; programStatus := programStatus G;
            lastFetchTime := lastFetchTime G;
            lastAttemptTime := lastAttemptTime G;
            ledsEnabledPref := ledsEnabledPref G;
            airportLEDs := airportLEDs G;
            ledController := showErrorState (ledController G);
            previousMillis := currentMillis;
            interval := RETRY_TIMEOUT |}
  else
    let attempt := updateTime attemptTime (lastAttemptTime G) in
    if (heapAtCheck <? CRITICAL_MEMORY_THRESHOLD)%Z then None
    else
      let '(result, airports) :=
        WeatherAPIClient.fetchWeatherData heapAtFetch response
          (airportLEDs G) in
      let g := setFetchStatus result (g_state G) in
      if METAR_STATUS_eqb result SUCCESS then
        Some {| g_state := g;
                programStatus :=
                  safeCopy STATUS_BUFFER_SIZE "Weather Data Current";
                lastFetchTime := updateTime fetchTime (lastFetchTime G);
                lastAttemptTime := attempt;
                ledsEnabledPref := ledsEnabledPref G;
                airportLEDs := airports;
                ledController :=
                  LEDController.updateFromAirports g airports
                    (ledController G);
                previousMillis := currentMillis;
                interval := REQUEST_INTERVAL |}
      else
        Some {| g_state := g;
                programStatus :=
                  safeCopy STATUS_BUFFER_SIZE "Weather Fetch Failed";
                lastFetchTime := lastFetchTime G;
                lastAttemptTime := attempt;
                ledsEnabledPref := ledsEnabledPref G;
                airportLEDs := airports;
                ledController := showErrorState (ledController G);
                previousMillis := currentMillis;
                interval := RETRY_TIMEOUT |}.

(** *** One round of [loop] *)

Definition MEMORY_CHECK_INTERVAL : Z := 30000.
Definition WIFI_CHECK_INTERVAL : Z := 10000.
Definition MAX_WIFI_RETRIES : Z := 3.

(** [setAll]; [baseColors] has [numLeds] entries. *)
Definition setAll (color : CRGB) (c : LEDController.t) : LEDController.t :=
  {| LEDController.leds := replicate (LEDController.numLeds c) color;
     LEDController.baseColors :=
       (replicate (LEDController.numLeds c) color
        ++ skipn (LEDController.numLeds c) (LEDController.baseColors c))%list;
     LEDController.lastFlashTime := LEDController.lastFlashTime c;
     LEDController.lastWindBlinkTime := LEDController.lastWindBlinkTime c;
     LEDController.flashState := LEDController.flashState c;
     LEDController.windBlinkState := LEDController.windBlinkState c |}.

(** What the platform answers during one round of [loop], in the order
    in which the round asks. *)
Record Inputs := mkInputs {
  currentMillis : Z;
  heapAtLoop : Z;
  connectedAtCheck : bool;
  reconnected : bool;
  stormMillis : Z;
  rnd : Z;
  blinkMillis : Z;
  buttonPressed : bool;
  buttonMillis : Z;
  connectedAtUpdate : bool;
  attemptTime : option string;
  fetchTime : option string;
  heapAtCheck : Z;
  heapAtFetch : Z;
  response : METAR_STATUS * string
}.

(** The globals with the button, the two check timers and the count of
    failed reconnections. *)
Record Loop := mkLoop {
  globals : Globals;
  button : Button;
  memoryCheckMillis : Z;
  wifiCheckMillis : Z;
  reconnectFailures : Z
}.

Definition with_controller (c : LEDController.t) (G : Globals) : Globals :=
  {| g_state := g_state G; programStatus := programStatus G;
     lastFetchTime := lastFetchTime G; lastAttemptTime := lastAttemptTime G;
     ledsEnabledPref := ledsEnabledPref G; airportLEDs := airportLEDs G;
     ledController := c; previousMillis := previousMillis G;
     interval := interval G |}.

(** The memory check: [None] when [checkMemory] restarts the device. *)
Definition memory_check (i : Inputs) (L : Loop) : option Loop :=
  if (MEMORY_CHECK_INTERVAL
      <? LEDController.elapsed (currentMillis i) (memoryCheckMillis L))%Z
  then
    if (heapAtLoop i <? CRITICAL_MEMORY_THRESHOLD)%Z then None
    else Some {| globals := globals L; button := button L;
                 memoryCheckMillis := currentMillis i;
                 wifiCheckMillis := wifiCheckMillis L;
                 reconnectFailures := reconnectFailures L |}
  else Some L.

(** The WiFi check with [attemptReconnection]: [None] when the round
    restarts the device after too many failures.  The rainbow sweep that
    follows a reconnection is overwritten by [setAll]. *)
Definition wifi_check (i : Inputs) (L : Loop) : option Loop :=
  if (WIFI_CHECK_INTERVAL
      <=? LEDController.elapsed (currentMillis i) (wifiCheckMillis L))%Z
  then
    if negb (connectedAtCheck i) then
      if negb (reconnected i) then
        let failures := (reconnectFailures L + 1)%Z in
        if (MAX_WIFI_RETRIES <=? failures)%Z then None
        else
          Some {| globals :=
                    with_controller
                      (showErrorState (ledController (globals L)))
                      (globals L);
                  button := button L;
                  memoryCheckMillis := memoryCheckMillis L;
                  wifiCheckMillis := currentMillis i;
                  reconnectFailures := failures |}
      else
        Some {| globals :=
                  with_controller
                    (setAll NO_DATA (ledController (globals L)))
                    (globals L);
                button := button L;
                memoryCheckMillis := memoryCheckMillis L;
                wifiCheckMillis := currentMillis i;
                reconnectFailures := 0 |}
    else
      Some {| globals := globals L; button := button L;
              memoryCheckMillis := memoryCheckMillis L;
              wifiCheckMillis := currentMillis i;
              reconnectFailures := reconnectFailures L |}
  else Some L.

(** The two overlays. *)
Definition overlays (i : Inputs) (L : Loop) : Loop :=
  let G := globals L in
  let c :=
    LEDController.updateThunderstorms (g_state G) (stormMillis i) (rnd i)
      (airportLEDs G) (ledController G) in
  let c :=
    LEDController.updateWindBlink (g_state G) (blinkMillis i)
      (airportLEDs G) c in
  {| globals := with_controller c G; button := button L;
     memoryCheckMillis := memoryCheckMillis L;
     wifiCheckMillis := wifiCheckMillis L;
     reconnectFailures := reconnectFailures L |}.

(** [loop]: [None] when the round restarts the device. *)
Definition loop (i : Inputs) (L : Loop) : option Loop :=
  match memory_check i L with
  | None => None
  | Some L =>
      match wifi_check i L with
      | None => None
      | Some L =>
          let L := overlays i L in
          match
            handleButtonPress (buttonPressed i) (buttonMillis i)
              (button L, globals L)
          with
          | None => None
          | Some (b, G) =>
              match
                handleWeatherUpdates (currentMillis i) (connectedAtUpdate i)
                  (attemptTime i) (fetchTime i) (heapAtCheck i)
                  (heapAtFetch i) (response i) G
              with
              | None => None
              | Some G =>
                  Some {| globals := G; button := b;
                          memoryCheckMillis := memoryCheckMillis L;
                          wifiCheckMillis := wifiCheckMillis L;
                          reconnectFailures := reconnectFailures L |}
              end
          end
      end
  end.

End Sketch.

(** ** The web pages: page arithmetic and times *)

Module WebServerHandler.
Import CLib.

Definition airportsPerPage : Z := 10.

(** The page arithmetic of [handleDetailedPage] for the request
    parameter [page] (0 when absent): the page shown, the number of
    pages, and the bounds of the loop over the slots.  [int] division
    truncates. *)
Definition detailed_page (numAirports page : Z) : Z * Z * Z * Z :=
  let totalPages :=
    Z.quot (numAirports + airportsPerPage - 1) airportsPerPage in
  let page := if (page <? 0)%Z then 0%Z else page in
  let page := if (totalPages <=? page)%Z then (totalPages - 1)%Z else page in
  let startIdx := (page * airportsPerPage)%Z in
  let endIdx := Z.min (startIdx + airportsPerPage) numAirports in
  (page, totalPages, startIdx, endIdx).

(** The slots whose details the loop of [handleDetailedPage] prints. *)
Definition detailed_slots (airports : list AirportLED) (page : Z)
  : list Z :=
  let '(_, _, startIdx, endIdx) :=
    detailed_page (Z.of_nat (length airports)) page in
  List.filter
    (fun i =>
       match airports !! Z.to_nat i with
       | Some a => negb (isEmpty a) && hasValidData a
       | None => false
       end)
    (seqZ startIdx (endIdx - startIdx)).

(** The uptime shown by [processStatusTemplate]: days, hours, minutes. *)
Definition uptime (millis programStartTime : Z) : Z * Z * Z :=
  let uptimeSeconds :=
    (LEDController.elapsed millis programStartTime / 1000)%Z in
  (uptimeSeconds / 86400, (uptimeSeconds mod 86400) / 3600,
   (uptimeSeconds mod 3600) / 60)%Z.

(** The time to the next update shown there: minutes, seconds. *)
Definition nextUpdate (currentMillis previousMillis : Z) : Z * Z :=
  let elapsedMillis := LEDController.elapsed currentMillis previousMillis in
  let nextUpdateMs :=
    if (elapsedMillis <? Sketch.REQUEST_INTERVAL)%Z
    then (Sketch.REQUEST_INTERVAL - elapsedMillis)%Z else 0%Z in
  (nextUpdateMs / 60000, (nextUpdateMs mod 60000) / 1000)%Z.

End WebServerHandler.

(** ** WiFi credentials

    The two credential files are [None] when they do not exist. *)

Module WiFiManager.
Import CLib.

Definition CREDENTIAL_BUFFER_SIZE : nat := 64.

Record t := mk {
  ssid : string;
  pass : string
}.

(** The loop of [readFile]: at most [n] characters, up to the first line
    feed or carriage return.  (The buffer is read as a C string, so a NUL
    in the file ends it as well.) *)
Fixpoint read_line (n : nat) (content : string) : string :=
  match n, content with
  | S n', String c rest =>
      if Ascii.eqb c "010" || Ascii.eqb c "013" || Ascii.eqb c NUL
      then EmptyString
      else String c (read_line n' rest)
  | _, _ => EmptyString
  end.

Definition readFile (file : option string) (bufferSize : nat)
  : bool * string :=
  match file with
  | None => (false, EmptyString)
  | Some content => (true, read_line (bufferSize - 1) content)
  end.

(** [writeFile]; [writable] says whether the file could be opened. *)
Definition writeFile (writable : bool) (message : string)
    (file : option string) : option string :=
  if writable then Some message else file.

(** The manager with the files [/ssid.txt] and [/pass.txt]. *)
Definition loadCredentials (files : option string * option string)
  : bool * t :=
  let ssid := (readFile files.1 CREDENTIAL_BUFFER_SIZE).2 in
  let pass := (readFile files.2 CREDENTIAL_BUFFER_SIZE).2 in
  ((0 <? String.length ssid)%nat, {| ssid := ssid; pass := pass |}).

Definition saveCredentials (writable1 writable2 : bool)
    (newSsid newPass : string) (files : option string * option string)
  : t * (option string * option string) :=
  let ssid := safeCopy CREDENTIAL_BUFFER_SIZE newSsid in
  let pass := safeCopy CREDENTIAL_BUFFER_SIZE newPass in
  ({| ssid := ssid; pass := pass |},
   (writeFile writable1 ssid files.1, writeFile writable2 pass files.2)).

Definition resetCredentials : t * (option string * option string) :=
  ({| ssid := EmptyString; pass := EmptyString |}, (None, None)).

End WiFiManager.

(** ** The classifier of the specification

    The reference definition of section 4.2: the four categories, their
    severity order, and the piecewise table read most severe first. *)

Module CategorySpec.

Inductive Category := VFR | MVFR | IFR | LIFR.

Definition name (cat : Category) : string :=
  match cat with
  | VFR => "VFR" | MVFR => "MVFR" | IFR => "IFR" | LIFR => "LIFR"
  end.

Definition severity (cat : Category) : nat :=
  match cat with VFR => 0 | MVFR => 1 | IFR => 2 | LIFR => 3 end.

Definition more_severe (a b : Category) : Category :=
  if (severity a <? severity b)%nat then b else a.

Definition in_LIFR (ceiling : Z) (visibility : Q) : Prop :=
  (0 < ceiling < 500)%Z \/ (0 < visibility /\ visibility < 1)%Q.

Definition in_IFR (ceiling : Z) (visibility : Q) : Prop :=
  (500 <= ceiling < 1000)%Z \/ (1 <= visibility /\ visibility < 3)%Q.

Definition in_MVFR (ceiling : Z) (visibility : Q) : Prop :=
  (1000 <= ceiling <= 3000)%Z \/ (3 <= visibility /\ visibility < 5)%Q.

(** The table, first line that applies. *)
Inductive category_of (ceiling : Z) (visibility : Q) : Category -> Prop :=
  | is_LIFR :
      in_LIFR ceiling visibility -> category_of ceiling visibility LIFR
  | is_IFR :
      ~ in_LIFR ceiling visibility -> in_IFR ceiling visibility ->
      category_of ceiling visibility IFR
  | is_MVFR :
      ~ in_LIFR ceiling visibility -> ~ in_IFR ceiling visibility ->
      in_MVFR ceiling visibility -> category_of ceiling visibility MVFR
  | is_VFR :
      ~ in_LIFR ceiling visibility -> ~ in_IFR ceiling visibility ->
      ~ in_MVFR ceiling visibility -> category_of ceiling visibility VFR.

(** Each input evaluated on its own; zero or less is "absent". *)
Definition ceiling_category (ceiling : Z) : Category :=
  if (ceiling <=? 0)%Z then VFR
  else if (ceiling <? 500)%Z then LIFR
  else if (ceiling <? 1000)%Z then IFR
  else if (ceiling <=? 3000)%Z then MVFR
  else VFR.

Definition visibility_category (visibility : Q) : Category :=
  if Qle_bool visibility 0 then VFR
  else if Qltb visibility 1 then LIFR
  else if Qltb visibility 3 then IFR
  else if Qltb visibility 5 then MVFR
  else VFR.

End CategorySpec.

(** * Reference definitions and example data

    The notions the properties are stated with: the specification's
    wording of a result, the data the loops range over, and the reports and
    controller states used as examples. *)

Section Reference.
Import CLib MetarParser WeatherAPIClient LEDColors LEDController.

(** The ceiling as the specification words it: the lowest height among all
    the broken and overcast layers of the line, in feet; zero when there is
    no such layer.  The layers are those [parseCloudConditions] finds. *)
Definition is_ceiling_layer (l : CloudLayer) : bool :=
  String.eqb (coverage l) "BKN" || String.eqb (coverage l) "OVC".

Definition ceiling_layer_heights (line : string) : list Z :=
  map height
    (filter (fun l => is_ceiling_layer l = true)
       (cloudLayers (parseCloudConditions METAR_new line))).

Definition lowest_layer_ceiling (line : string) : Z :=
  match ceiling_layer_heights line with
  | [] => 0
  | h :: hs => 100 * foldr Z.min h hs
  end.

(** The height that follows the first occurrence of a coverage code, when
    three digits follow it. *)
Definition first_height (code line : string) : option Z :=
  match strstr line code with
  | Some p =>
      if three_digits_at line (p + 3)
      then Some (atoi (copy_n line (p + 3) 3))
      else None
  | None => None
  end.

(** Reports with few and scattered layers only, and with one broken and
    one overcast layer. *)
Definition few_scattered_report : string :=
  "KSFO 081856Z 28015KT 10SM FEW015 SCT030 15/12 A3012".
Definition broken_overcast_report : string :=
  "KSFO 081856Z 28015KT 10SM BKN050 OVC030 15/12 A3012".

(** A report with two broken layers, the lower one second. *)
Definition two_layers_report : string :=
  "KSFO 081856Z 28015KT 10SM BKN050 BKN020 15/12 A3012".

(** The lines the loop of [parseWeatherData] cuts out of the response. *)
Fixpoint cut_lines (fuel : nat) (rawData : string) (startPos : Z)
  : list string :=
  match fuel with
  | O => []
  | S fuel' =>
      let endPos := indexOf_from rawData newline startPos in
      if (endPos =? -1)%Z then []
      else substring rawData startPos endPos
             :: cut_lines fuel' rawData (endPos + 1)%Z
  end.

(** The observation a line yields, when the loop parses it and the
    observation has an identifier. *)
Definition observation (line : string) : option METAR :=
  let line := trim line in
  if (10 <? String.length line)%nat then
    let metar := MetarParser.parse line in
    if (0 <? String.length (icaoId metar))%nat then Some metar else None
  else None.

(** The batch: the observations of a response, in order. *)
Definition observations (rawData : string) : list METAR :=
  omap observation (cut_lines (S (String.length rawData)) rawData 0).

(** Storing one observation: the slots and the count afterwards. *)
Definition merge_metar (st : list AirportLED * Z) (metar : METAR)
  : list AirportLED * Z :=
  match first_match st.1 (icaoId metar) 0 with
  | Some i => (alter (store_metar metar) i st.1, (st.2 + 1)%Z)
  | None => st
  end.

(** The observations of a batch that the search sends to slot [i]. *)
Definition assigned_to (airports : list AirportLED) (i : nat)
    (obs : list METAR) : list METAR :=
  filter (fun metar => first_match airports (icaoId metar) 0 = Some i) obs.

(** A loop whose round [i] writes at most cell [i]. *)
Definition write {A : Type} (f : nat -> option A) (i : nat) (l : list A)
  : list A :=
  match f i with
  | Some x => <[i:=x]> l
  | None => l
  end.

(** What a round of the flash and restore loops writes to cell [i]. *)
Definition storm_write (airports : list AirportLED)
    (color : nat -> option CRGB) (i : nat) : option CRGB :=
  match airports !! i, color i with
  | Some a, Some col => if storm_slot a then Some col else None
  | _, _ => None
  end.

(** What a round of the blink loop writes to cell [i]. *)
Definition wind_write (g : SystemState) (airports : list AirportLED)
    (blink : bool) (i : nat) : option CRGB :=
  match airports !! i with
  | Some a =>
      if wind_slot g a
      then Some (if blink then WIND_WARNING else OFF)
      else None
  | None => None
  end.

(** The resting colour [updateFromAirports] gives a slot. *)
Definition resting_color (g : SystemState) (a : AirportLED) : CRGB :=
  if negb (ledPowerState g) then OFF
  else if isEmpty a then OFF
  else if negb (hasValidData a) || negb (hasFltcat (metarData a)) then NO_DATA
  else if windCheckEnabled g && high_wind g a then WIND_WARNING
  else getFlightCategoryColor (fltcat (metarData a)).

(** What a round of the loop of [updateFromAirports] writes to cell [i]. *)
Definition base_write (g : SystemState) (airports : list AirportLED)
    (i : nat) : option CRGB :=
  resting_color g <$> airports !! i.

(** The example of the specification: slots [A; B; empty; C] and a batch
    with reports for A and C only. *)
Definition example_slots : list AirportLED :=
  [AirportLED_new "KSFO"; AirportLED_new "KSJC"; AirportLED_new "";
   AirportLED_new "KOAK"].

Definition example_batch : string :=
  String.append "KSFO 081856Z 28015KT 10SM FEW015 BKN250 15/12 A3012"
    (String newline
       (String.append "KOAK 081853Z 27010KT 10SM CLR 16/11 A3011"
          (String newline EmptyString))).

(** A batch with one report, for a station that has no slot. *)
Definition unknown_batch : string :=
  String.append "KLAX 081853Z 25008KT 10SM CLR 18/12 A2998"
    (String newline EmptyString).

(** Both features enabled, display on, last fetch successful. *)
Definition example_state : SystemState :=
  {| lastFetchStatus := SUCCESS; ledPowerState := true;
     windCheckEnabled := true; thunderstormsCheckEnabled := true;
     windCheckThreshold := 25 |}.

(** A report with 35 kt of wind, one with a thunderstorm, a calm one, and
    slots that hold them. *)
Definition windy_report : string :=
  "KSFO 081856Z 28035KT 10SM CLR 15/12 A3012".
Definition storm_report : string :=
  "KOAK 081853Z 27030KT 10SM TSRA BKN020CB 16/11 A3011".
Definition calm_report : string :=
  "KOAK 081953Z 27008KT 10SM CLR 16/11 A3011".

Definition windy_slot : AirportLED :=
  store_metar (parse windy_report) (AirportLED_new "KSFO").
Definition storm_airport : AirportLED :=
  store_metar (parse storm_report) (AirportLED_new "KOAK").
Definition calm_airport : AirportLED :=
  store_metar (parse calm_report) (AirportLED_new "KOAK").

(** Controllers after [updateFromAirports] on these slots. *)
Definition example_controller : LEDController.t :=
  updateFromAirports example_state [windy_slot; storm_airport]
    (LEDController.new [NO_DATA; NO_DATA] [NO_DATA; NO_DATA]).

Definition storm_controller : LEDController.t :=
  updateFromAirports example_state [storm_airport]
    (LEDController.new [NO_DATA] [NO_DATA]).

(** A flash is triggered at 3000 ms while the slot reports a storm. *)
Definition flashing_controller : LEDController.t :=
  updateThunderstorms example_state 3000 0 [storm_airport] storm_controller.

(** A fetch then replaces the observation by one without a storm. *)
Definition refreshed_controller : LEDController.t :=
  updateFromAirports example_state [calm_airport] flashing_controller.

(** Four characters of [s] at [q], all digits, as a number. *)
Definition four_digit_number (s : string) (q : nat) : Z :=
  (1000 * digit_val (char_at s q) + 100 * digit_val (char_at s (q + 1))
   + 10 * digit_val (char_at s (q + 2)) + digit_val (char_at s (q + 3)))%Z.

(** Bit [k] of the presence mask. *)
Definition bit (k : Z) (m : METAR) : bool := Z.testbit (flags m) k.

(** The parts of an observation that single blocks of [parse] own. *)
Definition visibility_view (m : METAR) : Q * bool := (visib m, bit 4 m).
Definition altimeter_view (m : METAR) : Q * bool := (altim m, bit 5 m).
Definition storm_view (m : METAR) : bool := bit 7 m.
Definition obsTime_view (m : METAR) : string := obsTime m.

(** A layer with the cumulonimbus modifier. *)
Definition is_cb (l : CloudLayer) : bool := String.eqb (type l) "CB".

(** The observation as [parse] has it before the cloud block and before
    the altimeter block. *)
Definition before_clouds (line : string) : METAR :=
  parse_wind line
    (parse_icao line
       (parse_thunderstorm line
          (parse_obsTime line (setRawText METAR_new line)))).

Definition before_altimeter (line : string) : METAR :=
  parse_temperature line
    (parse_visibility line (parseCloudConditions (before_clouds line) line)).

(** Reports with the visibility tokens of the examples, and one whose
    token is a lone 'R'. *)
Definition fraction_report : string :=
  "KSFO 081856Z 28015KT 3/4SM BR OVC004 12/11 A3012".
Definition mixed_report : string :=
  "KSFO 081856Z 28015KT 1 1/2SM BR OVC008 12/11 A3012".
Definition whole_report : string :=
  "KSFO 081856Z 28015G25KT 10SM FEW015 BKN250 15/12 A3012".
Definition runway_report : string :=
  "KSFO 081856Z 28015KTRSM FEW015 BKN250 15/12 A3012".

(** An altimeter group at offset [p]: a blank, an 'A', four digits. *)
Definition altimeter_at (line : string) (p : nat) : bool :=
  starts_with line p " A" && four_digits_after line (p + 1).

(** The same, with no fifth digit after the four. *)
Definition exact_altimeter_at (line : string) (p : nat) : bool :=
  altimeter_at line p && negb (isdigit (char_at line (p + 6))).

(** The first offset of the line at which [f] holds. *)
Definition first_offset (f : nat -> bool) (line : string) : option nat :=
  List.find f (seq 0 (String.length line)).

(** The value of the group at [p]: its four digits over 100. *)
Definition altimeter_value (line : string) (p : nat) : Q :=
  (inject_Z (four_digit_number line (p + 2)) / 100)%Q.

(** The altimeter of an observation, as an optional value. *)
Definition altimeter_of (m : METAR) : option Q :=
  if hasAltim m then Some (altim m) else None.

(** A report with an 'A' followed by five digits before a regular group. *)
Definition five_digit_report : string :=
  "KSFO 081856Z 28015KT 10SM CLR 15/12 A30125 A2992".

(** The test [parse] makes on the weather phenomena: the first "TS" at or
    after the first "KT" of the line, unless "TSNO" starts there. *)
Definition storm_in_weather (line : string) : bool :=
  match strstr line "KT" with
  | Some ktPtr =>
      match strstr_from line "TS" ktPtr with
      | Some tsPtr => negb (starts_with line tsPtr "TSNO")
      | None => false
      end
  | None => false
  end.

(** A report of station KTSP. *)
Definition identifier_report : string :=
  "KTSP 081856Z 28015KT 10SM CLR 15/12 A3012".

(** The same report with each report-type prefix and with none. *)
Definition speci_report : string :=
  "SPECI KSFO 081856Z 28015KT 10SM FEW015 BKN250 15/12 A3012".
Definition metar_report : string :=
  "METAR KSFO 081856Z 28015KT 10SM FEW015 BKN250 15/12 A3012".
Definition plain_report : string :=
  "KSFO 081856Z 28015KT 10SM FEW015 BKN250 15/12 A3012".

(** A cloud layer as [parseCloudConditions] can produce it. *)
Definition layer_ok (l : CloudLayer) : Prop :=
  In (coverage l) ["SKC"; "CLR"; "FEW"; "SCT"; "BKN"; "OVC"; "VV"]
  /\ (0 <= height l <= 999)%Z
  /\ In (type l) [""; "CB"; "TCU"]
  /\ ((coverage l = "SKC" \/ coverage l = "CLR") ->
      height l = 0%Z /\ type l = "").

(** Three characters of [s] at [q], all digits, as a number. *)
Definition three_digit_number (s : string) (q : nat) : Z :=
  (100 * digit_val (char_at s q) + 10 * digit_val (char_at s (q + 1))
   + digit_val (char_at s (q + 2)))%Z.

(** The '/' that [parse] takes for the temperature group: the first one at
    or after the first "SM" of the line (from the start when there is no
    "SM" after the first character). *)
Definition temperature_slash (line : string) : option nat :=
  strchr_from line "/"
    match strstr line "SM" with
    | Some visPtr => if (0 <? visPtr)%nat then visPtr else 0%nat
    | None => 0%nat
    end.

(** A report with a gust group, and one with a runway visual range group
    before the temperature. *)
Definition gust_report : string :=
  "KSFO 081856Z 28015G25KT 10SM FEW015 BKN250 15/12 A3012".
Definition rvr_report : string :=
  "KSFO 081856Z 28015KT 1/2SM R28L/2400FT FG OVC002 12/12 A3012".

(** Whether character [c] occurs in [s]. *)
Fixpoint contains (c : ascii) (s : string) : bool :=
  match s with
  | EmptyString => false
  | String a s' => Ascii.eqb a c || contains c s'
  end.

(** Whether every character of [s] satisfies [p]. *)
Fixpoint all_chars (p : ascii -> bool) (s : string) : bool :=
  match s with
  | EmptyString => true
  | String a s' => p a && all_chars p s'
  end.

(** The ranges the settings are kept in. *)
Definition settings_ok (s : Settings.t) : Prop :=
  (0 <= Settings.ledBrightness s <= 255)%Z
  /\ (5 <= Settings.windCheckThreshold s <= 100)%Z.

(** Settings as a user may have chosen them. *)
Definition example_settings : Settings.t :=
  {| Settings.ledPowerState := true; Settings.ledBrightness := 120;
     Settings.windCheckEnabled := false;
     Settings.thunderstormsCheckEnabled := true;
     Settings.windCheckThreshold := 15 |}.

(** The settings file as [saveSettings] writes it, cut at the two
    numbers: what comes before the brightness, and what stands between
    the brightness and the threshold. *)
Definition settings_head : string :=
  String.append "{" (Settings.key "brightness").

Definition settings_middle (w t : bool) : string :=
  String.append ","
    (String.append (Settings.key "windEnabled")
       (String.append (Settings.bool_text w)
          (String.append ","
             (String.append (Settings.key "thunderstormsEnabled")
                (String.append (Settings.bool_text t)
                   (String.append "," (Settings.key "windThreshold"))))))).

(** [r] moved right by [n] places when it is a position, [-1] kept. *)
Definition shift (n : nat) (r : Z) : Z :=
  if (r <? 0)%Z then (-1)%Z else (Z.of_nat n + r)%Z.

(** The globals after start-up with the example slots, and the button
    at rest. *)
Definition example_globals : Sketch.Globals :=
  {| Sketch.g_state := example_state;
     Sketch.programStatus := "WiFi Connected";
     Sketch.lastFetchTime := "Never";
     Sketch.lastAttemptTime := "Never";
     Sketch.ledsEnabledPref := None;
     Sketch.airportLEDs := example_slots;
     Sketch.ledController :=
       LEDController.new [NO_DATA; NO_DATA; NO_DATA; NO_DATA]
         [NO_DATA; NO_DATA; NO_DATA; NO_DATA];
     Sketch.previousMillis := 0;
     Sketch.interval := Sketch.LOOP_INTERVAL |}.

Definition button_at_rest : Sketch.Button :=
  {| Sketch.pressStartTime := 0; Sketch.buttonWasPressed := false;
     Sketch.longPressHandled := false |}.

(** The button held since [t0]. *)
Definition button_held (t0 : Z) : Sketch.Button :=
  {| Sketch.pressStartTime := t0; Sketch.buttonWasPressed := true;
     Sketch.longPressHandled := false |}.

(** What [ctime] returns for a Monday afternoon. *)
Definition example_ctime : string :=
  String.append "Mon Nov  2 13:55:14 2026" (String newline EmptyString).

(** Codes separated by commas. *)
Fixpoint join_codes (codes : list string) : string :=
  match codes with
  | [] => EmptyString
  | [c] => c
  | c :: rest => String.append c (String.append "," (join_codes rest))
  end.

(** The codes of the slots that have one. *)
Definition requested_codes (airports : list AirportLED) : list string :=
  List.filter (fun c => negb (String.length c =? 0)%nat)
    (map icaoCode airports).

(** A response with headers and a body of one report, and one with two
    reports. *)
Definition one_report_response : string :=
  String.append "HTTP/1.1 200 OK"
    (String.append header_end_crlf
       (String.append plain_report (String newline EmptyString))).

Definition two_report_response : string :=
  String.append "HTTP/1.1 200 OK"
    (String.append header_end_crlf example_batch).

(** The sketch after start-up. *)
Definition example_loop : Sketch.Loop :=
  {| Sketch.globals := example_globals; Sketch.button := button_at_rest;
     Sketch.memoryCheckMillis := 0; Sketch.wifiCheckMillis := 0;
     Sketch.reconnectFailures := 0 |}.

(** The round at 5000 ms, when the first update is due: WiFi is up, the
    button is not pressed and the service answers with the example
    batch. *)
Definition update_round : Sketch.Inputs :=
  {| Sketch.currentMillis := 5000; Sketch.heapAtLoop := 100000;
     Sketch.connectedAtCheck := true; Sketch.reconnected := true;
     Sketch.stormMillis := 5000; Sketch.rnd := 50;
     Sketch.blinkMillis := 5000; Sketch.buttonPressed := false;
     Sketch.buttonMillis := 5000; Sketch.connectedAtUpdate := true;
     Sketch.attemptTime := Some example_ctime;
     Sketch.fetchTime := Some example_ctime;
     Sketch.heapAtCheck := 100000; Sketch.heapAtFetch := 100000;
     Sketch.response := (SUCCESS, example_batch) |}.

(** A controller that has the same number of LEDs as [c], and as many
    base colours as LEDs when [c] has. *)
Definition same_shape (c c' : LEDController.t) : Prop :=
  numLeds c' = numLeds c
  /\ (length (baseColors c) = numLeds c ->
      length (baseColors c') = numLeds c').

(** A text that fits a credential buffer and has no line break in it. *)
Definition one_line (s : string) : Prop :=
  (String.length s <= 63)%nat
  /\ all_chars
       (fun c => negb (Ascii.eqb c "010" || Ascii.eqb c "013"
                       || Ascii.eqb c NUL)) s = true.

(** All the pieces of a list, one after the other. *)
Fixpoint join_pieces (pieces : list string) : string :=
  match pieces with
  | [] => EmptyString
  | piece :: rest => String.append piece (join_pieces rest)
  end.

End Reference.

(** * Properties *)

Section Classifier.
Import MetarParser CategorySpec.

Lemma Qltb_lt (x y : Q) : Qltb x y = true <-> (x < y)%Q.
Proof.
  unfold Qltb. rewrite negb_true_iff.
  destruct (Qle_bool y x) eqn:E.
  - apply Qle_bool_iff in E. split; [discriminate|].
    intros H. exfalso. exact (Qlt_not_le _ _ H E).
  - split; [|reflexivity]. intros _. apply Qnot_le_lt.
    intros H. apply Qle_bool_iff in H. congruence.
Qed.

Lemma Qltb_reflect (x y : Q) : reflect (x < y)%Q (Qltb x y).
Proof.
  destruct (Qltb x y) eqn:E; constructor.
  - now apply Qltb_lt.
  - intros H. apply Qltb_lt in H. congruence.
Qed.

Lemma Qle_bool_reflect (x y : Q) : reflect (x <= y)%Q (Qle_bool x y).
Proof.
  destruct (Qle_bool x y) eqn:E; constructor.
  - now apply Qle_bool_iff.
  - intros H. apply Qle_bool_iff in H. congruence.
Qed.

Lemma ceiling_range (c : Z) :
  (c <= 0 \/ 0 < c < 500 \/ 500 <= c < 1000 \/ 1000 <= c <= 3000 \/ 3000 < c)%Z.
Proof. lia. Qed.

Lemma visibility_range (v : Q) :
  (v <= 0 \/ (0 < v /\ v < 1) \/ (1 <= v /\ v < 3) \/ (3 <= v /\ v < 5)
   \/ 5 <= v)%Q.
Proof.
  destruct (Qlt_le_dec 0 v); [|lra].
  destruct (Qlt_le_dec v 1); [lra|].
  destruct (Qlt_le_dec v 3); [lra|].
  destruct (Qlt_le_dec v 5); lra.
Qed.

(** Decide every comparison of the goal, discarding the impossible sides. *)
Ltac decide_tests :=
  repeat match goal with
  | |- context [(?a <? ?b)%Z] =>
      destruct (Z.ltb_spec a b); try (exfalso; lia)
  | |- context [(?a <=? ?b)%Z] =>
      destruct (Z.leb_spec a b); try (exfalso; lia)
  | |- context [Qltb ?a ?b] =>
      destruct (Qltb_reflect a b); try (exfalso; lra)
  | |- context [Qle_bool ?a ?b] =>
      destruct (Qle_bool_reflect a b); try (exfalso; lra)
  end.

Ltac refute_table :=
  unfold in_LIFR, in_IFR, in_MVFR;
  let H := fresh in
  intros H; destruct H as [H | H]; [lia | lra].

Lemma deriveFlightCategory_table (visibility : Q) (ceiling : Z) :
  exists cat,
    deriveFlightCategory visibility ceiling = name cat
    /\ category_of ceiling visibility cat
    /\ cat = more_severe (ceiling_category ceiling)
                         (visibility_category visibility).
Proof.
  unfold deriveFlightCategory, ceiling_category, visibility_category,
    FlightCategory.LIFR_CEILING, FlightCategory.IFR_CEILING,
    FlightCategory.MVFR_CEILING, FlightCategory.LIFR_VISIBILITY,
    FlightCategory.IFR_VISIBILITY, FlightCategory.MVFR_VISIBILITY.
  destruct (ceiling_range ceiling) as [Hc | [Hc | [Hc | [Hc | Hc]]]];
  destruct (visibility_range visibility) as [Hv | [Hv | [Hv | [Hv | Hv]]]];
  decide_tests; cbn [andb orb negb];
  first
    [ exists LIFR; split; [reflexivity | split; [| reflexivity]];
      apply is_LIFR; unfold in_LIFR; solve [left; lia | right; lra]
    | exists IFR; split; [reflexivity | split; [| reflexivity]];
      apply is_IFR; [refute_table |];
      unfold in_IFR; solve [left; lia | right; lra]
    | exists MVFR; split; [reflexivity | split; [| reflexivity]];
      apply is_MVFR; [refute_table | refute_table |];
      unfold in_MVFR; solve [left; lia | right; lra]
    | exists VFR; split; [reflexivity | split; [| reflexivity]];
      apply is_VFR; refute_table ].
Qed.

(** C1.  [deriveFlightCategory] is the piecewise table of the specification
    read most severe first, with zero standing for an absent ceiling or
    visibility; its result is the more severe of the category of the
    ceiling alone and the category of the visibility alone; it always
    returns the name of one of the four categories.  At the boundaries:
    ceiling 500 with visibility 10 is IFR, ceiling 499 is LIFR whatever the
    visibility, visibility 3.0 with no ceiling is MVFR, and with neither
    value the result is VFR. *)
Theorem deriveFlightCategory_spec :
  (forall (visibility : Q) (ceiling : Z),
     exists cat,
       deriveFlightCategory visibility ceiling = name cat
       /\ category_of ceiling visibility cat
       /\ cat = more_severe (ceiling_category ceiling)
                            (visibility_category visibility))
  /\ deriveFlightCategory 10 500 = "IFR"
  /\ (forall visibility : Q, deriveFlightCategory visibility 499 = "LIFR")
  /\ deriveFlightCategory 3 0 = "MVFR"
  /\ deriveFlightCategory 0 0 = "VFR".
Proof.
  split; [exact deriveFlightCategory_table |].
  repeat split; reflexivity.
Qed.

End Classifier.

(** ** Ceiling *)

Section Ceiling.
Import CLib MetarParser.

(** C2, as stated, fails: with two broken layers of which the second is the
    lower, [calculateCeiling] answers with the first one (5000 ft), not with
    the minimum over all layers (2000 ft). *)
Lemma calculateCeiling_not_lowest_of_all_layers :
  ceiling_layer_heights two_layers_report = [50; 20]%Z
  /\ lowest_layer_ceiling two_layers_report = 2000%Z
  /\ calculateCeiling two_layers_report = 5000%Z
  /\ ~ (forall line, calculateCeiling line = lowest_layer_ceiling line).
Proof.
  split; [vm_compute; reflexivity |].
  split; [vm_compute; reflexivity |].
  split; [vm_compute; reflexivity |].
  intros H. specialize (H two_layers_report).
  assert (E : (5000 =? 2000)%Z = true)
    by (apply Z.eqb_eq; rewrite <- H at 1; vm_compute; reflexivity).
  discriminate E.
Qed.

(** C2, amended.  [calculateCeiling] looks at the first "BKN" and at the
    first "OVC" of the line only: each gives 100 times the three digits
    that follow it, the result is the smaller of the two (a broken height
    of 000 gives way to the overcast one), the single one when only one is
    there, and 0 when neither code is followed by three digits; nothing
    else in the line, few and scattered layers included, enters it.  So a
    report with few and scattered layers only has ceiling 0, one with a
    broken layer at 5000 ft and an overcast layer at 3000 ft has 3000, and
    one with only a broken layer at 25000 ft has 25000. *)
Theorem calculateCeiling_first_layers (line : string) :
  calculateCeiling line =
    match first_height "BKN" line, first_height "OVC" line with
    | None, None => 0%Z
    | Some b, None => (100 * b)%Z
    | None, Some o => (100 * o)%Z
    | Some b, Some o => if (b =? 0)%Z then (100 * o)%Z else (100 * Z.min b o)%Z
    end
  /\ calculateCeiling few_scattered_report = 0%Z
  /\ calculateCeiling broken_overcast_report = 3000%Z
  /\ calculateCeiling whole_report = 25000%Z.
Proof.
  split; [|repeat split; vm_compute; reflexivity].
  unfold calculateCeiling, first_height.
  destruct (strstr line "BKN") as [b|], (strstr line "OVC") as [o|];
    repeat match goal with
           | |- context [three_digits_at ?s ?p] =>
               destruct (three_digits_at s p)
           end; try lia.
  - set (hb := atoi (copy_n line (b + 3) 3)).
    set (ho := atoi (copy_n line (o + 3) 3)).
    destruct (Z.eqb_spec (hb * 100) 0), (Z.eqb_spec hb 0),
      (Z.ltb_spec (ho * 100) (hb * 100)); cbn [orb]; lia.
  - cbn [Z.eqb orb]. lia.
  - cbn [Z.eqb orb]. lia.
Qed.

End Ceiling.

(** ** The airport registry *)

Section Registry.
Import CLib WeatherAPIClient.

Lemma merge_line_observation (line : string) (st : list AirportLED * Z) :
  merge_line line st =
    match observation line with
    | Some metar => merge_metar st metar
    | None => st
    end.
Proof.
  destruct st as [airports n]. unfold merge_line, observation, merge_metar.
  cbn [fst snd].
  destruct (10 <? String.length (trim line))%nat; [|reflexivity].
  destruct (0 <? String.length (icaoId (MetarParser.parse (trim line))))%nat;
    reflexivity.
Qed.

Lemma parse_loop_cut_lines (fuel : nat) (rawData : string) :
  forall (startPos : Z) (st : list AirportLED * Z),
    parse_loop fuel rawData startPos st =
    foldl merge_metar st (omap observation (cut_lines fuel rawData startPos)).
Proof.
  induction fuel as [|fuel IH]; intros startPos st; [reflexivity|].
  cbn [parse_loop cut_lines].
  destruct (indexOf_from rawData newline startPos =? -1)%Z; [reflexivity|].
  rewrite IH, merge_line_observation. cbn [omap list_omap].
  destruct (observation _); reflexivity.
Qed.

Lemma parseWeatherData_fold (rawData : string) (airports : list AirportLED) :
  parseWeatherData rawData airports =
    let st := foldl merge_metar (airports, 0%Z) (observations rawData) in
    (if (0 <? st.2)%Z then SUCCESS else PARSING_FAILURE, st.1).
Proof.
  unfold parseWeatherData, observations.
  rewrite parse_loop_cut_lines.
  destruct (foldl _ _ _); reflexivity.
Qed.

(** *** The slot search *)

Lemma first_match_shift (airports : list AirportLED) (icao : string) :
  forall k, first_match airports icao (S k)
            = S <$> first_match airports icao k.
Proof.
  induction airports as [|a rest IH]; intros k; cbn; [reflexivity|].
  destruct (String.eqb (icaoCode a) icao); [reflexivity | apply IH].
Qed.

Lemma first_match_Some (airports : list AirportLED) (icao : string) (i : nat) :
  first_match airports icao 0 = Some i <->
  (exists a, airports !! i = Some a /\ icaoCode a = icao)
  /\ (forall j b, (j < i)%nat -> airports !! j = Some b -> icaoCode b <> icao).
Proof.
  revert i. induction airports as [|a rest IH]; intros i; cbn.
  - split; [discriminate|]. intros [[b [Hb _]] _]. discriminate.
  - destruct (String.eqb_spec (icaoCode a) icao) as [E|E].
    + split.
      * intros [= <-]. split; [exists a; auto | intros j b Hj; lia].
      * intros [_ Hfirst]. destruct i as [|i]; [reflexivity|].
        exfalso. apply (Hfirst 0%nat a); [lia | reflexivity | exact E].
    + rewrite first_match_shift. split.
      * destruct (first_match rest icao 0) as [k|] eqn:Ek; [|discriminate].
        intros [= <-]. destruct (IH k) as [[Hk Hfirst] _]; [reflexivity|].
        split; [exact Hk|].
        intros [|j] b Hj Hb; cbn in Hb.
        -- injection Hb as <-. exact E.
        -- apply (Hfirst j b); [lia | exact Hb].
      * intros [[b [Hb Hcode]] Hfirst]. destruct i as [|i]; cbn in Hb.
        -- injection Hb as <-. contradiction.
        -- destruct (IH i) as [_ Hi]. rewrite Hi; [reflexivity|].
           split; [exists b; auto|].
           intros j b' Hj Hb'. apply (Hfirst (S j) b'); [lia | exact Hb'].
Qed.

Lemma first_match_None (airports : list AirportLED) (icao : string) :
  first_match airports icao 0 = None <->
  (forall j b, airports !! j = Some b -> icaoCode b <> icao).
Proof.
  induction airports as [|a rest IH]; cbn.
  - split; [intros _ j b; discriminate | reflexivity].
  - destruct (String.eqb_spec (icaoCode a) icao) as [E|E].
    + split; [discriminate|]. intros H. exfalso.
      apply (H 0%nat a); [reflexivity | exact E].
    + rewrite first_match_shift.
      destruct (first_match rest icao 0) as [k|] eqn:Ek; cbn.
      * split; [discriminate|]. intros H.
        destruct IH as [_ IH]. discriminate IH.
        intros j b Hb. apply (H (S j) b Hb).
      * split; [|reflexivity]. intros _ [|j] b Hb; cbn in Hb.
        -- injection Hb as <-. exact E.
        -- destruct IH as [IH _]. apply (IH eq_refl j b Hb).
Qed.

(** Storing an observation leaves the codes as they are, so the search
    gives the same answer throughout a batch. *)
Lemma first_match_alter (airports : list AirportLED) (metar : METAR)
    (icao : string) (i : nat) :
  forall k, first_match (alter (store_metar metar) i airports) icao k
            = first_match airports icao k.
Proof.
  revert i. induction airports as [|a rest IH]; intros i k; [reflexivity|].
  destruct i as [|i]; cbn.
  - reflexivity.
  - rewrite IH. reflexivity.
Qed.

(** *** The batch *)

Lemma merge_metar_first_match (st : list AirportLED * Z) (metar : METAR)
    (icao : string) (k : nat) :
  first_match (merge_metar st metar).1 icao k = first_match st.1 icao k.
Proof.
  unfold merge_metar. destruct (first_match st.1 (icaoId metar) 0); cbn.
  - apply first_match_alter.
  - reflexivity.
Qed.

Lemma foldl_merge_first_match (obs : list METAR) :
  forall (st : list AirportLED * Z) (icao : string) (k : nat),
    first_match (foldl merge_metar st obs).1 icao k = first_match st.1 icao k.
Proof.
  induction obs as [|m obs IH]; intros st icao k; cbn; [reflexivity|].
  rewrite IH. apply merge_metar_first_match.
Qed.

Lemma foldl_merge_lookup (obs : list METAR) (airports : list AirportLED)
    (n : Z) (i : nat) (slot : AirportLED) :
  airports !! i = Some slot ->
  (foldl merge_metar (airports, n) obs).1 !! i =
    Some (match last (assigned_to airports i obs) with
          | Some metar => store_metar metar slot
          | None => slot
          end).
Proof.
  intros Hslot. induction obs as [|m obs IH] using rev_ind.
  - cbn. exact Hslot.
  - rewrite foldl_app. cbn [foldl]. unfold assigned_to in *.
    rewrite filter_app. unfold merge_metar at 1.
    rewrite foldl_merge_first_match. cbn [fst].
    rewrite filter_cons, filter_nil.
    destruct (first_match airports (icaoId m) 0) as [k|] eqn:Ek.
    + cbn [fst]. destruct (decide (k = i)) as [->|Hne].
      * rewrite decide_True by reflexivity. rewrite last_snoc.
        rewrite list_lookup_alter_eq, IH. cbn.
        destruct (last _); reflexivity.
      * rewrite decide_False by congruence.
        rewrite app_nil_r, list_lookup_alter_ne by exact Hne. exact IH.
    + rewrite decide_False by discriminate. rewrite app_nil_r. exact IH.
Qed.

Lemma foldl_merge_length (obs : list METAR) :
  forall st : list AirportLED * Z,
    length (foldl merge_metar st obs).1 = length st.1.
Proof.
  induction obs as [|m obs IH]; intros st; cbn; [reflexivity|].
  rewrite IH. unfold merge_metar.
  destruct (first_match st.1 (icaoId m) 0); cbn; [|reflexivity].
  apply length_alter.
Qed.

(** The count grows with every stored observation, and only then. *)
Lemma foldl_merge_count (obs : list METAR) :
  forall st : list AirportLED * Z,
    let st' := foldl merge_metar st obs in
    (st.2 <= st'.2)%Z
    /\ (st'.2 = st.2 -> st' = st)
    /\ (st'.2 = st.2 <->
        forall metar, metar ∈ obs ->
          first_match st.1 (icaoId metar) 0 = None).
Proof.
  induction obs as [|m obs IH]; intros st; cbn.
  - repeat split; try lia; try reflexivity. intros _ metar H.
    apply elem_of_nil in H. contradiction.
  - specialize (IH (merge_metar st m)). cbn in IH.
    destruct IH as (Hle & Hsame & Hiff).
    assert (Hstep : (st.2 <= (merge_metar st m).2)%Z
                    /\ ((merge_metar st m).2 = st.2 ->
                        merge_metar st m = st
                        /\ first_match st.1 (icaoId m) 0 = None)).
    { unfold merge_metar.
      destruct (first_match st.1 (icaoId m) 0); cbn; split; try lia; auto. }
    destruct Hstep as [Hle1 Hsame1].
    assert (Hback : (foldl merge_metar (merge_metar st m) obs).2 = st.2 ->
                    (merge_metar st m).2 = st.2).
    { intros E. apply Z.le_antisymm; [rewrite <- E; exact Hle | exact Hle1]. }
    split; [etransitivity; eassumption|]. split.
    + intros E. pose proof (Hback E) as E1.
      rewrite Hsame by (rewrite E, E1; reflexivity). apply Hsame1, E1.
    + split.
      * intros E metar Hin. pose proof (Hback E) as E1.
        destruct (Hsame1 E1) as [Est Hm].
        apply elem_of_cons in Hin as [-> | Hin]; [exact Hm|].
        destruct Hiff as [Hiff _]. rewrite Est in Hiff, E.
        apply Hiff; [exact E | exact Hin].
      * intros Hall.
        assert (Hm : first_match st.1 (icaoId m) 0 = None)
          by (apply Hall; left).
        assert (Est : merge_metar st m = st)
          by (unfold merge_metar; rewrite Hm; reflexivity).
        rewrite Est in *. apply Hiff. intros metar Hin.
        apply Hall. right. exact Hin.
Qed.

End Registry.

(** ** Loops over the LED strip *)

Section Loops.
Import LEDColors LEDController.

Lemma for_upto_S {S : Type} (n : nat) (body : nat -> S -> S) (s : S) :
  for_upto (Datatypes.S n) body s = body n (for_upto n body s).
Proof.
  unfold for_upto. rewrite seq_S, foldl_app. reflexivity.
Qed.

Lemma for_upto_write_length {A : Type} (f : nat -> option A) (n : nat)
    (l : list A) :
  length (for_upto n (write f) l) = length l.
Proof.
  induction n as [|n IH]; [reflexivity|].
  rewrite for_upto_S. unfold write at 1.
  destruct (f n); [rewrite length_insert|]; exact IH.
Qed.

Lemma for_upto_write_lookup {A : Type} (f : nat -> option A) (n : nat)
    (l : list A) (j : nat) :
  for_upto n (write f) l !! j =
    match (if decide (j < n)%nat then f j else None) with
    | Some x => if decide (j < length l)%nat then Some x else None
    | None => l !! j
    end.
Proof.
  induction n as [|n IH]; [reflexivity|].
  rewrite for_upto_S. unfold write at 1.
  destruct (decide (j = n)) as [->|Hne].
  - rewrite decide_True by lia. rewrite decide_False in IH by lia.
    destruct (f n) as [x|]; [|exact IH].
    rewrite list_lookup_insert, for_upto_write_length.
    destruct (decide (n < length l)%nat).
    + rewrite decide_True by auto. reflexivity.
    + rewrite decide_False by (intros [_ ?]; auto).
      rewrite IH. apply lookup_ge_None. lia.
  - assert (Hlook : forall l' : list A,
              match f n with Some x => <[n:=x]> l' | None => l' end !! j
              = l' !! j).
    { intros l'. destruct (f n); [|reflexivity].
      apply list_lookup_insert_ne. congruence. }
    rewrite Hlook, IH.
    destruct (decide (j < n)%nat).
    + rewrite decide_True by lia. reflexivity.
    + rewrite decide_False by lia. reflexivity.
Qed.

Lemma for_upto_ext {S : Type} (n : nat) (body1 body2 : nat -> S -> S) (s : S) :
  (forall i s', body1 i s' = body2 i s') ->
  for_upto n body1 s = for_upto n body2 s.
Proof.
  intros H. induction n as [|n IH]; [reflexivity|].
  rewrite !for_upto_S, IH. apply H.
Qed.

Lemma storm_body_write (airports : list AirportLED)
    (color : nat -> option CRGB) (i : nat) (l : list CRGB) :
  storm_body airports color i l = write (storm_write airports color) i l.
Proof.
  unfold storm_body, write, storm_write.
  destruct (airports !! i) as [a|]; [|reflexivity].
  destruct (color i); [|reflexivity].
  destruct (storm_slot a); reflexivity.
Qed.

Lemma wind_body_write (g : SystemState) (airports : list AirportLED)
    (blink : bool) (i : nat) (l : list CRGB) :
  wind_body g airports blink i l = write (wind_write g airports blink) i l.
Proof.
  unfold wind_body, write, wind_write.
  destruct (airports !! i) as [a|]; [|reflexivity].
  destruct (wind_slot g a); [|reflexivity].
  destruct blink; reflexivity.
Qed.

Lemma base_body_write (g : SystemState) (airports : list AirportLED)
    (i : nat) (st : list CRGB * list CRGB) :
  base_body g airports i st =
    (write (base_write g airports) i st.1, write (base_write g airports) i st.2).
Proof.
  destruct st as [l b]. unfold base_body, write, base_write, resting_color.
  destruct (airports !! i) as [a|]; cbn; [|reflexivity].
  destruct (negb (ledPowerState g)); [reflexivity|].
  destruct (isEmpty a); [reflexivity|].
  destruct (negb (hasValidData a) || negb (hasFltcat (metarData a)));
    reflexivity.
Qed.

Lemma for_upto_base_body (g : SystemState) (airports : list AirportLED)
    (n : nat) (st : list CRGB * list CRGB) :
  for_upto n (base_body g airports) st =
    (for_upto n (write (base_write g airports)) st.1,
     for_upto n (write (base_write g airports)) st.2).
Proof.
  induction n as [|n IH]; [destruct st; reflexivity|].
  rewrite !for_upto_S, IH, base_body_write. reflexivity.
Qed.

Lemma updateFromAirports_leds (g : SystemState) (airports : list AirportLED)
    (c : t) (i : nat) (a : AirportLED) :
  airports !! i = Some a -> (i < numLeds c)%nat ->
  leds (updateFromAirports g airports c) !! i = Some (resting_color g a).
Proof.
  intros Ha Hi. unfold updateFromAirports.
  rewrite for_upto_base_body. cbn [fst snd leds].
  rewrite for_upto_write_lookup.
  apply lookup_lt_Some in Ha as Hlen.
  rewrite decide_True by (unfold numLeds in *; lia).
  unfold base_write. rewrite Ha. cbn.
  rewrite decide_True by exact Hi. reflexivity.
Qed.

End Loops.

(** ** Merging a batch into the registry *)

Section Merge.
Import CLib WeatherAPIClient LEDColors LEDController.

Lemma observation_has_identifier (line : string) (metar : METAR) :
  observation line = Some metar -> icaoId metar <> "".
Proof.
  unfold observation.
  destruct (10 <? String.length (trim line))%nat; [|discriminate].
  destruct (0 <? String.length (icaoId (MetarParser.parse (trim line))))%nat
    eqn:E; [|discriminate].
  intros [= <-] Hempty. rewrite Hempty in E. discriminate E.
Qed.

Lemma observations_have_identifier (rawData : string) (metar : METAR) :
  metar ∈ observations rawData -> icaoId metar <> "".
Proof.
  unfold observations. intros H.
  apply list_elem_of_omap in H as (line & _ & Hline).
  exact (observation_has_identifier line metar Hline).
Qed.

Lemma not_assigned (airports : list AirportLED) (i : nat) (obs : list METAR) :
  (forall metar, metar ∈ obs -> first_match airports (icaoId metar) 0 <> Some i) ->
  last (assigned_to airports i obs) = None.
Proof.
  intros H. destruct (last _) as [metar|] eqn:E; [|reflexivity].
  apply last_Some_elem_of in E. unfold assigned_to in E.
  apply list_elem_of_filter in E as [Hm Hin].
  exfalso. exact (H metar Hin Hm).
Qed.

(** C3.  After [parseWeatherData] every slot holds the last observation of
    the batch that the slot search sent to it, stored whole and with
    [hasValidData] set, or is exactly as before when the search sent it
    none.  The search sends an observation (whose identifier is never
    empty) to the first slot whose code equals the identifier.  A slot
    whose code matches no observation of the batch is unchanged, and so is
    a slot with an empty code, which [updateFromAirports] then renders
    off. *)
Theorem parseWeatherData_registry (rawData : string)
    (airports : list AirportLED) (i : nat) (slot : AirportLED) :
  airports !! i = Some slot ->
  let after := (parseWeatherData rawData airports).2 in
  length after = length airports
  /\ after !! i =
       Some (match last (assigned_to airports i (observations rawData)) with
             | Some metar =>
                 {| icaoCode := icaoCode slot; metarData := metar;
                    hasValidData := true |}
             | None => slot
             end)
  /\ (forall metar,
        metar ∈ assigned_to airports i (observations rawData) <->
        metar ∈ observations rawData
        /\ icaoId metar <> ""
        /\ icaoCode slot = icaoId metar
        /\ forall j b, (j < i)%nat -> airports !! j = Some b ->
                       icaoCode b <> icaoId metar)
  /\ ((forall metar, metar ∈ observations rawData ->
                     icaoId metar <> icaoCode slot) ->
      after !! i = Some slot)
  /\ (icaoCode slot = "" ->
      after !! i = Some slot
      /\ forall (g : SystemState) (c : LEDController.t),
           (i < numLeds c)%nat ->
           leds (updateFromAirports g after c) !! i = Some OFF).
Proof.
  intros Hslot after.
  assert (Hafter : after !! i =
            Some (match last (assigned_to airports i (observations rawData))
                  with
                  | Some metar => store_metar metar slot
                  | None => slot
                  end)).
  { subst after. rewrite parseWeatherData_fold. cbn [snd].
    apply foldl_merge_lookup, Hslot. }
  assert (Hmatch : forall metar,
            first_match airports (icaoId metar) 0 = Some i <->
            icaoCode slot = icaoId metar
            /\ forall j b, (j < i)%nat -> airports !! j = Some b ->
                           icaoCode b <> icaoId metar).
  { intros metar. rewrite first_match_Some. split.
    - intros [(a & Ha & Hcode) Hfirst]. rewrite Hslot in Ha.
      injection Ha as <-. auto.
    - intros [Hcode Hfirst]. split; [exists slot; auto | exact Hfirst]. }
  assert (Hkeep : (forall metar, metar ∈ observations rawData ->
                                 icaoId metar <> icaoCode slot) ->
                  after !! i = Some slot).
  { intros Hnone. rewrite Hafter, not_assigned; [reflexivity|].
    intros metar Hin Hm. apply Hmatch in Hm as [Hcode _].
    exact (Hnone metar Hin (eq_sym Hcode)). }
  split.
  { subst after. rewrite parseWeatherData_fold. cbn [snd].
    apply foldl_merge_length. }
  split; [exact Hafter|].
  split.
  { intros metar. unfold assigned_to. rewrite list_elem_of_filter, Hmatch.
    split.
    - intros [[Hcode Hfirst] Hin].
      pose proof (observations_have_identifier rawData metar Hin). auto.
    - intros (Hin & _ & Hcode & Hfirst). auto. }
  split; [exact Hkeep|].
  intros Hempty.
  assert (Hsame : after !! i = Some slot).
  { apply Hkeep. intros metar Hin. rewrite Hempty.
    exact (observations_have_identifier rawData metar Hin). }
  split; [exact Hsame|].
  intros g c Hi. rewrite (updateFromAirports_leds g after c i slot Hsame Hi).
  unfold resting_color, isEmpty. rewrite Hempty. cbn.
  destruct (ledPowerState g); reflexivity.
Qed.

(** C10.  A call of [fetchWeatherData] that does not return [SUCCESS]
    leaves every slot as it was: the early returns do not touch the slots,
    and [parseWeatherData] counts every observation it stores, so it
    returns [SUCCESS] exactly when the batch has an observation that some
    slot matches. *)
Theorem fetchWeatherData_failure_keeps_registry (freeHeap : Z)
    (fetchRawData : METAR_STATUS * string) (airports : list AirportLED) :
  (fetchWeatherData freeHeap fetchRawData airports).1 <> SUCCESS ->
  (fetchWeatherData freeHeap fetchRawData airports).2 = airports
  /\ (forall rawData : string,
        (parseWeatherData rawData airports).1 = SUCCESS <->
        exists metar,
          metar ∈ observations rawData
          /\ first_match airports (icaoId metar) 0 <> None).
Proof.
  intros Hfail.
  assert (Hparse : forall rawData : string,
            (parseWeatherData rawData airports).1 = SUCCESS <->
            exists metar,
              metar ∈ observations rawData
              /\ first_match airports (icaoId metar) 0 <> None).
  { intros rawData. rewrite parseWeatherData_fold. cbn [fst].
    destruct (foldl_merge_count (observations rawData) (airports, 0%Z))
      as (Hle & _ & Hiff). cbn [fst snd] in *.
    set (n := (foldl merge_metar (airports, 0%Z) (observations rawData)).2)
      in *.
    split.
    - intros Hs. destruct (Z.ltb_spec 0 n) as [Hpos|]; [|discriminate].
      destruct (decide (Exists
                  (fun metar => first_match airports (icaoId metar) 0 <> None)
                  (observations rawData))) as [Hex|Hnone].
      { apply Exists_exists in Hex. exact Hex. }
      assert (Hn : n = 0%Z); [|lia].
      apply Hiff. intros metar Hin.
      destruct (first_match airports (icaoId metar) 0) eqn:E; [|reflexivity].
      exfalso. apply Hnone, Exists_exists. exists metar. split; [exact Hin|].
      rewrite E. discriminate.
    - intros (metar & Hin & Hm).
      destruct (Z.ltb_spec 0 n) as [Hpos|Hneg]; [reflexivity|].
      exfalso. apply Hm. apply Hiff; [lia | exact Hin]. }
  split; [|exact Hparse].
  unfold fetchWeatherData in *.
  destruct (freeHeap <? MIN_HEAP_FOR_OPERATION)%Z; [reflexivity|].
  destruct fetchRawData as [status rawData].
  destruct (negb (METAR_STATUS_eqb status SUCCESS)); [reflexivity|].
  rewrite parseWeatherData_fold in *. cbn [fst snd] in *.
  destruct (foldl_merge_count (observations rawData) (airports, 0%Z))
    as (Hle & Hsame & _). cbn [fst snd] in *.
  destruct (Z.ltb_spec 0 (foldl merge_metar (airports, 0%Z)
                            (observations rawData)).2) as [Hpos|Hneg];
    [contradiction|].
  rewrite Hsame; [reflexivity|]. lia.
Qed.

End Merge.

Section MergeExamples.
Import WeatherAPIClient.

Lemma parseWeatherData_registry_witness :
  example_slots !! 1%nat = Some (AirportLED_new "KSJC")
  /\ (parseWeatherData example_batch example_slots).2 !! 1%nat
     = Some (AirportLED_new "KSJC").
Proof.
  split; [reflexivity|].
  pose proof (parseWeatherData_registry example_batch example_slots 1
                (AirportLED_new "KSJC") eq_refl) as H.
  cbv zeta in H. destruct H as (_ & H & _).
  rewrite H. vm_compute. reflexivity.
Defined.

Lemma fetchWeatherData_failure_keeps_registry_witness :
  (fetchWeatherData 20000 (SUCCESS, unknown_batch) example_slots).1
    = PARSING_FAILURE
  /\ (fetchWeatherData 20000 (SUCCESS, unknown_batch) example_slots).2
     = example_slots.
Proof.
  split; [vm_compute; reflexivity|].
  apply (fetchWeatherData_failure_keeps_registry 20000
           (SUCCESS, unknown_batch) example_slots).
  vm_compute. discriminate.
Defined.

End MergeExamples.

(** ** The wind-blink overlay *)

Section WindBlink.
Import LEDColors LEDController.

Lemma updateWindBlink_toggle (g : SystemState) (currentMillis : Z)
    (airports : list AirportLED) (c : LEDController.t) :
  windCheckEnabled g = true -> ledPowerState g = true ->
  lastFetchStatus g = SUCCESS ->
  updateWindBlink g currentMillis airports c =
    if (WIND_BLINK_INTERVAL <=? elapsed currentMillis (lastWindBlinkTime c))%Z
    then
      {| leds :=
           for_upto (Nat.min (length airports) (numLeds c))
             (write (wind_write g airports (negb (windBlinkState c))))
             (leds c);
         baseColors := baseColors c;
         lastFlashTime := lastFlashTime c;
         lastWindBlinkTime := currentMillis;
         flashState := flashState c;
         windBlinkState := negb (windBlinkState c) |}
    else c.
Proof.
  intros Hw Hp Hs. unfold updateWindBlink. rewrite Hw, Hp, Hs. cbn.
  destruct (_ <=? _)%Z; [|reflexivity].
  f_equal. apply for_upto_ext. intros i l. apply wind_body_write.
Qed.

(** C6.  With the wind feature enabled, the display on and the last fetch
    successful, [updateWindBlink] never writes the LED of a slot whose
    observation carries the thunderstorm flag.  When at least 1000 ms have
    passed since the last toggle it flips the blink state, and every slot
    that has an LED, a valid observation, a wind speed above the threshold
    and no thunderstorm flag is set to the wind-warning colour if the new
    state is on and to off if it is off.  Before that nothing changes. *)
Theorem updateWindBlink_overlay (g : SystemState) (currentMillis : Z)
    (airports : list AirportLED) (c : LEDController.t)
    (i : nat) (a : AirportLED) :
  windCheckEnabled g = true -> ledPowerState g = true ->
  lastFetchStatus g = SUCCESS ->
  airports !! i = Some a ->
  let c' := updateWindBlink g currentMillis airports c in
  (hasThunderstorm (metarData a) = true -> leds c' !! i = leds c !! i)
  /\ ((WIND_BLINK_INTERVAL <= elapsed currentMillis (lastWindBlinkTime c))%Z ->
      windBlinkState c' = negb (windBlinkState c)
      /\ lastWindBlinkTime c' = currentMillis
      /\ ((i < numLeds c)%nat ->
          hasValidData a = true ->
          hasWspd (metarData a) = true ->
          (inject_Z (windCheckThreshold g) < wspd (metarData a))%Q ->
          hasThunderstorm (metarData a) = false ->
          leds c' !! i
          = Some (if windBlinkState c' then WIND_WARNING else OFF)))
  /\ ((elapsed currentMillis (lastWindBlinkTime c) < WIND_BLINK_INTERVAL)%Z ->
      c' = c).
Proof.
  intros Hw Hp Hs Ha c'. subst c'.
  rewrite (updateWindBlink_toggle g currentMillis airports c Hw Hp Hs).
  destruct (Z.leb_spec WIND_BLINK_INTERVAL
              (elapsed currentMillis (lastWindBlinkTime c))) as [Hdue|Hearly].
  - cbn [leds windBlinkState lastWindBlinkTime].
    split; [|split; [|intros; lia]].
    + intros Hts. rewrite for_upto_write_lookup.
      unfold wind_write, wind_slot. rewrite Ha, Hts, andb_false_r.
      destruct (decide _); reflexivity.
    + intros _. split; [reflexivity|]. split; [reflexivity|].
      intros Hi Hvalid Hspd Hover Hts. rewrite for_upto_write_lookup.
      apply lookup_lt_Some in Ha as Hlen.
      rewrite decide_True by lia.
      unfold wind_write, wind_slot, high_wind.
      rewrite Ha, Hvalid, Hspd, Hts.
      apply Qltb_lt in Hover. rewrite Hover. cbn.
      rewrite decide_True by exact Hi. reflexivity.
  - split; [reflexivity|]. split; [intros; lia | reflexivity].
Qed.

End WindBlink.

Section OverlayExamples.
Import MetarParser WeatherAPIClient LEDColors LEDController.

Lemma updateWindBlink_overlay_witness :
  (windCheckEnabled example_state = true
   /\ ledPowerState example_state = true
   /\ lastFetchStatus example_state = SUCCESS
   /\ [windy_slot; storm_airport] !! 0%nat = Some windy_slot)
  /\ leds (updateWindBlink example_state 1000 [windy_slot; storm_airport]
             example_controller) !! 0%nat = Some WIND_WARNING.
Proof.
  split; [repeat split|].
  pose proof (updateWindBlink_overlay example_state 1000
                [windy_slot; storm_airport] example_controller 0 windy_slot
                eq_refl eq_refl eq_refl eq_refl) as H.
  cbv zeta in H. destruct H as (_ & H & _).
  destruct H as (_ & _ & H); [vm_compute; discriminate|].
  rewrite H; first [vm_compute; reflexivity | vm_compute; lia].
Defined.

End OverlayExamples.

(** ** The thunderstorm overlay *)

Section Thunderstorms.
Import MetarParser WeatherAPIClient LEDColors LEDController.

Lemma storm_present (airports : list AirportLED) (n i : nat) (a : AirportLED) :
  (i < n)%nat -> airports !! i = Some a -> storm_slot a = true ->
  existsb storm_slot (take n airports) = true.
Proof.
  intros Hi Ha Hs. apply existsb_exists. exists a. split; [|exact Hs].
  apply list_elem_of_In, list_elem_of_lookup. exists i.
  rewrite lookup_take_lt by exact Hi. exact Ha.
Qed.

(** The overlay past its guards. *)
Lemma updateThunderstorms_active (g : SystemState) (currentMillis rnd : Z)
    (airports : list AirportLED) (c : LEDController.t)
    (i0 : nat) (a0 : AirportLED) :
  thunderstormsCheckEnabled g = true -> ledPowerState g = true ->
  lastFetchStatus g = SUCCESS ->
  airports !! i0 = Some a0 -> (i0 < numLeds c)%nat -> storm_slot a0 = true ->
  updateThunderstorms g currentMillis rnd airports c =
    let n := Nat.min (length airports) (numLeds c) in
    if flashState c then
      if (100 <=? elapsed currentMillis (lastFlashTime c))%Z then
        {| leds :=
             for_upto n
               (write (storm_write airports (fun i => baseColors c !! i)))
               (leds c);
           baseColors := baseColors c;
           lastFlashTime := currentMillis;
           lastWindBlinkTime := lastWindBlinkTime c;
           flashState := false;
           windBlinkState := windBlinkState c |}
      else c
    else if (3000 <=? elapsed currentMillis (lastFlashTime c))%Z
            && (rnd <? 20)%Z
    then
      {| leds :=
           for_upto n
             (write (storm_write airports (fun _ => Some THUNDERSTORM)))
             (leds c);
         baseColors := baseColors c;
         lastFlashTime := currentMillis;
         lastWindBlinkTime := lastWindBlinkTime c;
         flashState := true;
         windBlinkState := windBlinkState c |}
    else c.
Proof.
  intros Ht Hp Hs Ha Hi Hstorm. unfold updateThunderstorms.
  rewrite Ht, Hp, Hs. cbn [negb METAR_STATUS_eqb].
  apply lookup_lt_Some in Ha as Hlen.
  rewrite (storm_present airports _ i0 a0) by (auto; lia).
  cbn [negb]. cbv zeta.
  destruct (flashState c).
  - destruct (_ <=? _)%Z; [|reflexivity].
    f_equal. apply for_upto_ext. intros i l. apply storm_body_write.
  - destruct (_ <=? _)%Z; [|reflexivity].
    destruct (_ <? _)%Z; [|reflexivity].
    cbn [andb]. f_equal. apply for_upto_ext. intros i l.
    apply storm_body_write.
Qed.

Lemma storm_write_lookup (airports : list AirportLED)
    (color : nat -> option CRGB) (l : list CRGB) (i : nat) (a : AirportLED) :
  airports !! i = Some a ->
  for_upto (Nat.min (length airports) (length l))
    (write (storm_write airports color)) l !! i =
    if storm_slot a && bool_decide (i < length l)%nat
    then match color i with Some col => Some col | None => l !! i end
    else l !! i.
Proof.
  intros Ha. rewrite for_upto_write_lookup.
  apply lookup_lt_Some in Ha as Hlen. unfold storm_write. rewrite Ha.
  destruct (decide (i < length l)%nat) as [Hi|Hi].
  - rewrite decide_True by lia. rewrite bool_decide_eq_true_2 by exact Hi.
    rewrite andb_true_r.
    destruct (color i), (storm_slot a); reflexivity.
  - rewrite decide_False by lia. rewrite bool_decide_eq_false_2 by exact Hi.
    rewrite andb_false_r. reflexivity.
Qed.




End Thunderstorms.

(** ** Facts about the string operations *)

Section StringFacts.
Import CLib.

Lemma drop_length (n : nat) (s : string) :
  String.length (drop n s) = (String.length s - n)%nat.
Proof.
  revert s. induction n as [|n IH]; intros s; cbn.
  - lia.
  - destruct s as [|c s]; cbn; [reflexivity | apply IH].
Qed.

Lemma substring_drop (n m : nat) (s : string) :
  String.substring n m s = String.substring 0 m (drop n s).
Proof.
  revert s. induction n as [|n IH]; intros s; [reflexivity|].
  destruct s as [|c s]; cbn [drop].
  - destruct m; reflexivity.
  - cbn [String.substring]. apply IH.
Qed.

Lemma get_drop (n i : nat) (s : string) :
  String.get (n + i) s = String.get i (drop n s).
Proof.
  revert s. induction n as [|n IH]; intros s; [reflexivity|].
  destruct s as [|c s]; cbn [drop Nat.add String.get].
  - destruct i; reflexivity.
  - apply IH.
Qed.

Lemma char_at_drop (n i : nat) (s : string) :
  char_at s (n + i) = char_at (drop n s) i.
Proof. unfold char_at. rewrite get_drop. reflexivity. Qed.

Lemma char_at_beyond (s : string) (i : nat) :
  (String.length s <= i)%nat -> char_at s i = NUL.
Proof.
  unfold char_at. revert i. induction s as [|c s IH]; intros i Hi.
  - destruct i; reflexivity.
  - destruct i as [|i]; cbn in *; [lia|]. apply IH. lia.
Qed.

Lemma isdigit_in_range (s : string) (i : nat) :
  isdigit (char_at s i) = true -> (i < String.length s)%nat.
Proof.
  intros H. destruct (Nat.lt_ge_cases i (String.length s)) as [Hlt|Hge];
    [exact Hlt|].
  rewrite (char_at_beyond s i Hge) in H. discriminate H.
Qed.

Lemma starts_with_substring (s : string) (p : nat) (lit : string) :
  starts_with s p lit = true <->
  String.substring p (String.length lit) s = lit.
Proof.
  unfold starts_with. rewrite prefix_correct, <- substring_drop. reflexivity.
Qed.

Lemma starts_with_false (s : string) (p : nat) (lit : string) :
  String.substring p (String.length lit) s <> lit ->
  starts_with s p lit = false.
Proof.
  intros H. destruct (starts_with s p lit) eqn:E; [|reflexivity].
  apply starts_with_substring in E. contradiction.
Qed.

Lemma index_ge (s2 : string) :
  forall (n : nat) (s1 : string) (m : nat),
    String.index n s1 s2 = Some m -> (n <= m)%nat.
Proof.
  induction s2 as [|c s2 IH]; intros n s1 m; cbn.
  - destruct n; [lia | discriminate].
  - destruct n as [|n].
    + lia.
    + destruct (String.index n s1 s2) as [k|] eqn:E; [|discriminate].
      intros [= <-]. apply IH in E. lia.
Qed.

Lemma substring_length_le (s : string) :
  forall n m : nat,
    (String.length (String.substring n m s) <= String.length s - n)%nat.
Proof.
  induction s as [|c s IH]; intros n m.
  - destruct n, m; cbn; lia.
  - destruct n as [|n]; cbn.
    + destruct m as [|m]; cbn; [lia|]. specialize (IH 0%nat m). lia.
    + apply IH.
Qed.

(** What [strstr] finds: the first occurrence at or after [from]. *)
Lemma strstr_from_Some (s pat : string) (from p : nat) :
  strstr_from s pat from = Some p ->
  (from <= p)%nat
  /\ (p + String.length pat <= String.length s)%nat
  /\ starts_with s p pat = true
  /\ forall q, (from <= q < p)%nat -> starts_with s q pat = false.
Proof.
  unfold strstr_from. intros H.
  pose proof (index_ge _ _ _ _ H) as Hge.
  pose proof (index_correct1 _ _ _ _ H) as Hat.
  split; [exact Hge|]. split.
  { pose proof (substring_length_le s p (String.length pat)) as Hlen.
    rewrite Hat in Hlen.
    destruct (Nat.le_gt_cases p (String.length s)) as [Hp|Hp]; [lia|].
    assert (String.length pat = 0)%nat by lia.
    destruct pat; [|discriminate].
    exfalso. revert Hp H. clear. revert from p.
    induction s as [|c s IH]; intros from p Hp; cbn.
    - destruct from; [intros [= <-]; cbn in Hp; lia | discriminate].
    - destruct from as [|from].
      + intros [= <-]. lia.
      + destruct (String.index from "" s) as [k|] eqn:E; [|discriminate].
        intros [= <-]. apply (IH from k); [cbn in Hp; lia | exact E]. }
  split; [apply starts_with_substring, Hat|].
  intros q [Hq1 Hq2]. apply starts_with_false.
  exact (index_correct2 _ _ _ _ H q Hq1 Hq2).
Qed.

Lemma strstr_from_None (s pat : string) (from : nat) :
  strstr_from s pat from = None -> pat <> "" ->
  forall q, (from <= q)%nat -> starts_with s q pat = false.
Proof.
  unfold strstr_from. intros H Hne q Hq. apply starts_with_false.
  exact (index_correct3 _ q _ _ H Hne Hq).
Qed.

Lemma isdigit_not_space (c : ascii) : isdigit c = true -> isspace c = false.
Proof.
  destruct c as [[] [] [] [] [] [] [] []]; vm_compute;
    first [reflexivity | discriminate].
Qed.

Lemma strip_sign_digit (c : ascii) (s : string) :
  isdigit c = true -> strip_sign (String c s) = (false, String c s).
Proof.
  destruct c as [[] [] [] [] [] [] [] []]; vm_compute;
    first [reflexivity | discriminate].
Qed.

Lemma digit_val_range (c : ascii) :
  isdigit c = true -> (0 <= digit_val c <= 9)%Z.
Proof.
  unfold isdigit, digit_val. intros H.
  apply andb_true_iff in H as [H1 H2].
  apply Nat.leb_le in H1, H2. lia.
Qed.

Lemma atof_four_digits (s : string) (q : nat) :
  isdigit (char_at s q) = true ->
  isdigit (char_at s (q + 1)) = true ->
  isdigit (char_at s (q + 2)) = true ->
  isdigit (char_at s (q + 3)) = true ->
  atof (copy_n s q 4) = inject_Z (four_digit_number s q).
Proof.
  unfold four_digit_number, copy_n. rewrite substring_drop.
  assert (E0 : char_at s q = char_at (drop q s) 0)
    by (rewrite <- char_at_drop; f_equal; lia).
  rewrite E0, !char_at_drop. clear E0.
  generalize (drop q s). clear s q. intros t.
  unfold char_at.
  destruct t as [|c0 [|c1 [|c2 [|c3 t]]]]; cbn [String.get];
    try discriminate.
  intros H0 H1 H2 H3. cbn [String.substring].
  unfold atof. cbn [skip_ws]. rewrite (isdigit_not_space c0 H0).
  rewrite (strip_sign_digit c0 _ H0).
  cbn [scan_digits]. rewrite H0, H1, H2, H3.
  assert (E : String.substring 0 0 t = "") by (destruct t; reflexivity).
  rewrite E. cbn [scan_digits]. f_equal. lia.
Qed.

End StringFacts.

(** ** What each block of [parse] leaves alone *)

Section Frames.
Import CLib MetarParser.

Lemma land_pow2 (a k : Z) :
  (0 <= k)%Z ->
  Z.land a (2 ^ k) = if Z.testbit a k then (2 ^ k)%Z else 0%Z.
Proof.
  intros Hk. apply Z.bits_inj'. intros n Hn.
  rewrite Z.land_spec, Z.pow2_bits_eqb by exact Hk.
  destruct (Z.eqb_spec k n) as [->|Hne].
  - destruct (Z.testbit a n) eqn:E; cbn.
    + rewrite Z.pow2_bits_true by exact Hn. reflexivity.
    + rewrite Z.bits_0. reflexivity.
  - rewrite andb_false_r.
    destruct (Z.testbit a k).
    + rewrite Z.pow2_bits_false by congruence. reflexivity.
    + rewrite Z.bits_0. reflexivity.
Qed.

Lemma has_flag_bit (m : METAR) (k : Z) :
  (0 <= k)%Z -> has_flag m (2 ^ k) = bit k m.
Proof.
  intros Hk. unfold has_flag, bit. rewrite land_pow2 by exact Hk.
  destruct (Z.testbit (flags m) k); [|reflexivity].
  destruct (Z.eqb_spec (2 ^ k) 0) as [E|E]; [|reflexivity].
  pose proof (Z.pow_pos_nonneg 2 k ltac:(lia) Hk). lia.
Qed.

Lemma hasVisib_bit (m : METAR) : hasVisib m = bit 4 m.
Proof. exact (has_flag_bit m 4 ltac:(lia)). Qed.

Lemma hasAltim_bit (m : METAR) : hasAltim m = bit 5 m.
Proof. exact (has_flag_bit m 5 ltac:(lia)). Qed.

Lemma hasThunderstorm_bit (m : METAR) : hasThunderstorm m = bit 7 m.
Proof. exact (has_flag_bit m 7 ltac:(lia)). Qed.

Ltac unfold_views :=
  unfold visibility_view, altimeter_view, storm_view, obsTime_view, bit.

Ltac unfold_setters :=
  unfold setObsTime, setThunderstorm, set_flags, setIcaoId, setWdir, setWspd,
    setVisib, setTemp, setDewp, setAltim, setFltcat, setCloudLayers,
    setRawText, HAS_TEMP, HAS_DEWP, HAS_WSPD, HAS_WDIR, HAS_VISIB, HAS_ALTIM,
    HAS_FLTCAT, HAS_THUNDERSTORM.

(** Close a frame goal once the block is unfolded. *)
Ltac frame :=
  unfold_views; unfold_setters; repeat case_match;
  cbn [visib altim flags obsTime]; rewrite ?Z.lor_spec; cbn;
  rewrite ?orb_false_r; reflexivity.

Lemma parse_obsTime_frame (line : string) (m : METAR) :
  visibility_view (parse_obsTime line m) = visibility_view m
  /\ altimeter_view (parse_obsTime line m) = altimeter_view m
  /\ storm_view (parse_obsTime line m) = storm_view m.
Proof. unfold parse_obsTime. repeat split; frame. Qed.

Lemma parse_thunderstorm_frame (line : string) (m : METAR) :
  visibility_view (parse_thunderstorm line m) = visibility_view m
  /\ altimeter_view (parse_thunderstorm line m) = altimeter_view m
  /\ obsTime_view (parse_thunderstorm line m) = obsTime_view m.
Proof. unfold parse_thunderstorm. repeat split; frame. Qed.

Lemma parse_icao_frame (line : string) (m : METAR) :
  visibility_view (parse_icao line m) = visibility_view m
  /\ altimeter_view (parse_icao line m) = altimeter_view m
  /\ storm_view (parse_icao line m) = storm_view m
  /\ obsTime_view (parse_icao line m) = obsTime_view m.
Proof. unfold parse_icao. repeat split; frame. Qed.

Lemma parse_wind_frame (line : string) (m : METAR) :
  visibility_view (parse_wind line m) = visibility_view m
  /\ altimeter_view (parse_wind line m) = altimeter_view m
  /\ storm_view (parse_wind line m) = storm_view m
  /\ obsTime_view (parse_wind line m) = obsTime_view m.
Proof. unfold parse_wind. repeat split; frame. Qed.

Lemma parse_visibility_frame (line : string) (m : METAR) :
  altimeter_view (parse_visibility line m) = altimeter_view m
  /\ storm_view (parse_visibility line m) = storm_view m
  /\ obsTime_view (parse_visibility line m) = obsTime_view m.
Proof. unfold parse_visibility. repeat split; frame. Qed.

Lemma parse_temperature_frame (line : string) (m : METAR) :
  visibility_view (parse_temperature line m) = visibility_view m
  /\ altimeter_view (parse_temperature line m) = altimeter_view m
  /\ storm_view (parse_temperature line m) = storm_view m
  /\ obsTime_view (parse_temperature line m) = obsTime_view m.
Proof. unfold parse_temperature. repeat split; frame. Qed.

Lemma parse_fltcat_frame (line : string) (m : METAR) :
  visibility_view (parse_fltcat line m) = visibility_view m
  /\ altimeter_view (parse_fltcat line m) = altimeter_view m
  /\ storm_view (parse_fltcat line m) = storm_view m
  /\ obsTime_view (parse_fltcat line m) = obsTime_view m.
Proof. unfold parse_fltcat. repeat split; frame. Qed.

(** *** The cloud loop *)

Lemma setThunderstorm_idem (m : METAR) :
  setThunderstorm (setThunderstorm m true) true = setThunderstorm m true.
Proof.
  unfold setThunderstorm, set_flags. cbn. f_equal.
  rewrite <- Z.lor_assoc, Z.lor_diag. reflexivity.
Qed.

(** The loop appends layers, and sets the thunderstorm flag exactly when
    one of the layers it appends is a cumulonimbus layer. *)
Lemma cloud_loop_spec (rawText : string) (fuel : nat) :
  forall (pos : nat) (tempLayers : list CloudLayer) (metar : METAR),
  exists added,
    cloud_loop fuel rawText pos tempLayers metar =
      ((tempLayers ++ added)%list,
       if existsb is_cb added then setThunderstorm metar true else metar).
Proof.
  induction fuel as [|fuel IH]; intros pos tempLayers metar.
  { exists []. rewrite app_nil_r. reflexivity. }
  cbn [cloud_loop].
  assert (Hstop : exists added : list CloudLayer,
            (tempLayers, metar) =
            ((tempLayers ++ added)%list,
             if existsb is_cb added then setThunderstorm metar true
             else metar)).
  { exists []. rewrite app_nil_r. reflexivity. }
  assert (Hmore : forall pos' x metar',
            (if is_cb x then setThunderstorm metar true else metar) = metar' ->
            exists added : list CloudLayer,
              cloud_loop fuel rawText pos' (tempLayers ++ [x])%list metar' =
              ((tempLayers ++ added)%list,
               if existsb is_cb added then setThunderstorm metar true
               else metar)).
  { intros pos' x metar' Hx. destruct (IH pos' (tempLayers ++ [x])%list metar')
      as [added Hadd].
    exists (x :: added). rewrite Hadd, <- app_assoc. cbn [app existsb].
    f_equal. subst metar'. destruct (is_cb x); cbn [orb].
    - destruct (existsb is_cb added);
        [apply setThunderstorm_idem | reflexivity].
    - reflexivity. }
  destruct (_ || _); [exact Hstop|].
  destruct (_ <=? _)%nat; [exact Hstop|].
  destruct (match_code rawText (skip_spaces rawText pos)) as [code|];
    [|apply IH].
  destruct (_ || _); [apply Hmore; reflexivity|].
  destruct (three_digits_at _ _); [|apply IH].
  destruct (starts_with _ _ "CB"); [apply Hmore; reflexivity|].
  destruct (starts_with _ _ "TCU"); apply Hmore; reflexivity.
Qed.

Lemma parseCloudConditions_spec (metar : METAR) (rawText : string) :
  exists layers,
    parseCloudConditions metar rawText =
      setCloudLayers
        (if existsb is_cb layers then setThunderstorm metar true else metar)
        layers.
Proof.
  unfold parseCloudConditions.
  destruct (cloud_loop_spec rawText (S (String.length rawText)) 0 [] metar)
    as [added Hadd].
  exists added. rewrite Hadd. reflexivity.
Qed.

Lemma parseCloudConditions_layers (metar : METAR) (rawText : string) :
  cloudLayers (parseCloudConditions metar rawText)
  = cloudLayers (parseCloudConditions METAR_new rawText).
Proof.
  unfold parseCloudConditions.
  destruct (cloud_loop_spec rawText (S (String.length rawText)) 0 [] metar)
    as [added Hadd].
  destruct (cloud_loop_spec rawText (S (String.length rawText)) 0 []
              METAR_new) as [added' Hadd'].
  rewrite Hadd, Hadd'. cbn.
  assert (E : forall fuel pos l m1 m2,
            (cloud_loop fuel rawText pos l m1).1
            = (cloud_loop fuel rawText pos l m2).1).
  { clear. induction fuel as [|fuel IH]; intros pos l m1 m2; [reflexivity|].
    cbn [cloud_loop]. repeat case_match; try reflexivity; apply IH. }
  specialize (E (S (String.length rawText)) 0%nat [] metar METAR_new).
  rewrite Hadd, Hadd' in E. exact E.
Qed.

Lemma parseCloudConditions_frame (line : string) (m : METAR) :
  visibility_view (parseCloudConditions m line) = visibility_view m
  /\ altimeter_view (parseCloudConditions m line) = altimeter_view m
  /\ obsTime_view (parseCloudConditions m line) = obsTime_view m.
Proof.
  destruct (parseCloudConditions_spec m line) as [layers ->].
  repeat split; frame.
Qed.

(** The flag after the cloud block: set before, or a cumulonimbus layer. *)
Lemma parseCloudConditions_storm (line : string) (m : METAR) :
  storm_view (parseCloudConditions m line)
  = storm_view m
    || existsb is_cb (cloudLayers (parseCloudConditions m line)).
Proof.
  destruct (parseCloudConditions_spec m line) as [layers ->].
  unfold setCloudLayers. cbn [cloudLayers].
  destruct (existsb is_cb layers).
  - unfold_views. unfold_setters. cbn [flags].
    rewrite Z.lor_spec. change (Z.testbit 128 7) with true.
    rewrite !orb_true_r. reflexivity.
  - unfold_views. cbn [flags]. rewrite orb_false_r. reflexivity.
Qed.

(** *** The altimeter loop *)

Lemma altimeter_loop_frame (line : string) (fuel : nat) :
  forall (altPtr : option nat) (m : METAR),
    visibility_view (altimeter_loop fuel line altPtr m) = visibility_view m
    /\ storm_view (altimeter_loop fuel line altPtr m) = storm_view m
    /\ obsTime_view (altimeter_loop fuel line altPtr m) = obsTime_view m.
Proof.
  induction fuel as [|fuel IH]; intros altPtr m; [repeat split|].
  cbn [altimeter_loop]. destruct altPtr as [p|]; [|repeat split].
  destruct (_ && _); [repeat split; frame | apply IH].
Qed.

Lemma parse_altimeter_frame (line : string) (m : METAR) :
  visibility_view (parse_altimeter line m) = visibility_view m
  /\ storm_view (parse_altimeter line m) = storm_view m
  /\ obsTime_view (parse_altimeter line m) = obsTime_view m.
Proof. apply altimeter_loop_frame. Qed.

(** *** [parse] as the chain of its blocks *)

Lemma parse_chain (line : string) :
  (10 <= String.length line)%nat ->
  parse line = parse_fltcat line (parse_altimeter line (before_altimeter line)).
Proof.
  intros Hlen. unfold parse.
  destruct (Nat.ltb_spec (String.length line) 10) as [Hlt|_]; [lia|].
  reflexivity.
Qed.

End Frames.

(** ** Visibility *)

Section Visibility.
Import CLib MetarParser.

Lemma skip_ws_length (s : string) :
  (String.length (skip_ws s) <= String.length s)%nat.
Proof.
  induction s as [|c s IH]; cbn; [lia|].
  destruct (isspace c); cbn; lia.
Qed.

Lemma rtrim_length (s : string) :
  (String.length (rtrim s) <= String.length s)%nat.
Proof.
  induction s as [|c s IH]; cbn; [lia|].
  destruct (rtrim s); cbn in *; [destruct (isspace c); cbn; lia | lia].
Qed.

Lemma trim_length (s : string) :
  (String.length (trim s) <= String.length s)%nat.
Proof.
  unfold trim. pose proof (rtrim_length (skip_ws s)).
  pose proof (skip_ws_length s). lia.
Qed.

Lemma indexOf_range (v : string) (c : ascii) :
  (indexOf v c < Z.of_nat (String.length v))%Z.
Proof.
  unfold indexOf, indexOf_from. change (Z.to_nat 0) with 0%nat.
  destruct (String.index 0 (String c "") v) as [i|] eqn:E; [|lia].
  apply (strstr_from_Some v (String c "") 0 i) in E as (_ & Hlen & _).
  change (String.length (String c "")) with 1%nat in Hlen. lia.
Qed.

Lemma substring_from_shorter (v : string) (k : Z) :
  (0 <= k < Z.of_nat (String.length v))%Z ->
  (String.length (substring_from v (k + 1)) < String.length v)%nat.
Proof.
  intros Hk. unfold substring_from, substring.
  destruct (Z.ltb_spec (Z.of_nat (String.length v)) (k + 1)) as [?|_]; [lia|].
  destruct (Z.leb_spec (Z.of_nat (String.length v)) (k + 1)); cbn; [lia|].
  pose proof (substring_length_le v (Z.to_nat (k + 1))
                (Z.to_nat (Z.of_nat (String.length v)
                             `min` Z.of_nat (String.length v) - (k + 1)))).
  lia.
Qed.

(** [parseVisibility] never runs out of fuel: any two amounts of fuel above
    the length of the string give the same value. *)
Lemma parseVisibility_fuel_enough (f1 : nat) :
  forall (f2 : nat) (s : string),
    (String.length s < f1)%nat -> (String.length s < f2)%nat ->
    parseVisibility_fuel f1 s = parseVisibility_fuel f2 s.
Proof.
  induction f1 as [|f1 IH]; intros f2 s H1 H2; [lia|].
  destruct f2 as [|f2]; [lia|]. cbn [parseVisibility_fuel].
  destruct (endsWith _ _); [reflexivity|].
  destruct (_ && _); [reflexivity|].
  destruct (Z.ltb_spec 0 (indexOf (trim s) " ")) as [Hpos|_]; [|reflexivity].
  f_equal.
  pose proof (indexOf_range (trim s) " ").
  pose proof (substring_from_shorter (trim s) (indexOf (trim s) " ")
                ltac:(lia)).
  pose proof (trim_length s).
  apply IH; lia.
Qed.

(** The visibility of a parsed line, from the token alone. *)
Lemma parse_visibility_view (line : string) :
  (10 <= String.length line)%nat ->
  visibility_view (parse line) =
    match visibility_token line with
    | Some visStr =>
        if Ascii.eqb (char_at visStr 0) "R" then (0%Q, false)
        else (parseVisibility visStr, true)
    | None => (0%Q, false)
    end.
Proof.
  intros Hlen. rewrite (parse_chain line Hlen).
  destruct (parse_fltcat_frame line
              (parse_altimeter line (before_altimeter line))) as (-> & _).
  destruct (parse_altimeter_frame line (before_altimeter line)) as (-> & _).
  unfold before_altimeter.
  destruct (parse_temperature_frame line
              (parse_visibility line
                 (parseCloudConditions (before_clouds line) line)))
    as (-> & _).
  assert (Hbefore :
            visibility_view (parseCloudConditions (before_clouds line) line)
            = (0%Q, false)).
  { destruct (parseCloudConditions_frame line (before_clouds line))
      as (-> & _).
    unfold before_clouds.
    destruct (parse_wind_frame line
                (parse_icao line
                   (parse_thunderstorm line
                      (parse_obsTime line (setRawText METAR_new line)))))
      as (-> & _).
    destruct (parse_icao_frame line
                (parse_thunderstorm line
                   (parse_obsTime line (setRawText METAR_new line))))
      as (-> & _).
    destruct (parse_thunderstorm_frame line
                (parse_obsTime line (setRawText METAR_new line)))
      as (-> & _).
    destruct (parse_obsTime_frame line (setRawText METAR_new line))
      as (-> & _).
    reflexivity. }
  unfold parse_visibility.
  destruct (visibility_token line) as [visStr|]; [|exact Hbefore].
  destruct (Ascii.eqb (char_at visStr 0) "R"); cbn [negb]; [exact Hbefore|].
  unfold visibility_view, bit, setVisib. cbn [visib flags].
  rewrite Z.lor_spec. change (Z.testbit HAS_VISIB 4) with true.
  rewrite orb_true_r. reflexivity.
Qed.

(** C4.  [parseVisibility] gives 0.75 for "3/4", 1.5 for "1 1/2" and 10
    for "10", alone and as the token before "SM" in a report line; a
    trimmed string that ends in '+' is converted without that character;
    a string with a blank inside is the number before the blank plus
    [parseVisibility] of what follows it; and [parse] leaves the
    visibility absent when the token begins with 'R', and otherwise stores
    [parseVisibility] of the token. *)
Theorem parseVisibility_examples :
  ((parseVisibility "3/4" == 0.75)%Q
   /\ (parseVisibility "1 1/2" == 1.5)%Q
   /\ (parseVisibility "10" == 10)%Q
   /\ (parseVisibility "10+" == 10)%Q)
  /\ (visibility_token fraction_report = Some " 3/4"
      /\ hasVisib (parse fraction_report) = true
      /\ (visib (parse fraction_report) == 0.75)%Q
      /\ visibility_token mixed_report = Some " 1 1/2"
      /\ hasVisib (parse mixed_report) = true
      /\ (visib (parse mixed_report) == 1.5)%Q
      /\ visibility_token whole_report = Some " 10"
      /\ hasVisib (parse whole_report) = true
      /\ (visib (parse whole_report) == 10)%Q)
  /\ (forall visStr : string,
        endsWith (trim visStr) "+" = true ->
        parseVisibility visStr =
          toFloat (substring (trim visStr) 0
                     (Z.of_nat (String.length (trim visStr)) - 1)))
  /\ (forall visStr : string,
        endsWith (trim visStr) "+" = false ->
        (0 < indexOf (trim visStr) " ")%Z ->
        parseVisibility visStr =
          (toFloat (substring (trim visStr) 0 (indexOf (trim visStr) " "))
           + parseVisibility
               (substring_from (trim visStr)
                  (indexOf (trim visStr) " " + 1)))%Q)
  /\ (forall line visStr : string,
        (10 <= String.length line)%nat ->
        visibility_token line = Some visStr ->
        if Ascii.eqb (char_at visStr 0) "R"
        then hasVisib (parse line) = false /\ visib (parse line) = 0%Q
        else hasVisib (parse line) = true
             /\ visib (parse line) = parseVisibility visStr).
Proof.
  split; [repeat split; vm_compute; reflexivity|].
  split; [repeat split; vm_compute; reflexivity|].
  split; [|split].
  - intros visStr Hplus. unfold parseVisibility.
    cbn [parseVisibility_fuel]. rewrite Hplus. reflexivity.
  - intros visStr Hplus Hblank. unfold parseVisibility at 1.
    cbn [parseVisibility_fuel]. rewrite Hplus.
    destruct (Z.ltb_spec (indexOf (trim visStr) " ") 0) as [?|_]; [lia|].
    rewrite andb_false_r.
    destruct (Z.ltb_spec 0 (indexOf (trim visStr) " ")) as [_|?]; [|lia].
    f_equal. unfold parseVisibility.
    pose proof (indexOf_range (trim visStr) " ").
    pose proof (substring_from_shorter (trim visStr)
                  (indexOf (trim visStr) " ") ltac:(lia)).
    pose proof (trim_length visStr).
    apply parseVisibility_fuel_enough; lia.
  - intros line visStr Hlen Htok.
    pose proof (parse_visibility_view line Hlen) as Hview.
    rewrite Htok in Hview. rewrite hasVisib_bit.
    unfold visibility_view in Hview.
    destruct (Ascii.eqb (char_at visStr 0) "R");
      injection Hview as Hv Hb; auto.
Qed.

Lemma parseVisibility_examples_witness :
  ((10 <= String.length runway_report)%nat
   /\ visibility_token runway_report = Some "R")
  /\ hasVisib (parse runway_report) = false
  /\ visib (parse runway_report) = 0%Q.
Proof.
  assert (Hlen : (10 <= String.length runway_report)%nat)
    by (vm_compute; lia).
  split; [split; [exact Hlen | vm_compute; reflexivity]|].
  destruct parseVisibility_examples as (_ & _ & _ & _ & H).
  exact (H runway_report "R" Hlen eq_refl).
Defined.

End Visibility.

(** ** Altimeter *)

Section Altimeter.
Import CLib MetarParser.

Lemma find_seq_skip (f : nat -> bool) (k : nat) :
  forall from n : nat,
    (k <= n)%nat ->
    (forall q, (from <= q < from + k)%nat -> f q = false) ->
    List.find f (seq from n) = List.find f (seq (from + k) (n - k)).
Proof.
  induction k as [|k IH]; intros from n Hk Hf.
  - rewrite Nat.add_0_r, Nat.sub_0_r. reflexivity.
  - destruct n as [|n]; [lia|]. cbn [seq List.find].
    rewrite (Hf from) by lia.
    rewrite (IH (S from) n) by (try lia; intros q Hq; apply Hf; lia).
    replace (S from + k)%nat with (from + S k)%nat by lia. reflexivity.
Qed.

Lemma find_seq_none (f : nat -> bool) (n : nat) :
  forall from : nat,
    (forall q, (from <= q)%nat -> f q = false) ->
    List.find f (seq from n) = None.
Proof.
  induction n as [|n IH]; intros from Hf; [reflexivity|].
  cbn [seq List.find]. rewrite (Hf from) by lia.
  apply IH. intros q Hq. apply Hf. lia.
Qed.

Lemma drop_drop (n k : nat) (s : string) : drop (n + k) s = drop k (drop n s).
Proof.
  revert s. induction n as [|n IH]; intros s; [reflexivity|].
  destruct s as [|c s]; cbn [Nat.add drop].
  - destruct k; reflexivity.
  - apply IH.
Qed.

Lemma no_group_right_after (line : string) (p : nat) :
  starts_with line p " A" = true -> starts_with line (p + 1) " A" = false.
Proof.
  unfold starts_with. rewrite drop_drop.
  destruct (drop p line) as [|c0 [|c1 t]]; cbn [String.prefix drop];
    try discriminate.
  - destruct (ascii_dec " " c0); discriminate.
  - destruct (ascii_dec " " c0) as [<-|]; [|discriminate].
    destruct (ascii_dec "A" c1) as [<-|]; [|discriminate].
    intros _. destruct t; reflexivity.
Qed.

Lemma four_digits_in_range (line : string) (q : nat) :
  four_digits_after line q = true ->
  (5 <=? String.length (drop q line))%nat = true.
Proof.
  unfold four_digits_after. intros H.
  apply andb_true_iff in H as [_ H].
  apply isdigit_in_range in H. rewrite drop_length.
  apply Nat.leb_le. lia.
Qed.

(** The loop stops at the first altimeter group at or after [from]. *)
Lemma altimeter_loop_find (line : string) (fuel : nat) :
  forall (from : nat) (m : METAR),
    (String.length line - from < fuel)%nat ->
    altimeter_loop fuel line (strstr_from line " A" from) m =
      match List.find (altimeter_at line)
              (seq from (String.length line - from)) with
      | Some p => setAltim m (atof (copy_n line (p + 2) 4) / 100)%Q
      | None => m
      end.
Proof.
  induction fuel as [|fuel IH]; intros from m Hfuel; [lia|].
  cbn [altimeter_loop].
  destruct (strstr_from line " A" from) as [p|] eqn:E.
  - apply strstr_from_Some in E as (Hge & Hlen & Hat & Hbefore).
    change (String.length " A") with 2%nat in Hlen.
    rewrite (find_seq_skip (altimeter_at line) (p - from) from)
      by (try lia; intros q Hq; unfold altimeter_at;
          rewrite Hbefore by lia; reflexivity).
    replace (from + (p - from))%nat with p by lia.
    replace (String.length line - from - (p - from))%nat
      with (S (S (String.length line - (p + 2))))%nat by lia.
    cbn [seq List.find]. unfold altimeter_at at 1. rewrite Hat. cbn [andb].
    destruct (four_digits_after line (p + 1)) eqn:Hdigits.
    + rewrite (four_digits_in_range line (p + 1) Hdigits). cbn [andb].
      replace (p + 1 + 1)%nat with (p + 2)%nat by lia. reflexivity.
    + rewrite andb_false_r.
      replace (p + 1 + 1)%nat with (p + 2)%nat by lia.
      rewrite IH by lia.
      unfold altimeter_at at 2.
      replace (S p) with (p + 1)%nat by lia.
      rewrite (no_group_right_after line p Hat). cbn [andb].
      replace (S (p + 1)) with (p + 2)%nat by lia. reflexivity.
  - rewrite find_seq_none; [reflexivity|].
    intros q Hq. unfold altimeter_at.
    rewrite (strstr_from_None line " A" from E) by (try discriminate; lia).
    reflexivity.
Qed.

Lemma before_altimeter_view (line : string) :
  altimeter_view (before_altimeter line) = (0%Q, false).
Proof.
  unfold before_altimeter.
  destruct (parse_temperature_frame line
              (parse_visibility line
                 (parseCloudConditions (before_clouds line) line)))
    as (_ & -> & _).
  destruct (parse_visibility_frame line
              (parseCloudConditions (before_clouds line) line)) as (-> & _).
  destruct (parseCloudConditions_frame line (before_clouds line))
    as (_ & -> & _).
  unfold before_clouds.
  destruct (parse_wind_frame line
              (parse_icao line
                 (parse_thunderstorm line
                    (parse_obsTime line (setRawText METAR_new line)))))
    as (_ & -> & _).
  destruct (parse_icao_frame line
              (parse_thunderstorm line
                 (parse_obsTime line (setRawText METAR_new line))))
    as (_ & -> & _).
  destruct (parse_thunderstorm_frame line
              (parse_obsTime line (setRawText METAR_new line)))
    as (_ & -> & _).
  destruct (parse_obsTime_frame line (setRawText METAR_new line))
    as (_ & -> & _).
  reflexivity.
Qed.

Lemma parse_altimeter_view (line : string) :
  (10 <= String.length line)%nat ->
  altimeter_view (parse line) =
    match first_offset (altimeter_at line) line with
    | Some p => (altimeter_value line p, true)
    | None => (0%Q, false)
    end.
Proof.
  intros Hlen. rewrite (parse_chain line Hlen).
  destruct (parse_fltcat_frame line
              (parse_altimeter line (before_altimeter line)))
    as (_ & -> & _).
  unfold parse_altimeter, strstr, first_offset.
  rewrite altimeter_loop_find by lia. rewrite Nat.sub_0_r.
  destruct (List.find _ _) as [p|] eqn:E; [|apply before_altimeter_view].
  apply List.find_some in E as [_ E]. unfold altimeter_at in E.
  apply andb_true_iff in E as [_ E]. unfold four_digits_after in E.
  apply andb_true_iff in E as [E E4].
  apply andb_true_iff in E as [E E3].
  apply andb_true_iff in E as [E1 E2].
  unfold altimeter_value. rewrite <- (atof_four_digits line (p + 2)).
  - unfold altimeter_view, bit, setAltim. cbn [altim flags].
    rewrite Z.lor_spec. change (Z.testbit HAS_ALTIM 5) with true.
    rewrite orb_true_r. reflexivity.
  - replace (p + 2)%nat with (p + 1 + 1)%nat by lia. exact E1.
  - replace (p + 2 + 1)%nat with (p + 1 + 2)%nat by lia. exact E2.
  - replace (p + 2 + 2)%nat with (p + 1 + 3)%nat by lia. exact E3.
  - replace (p + 2 + 3)%nat with (p + 1 + 4)%nat by lia. exact E4.
Qed.

(** C8, as stated, fails: an " A" followed by five digits is not followed
    by exactly four, so the first group of exactly four digits is the
    second one (29.92); [parse] takes the first four of the five digits
    (30.12). *)
Lemma altimeter_not_exactly_four_digits :
  first_offset (exact_altimeter_at five_digit_report) five_digit_report
    = Some 42%nat
  /\ (altimeter_value five_digit_report 42 == 29.92)%Q
  /\ hasAltim (parse five_digit_report) = true
  /\ (altim (parse five_digit_report) == 30.12)%Q
  /\ ~ (forall line : string,
          (10 <= String.length line)%nat ->
          altimeter_of (parse line) =
            altimeter_value line
              <$> first_offset (exact_altimeter_at line) line).
Proof.
  split; [vm_compute; reflexivity|].
  split; [vm_compute; reflexivity|].
  split; [vm_compute; reflexivity|].
  split; [vm_compute; reflexivity|].
  intros H. specialize (H five_digit_report ltac:(vm_compute; lia)).
  vm_compute in H. discriminate H.
Qed.

(** C8, amended.  For a line of at least ten characters the altimeter is
    taken at the first " A" that is followed by at least four digits: it
    is the number made of the first four of them, divided by 100; with no
    such occurrence the altimeter is absent (and its value is zero). *)
Theorem parse_altimeter_first_group (line : string) :
  (10 <= String.length line)%nat ->
  altimeter_of (parse line) =
    altimeter_value line <$> first_offset (altimeter_at line) line
  /\ (first_offset (altimeter_at line) line = None ->
      hasAltim (parse line) = false /\ altim (parse line) = 0%Q)
  /\ (forall p, first_offset (altimeter_at line) line = Some p ->
        altimeter_at line p = true
        /\ forall q, (q < p)%nat -> altimeter_at line q = false).
Proof.
  intros Hlen. pose proof (parse_altimeter_view line Hlen) as Hview.
  pose proof (f_equal fst Hview) as Ha.
  pose proof (f_equal snd Hview) as Hb.
  unfold altimeter_view in Ha, Hb. cbn [fst snd] in Ha, Hb. clear Hview.
  unfold altimeter_of. rewrite hasAltim_bit, Ha, Hb.
  split; [|split].
  - destruct (first_offset _ _); reflexivity.
  - intros Hnone. rewrite Hnone. auto.
  - intros p Hp. unfold first_offset in Hp.
    split; [apply (List.find_some _ _ Hp)|].
    intros q Hq. destruct (altimeter_at line q) eqn:Eq; [|reflexivity].
    exfalso. revert Hp Eq Hq. generalize (String.length line). intros n.
    assert (Hgen : forall from,
              List.find (altimeter_at line) (seq from n) = Some p ->
              (from <= q)%nat -> (q < p)%nat ->
              altimeter_at line q = true -> False).
    { induction n as [|n IH]; intros from; cbn [seq List.find];
        [discriminate|].
      destruct (altimeter_at line from) eqn:Ef.
      - intros [= <-]. lia.
      - intros Hfind Hfq Hqp Hq'.
        destruct (Nat.eq_dec from q) as [->|Hne]; [congruence|].
        apply (IH (S from) Hfind); [lia | exact Hqp | exact Hq']. }
    intros Hp Eq Hq. exact (Hgen 0%nat Hp ltac:(lia) Hq Eq).
Qed.

Lemma parse_altimeter_first_group_witness :
  (10 <= String.length whole_report)%nat
  /\ altimeter_of (parse whole_report)
     = Some (altimeter_value whole_report 48)
  /\ (altimeter_value whole_report 48 == 30.12)%Q.
Proof.
  assert (Hlen : (10 <= String.length whole_report)%nat)
    by (vm_compute; lia).
  split; [exact Hlen|].
  split; [|vm_compute; reflexivity].
  destruct (parse_altimeter_first_group whole_report Hlen) as (H & _).
  rewrite H. vm_compute. reflexivity.
Defined.

End Altimeter.

(** ** Thunderstorm flag *)

Section ThunderstormFlag.
Import CLib MetarParser.

(** The flag of a parsed line has these two sources and no other. *)
Lemma parse_storm_view (line : string) :
  (10 <= String.length line)%nat ->
  hasThunderstorm (parse line)
  = storm_in_weather line || existsb is_cb (cloudLayers (parse line)).
Proof.
  intros Hlen. rewrite hasThunderstorm_bit.
  change (bit 7 (parse line)) with (storm_view (parse line)).
  assert (Hlayers : cloudLayers (parse line)
                    = cloudLayers (parseCloudConditions (before_clouds line)
                                     line)).
  { rewrite (parse_chain line Hlen). unfold before_altimeter.
    generalize (parseCloudConditions (before_clouds line) line). intros m.
    assert (Hloop : forall fuel ptr m',
              cloudLayers (altimeter_loop fuel line ptr m') = cloudLayers m').
    { induction fuel as [|fuel IH]; intros ptr m'; [reflexivity|].
      cbn [altimeter_loop]. destruct ptr; [|reflexivity].
      destruct (_ && _); [reflexivity | apply IH]. }
    unfold parse_fltcat, parse_altimeter. cbn [cloudLayers setFltcat].
    rewrite Hloop. unfold parse_temperature, parse_visibility.
    repeat case_match; reflexivity. }
  rewrite Hlayers, (parse_chain line Hlen).
  destruct (parse_fltcat_frame line
              (parse_altimeter line (before_altimeter line)))
    as (_ & _ & -> & _).
  destruct (parse_altimeter_frame line (before_altimeter line))
    as (_ & -> & _).
  unfold before_altimeter.
  destruct (parse_temperature_frame line
              (parse_visibility line
                 (parseCloudConditions (before_clouds line) line)))
    as (_ & _ & -> & _).
  destruct (parse_visibility_frame line
              (parseCloudConditions (before_clouds line) line))
    as (_ & -> & _).
  rewrite parseCloudConditions_storm. f_equal.
  unfold before_clouds.
  destruct (parse_wind_frame line
              (parse_icao line
                 (parse_thunderstorm line
                    (parse_obsTime line (setRawText METAR_new line)))))
    as (_ & _ & -> & _).
  destruct (parse_icao_frame line
              (parse_thunderstorm line
                 (parse_obsTime line (setRawText METAR_new line))))
    as (_ & _ & -> & _).
  assert (Hzero :
            storm_view (parse_obsTime line (setRawText METAR_new line))
            = false).
  { destruct (parse_obsTime_frame line (setRawText METAR_new line))
      as (_ & _ & ->). reflexivity. }
  revert Hzero.
  generalize (parse_obsTime line (setRawText METAR_new line)). intros m Hm.
  unfold parse_thunderstorm, storm_in_weather.
  destruct (strstr line "KT") as [kt|]; [|exact Hm].
  destruct (strstr_from line "TS" kt) as [ts|]; [|exact Hm].
  destruct (starts_with line ts "TSNO"); cbn [negb]; [exact Hm|].
  unfold storm_view, bit, setThunderstorm, set_flags. cbn [flags].
  rewrite Z.lor_spec. change (Z.testbit HAS_THUNDERSTORM 7) with true.
  apply orb_true_r.
Qed.

(** C5 at a report of station KTSP.  The first "KT" of the line is in the
    identifier, and the "TS" found after it is in the identifier too: the
    flag is set although no "TS" follows the wind group (whose "KT" is at
    offset 18) and no layer is a cumulonimbus layer. *)
Theorem parse_thunderstorm_from_identifier :
  icaoId (parse identifier_report) = "KTSP"
  /\ strstr identifier_report "KT" = Some 0%nat
  /\ strstr_from identifier_report "TS" 0 = Some 1%nat
  /\ strstr_from identifier_report "KT" 4 = Some 18%nat
  /\ strstr_from identifier_report "TS" 18 = None
  /\ existsb is_cb (cloudLayers (parse identifier_report)) = false
  /\ hasThunderstorm (parse identifier_report) = true.
Proof. repeat split; vm_compute; reflexivity. Qed.

(** The examples of the specification evaluate as it says. *)
Lemma parse_thunderstorm_examples :
  hasThunderstorm
    (parse "KSFO 081856Z 28015KT 10SM TSRA BKN020 15/12 A3012") = true
  /\ hasThunderstorm
       (parse "KSFO 081856Z 28015KT 10SM BKN020CB 15/12 A3012") = true
  /\ hasThunderstorm
       (parse "KSFO 081856Z 28015KT 10SM BKN020TCU 15/12 A3012") = false
  /\ hasThunderstorm
       (parse "KSFO 081856Z 28015KT 10SM BKN020 15/12 A3012 RMK TSNO")
     = false.
Proof. repeat split; vm_compute; reflexivity. Qed.

End ThunderstormFlag.

(** ** Observation time *)

Section ObservationTime.
Import CLib MetarParser.

(** [parse] stores what [parseObsTime] returns and nothing else of the
    observation depends on it. *)
Lemma parse_obsTime_view (line : string) :
  (10 <= String.length line)%nat ->
  obsTime (parse line) =
    match parseObsTime line with
    | Some t => safeCopy 8 t
    | None => ""
    end.
Proof.
  intros Hlen. change (obsTime (parse line)) with (obsTime_view (parse line)).
  rewrite (parse_chain line Hlen).
  destruct (parse_fltcat_frame line
              (parse_altimeter line (before_altimeter line)))
    as (_ & _ & _ & ->).
  destruct (parse_altimeter_frame line (before_altimeter line))
    as (_ & _ & ->).
  unfold before_altimeter.
  destruct (parse_temperature_frame line
              (parse_visibility line
                 (parseCloudConditions (before_clouds line) line)))
    as (_ & _ & _ & ->).
  destruct (parse_visibility_frame line
              (parseCloudConditions (before_clouds line) line))
    as (_ & _ & ->).
  destruct (parseCloudConditions_frame line (before_clouds line))
    as (_ & _ & ->).
  unfold before_clouds.
  destruct (parse_wind_frame line
              (parse_icao line
                 (parse_thunderstorm line
                    (parse_obsTime line (setRawText METAR_new line)))))
    as (_ & _ & _ & ->).
  destruct (parse_icao_frame line
              (parse_thunderstorm line
                 (parse_obsTime line (setRawText METAR_new line))))
    as (_ & _ & _ & ->).
  destruct (parse_thunderstorm_frame line
              (parse_obsTime line (setRawText METAR_new line)))
    as (_ & _ & ->).
  unfold parse_obsTime. destruct (parseObsTime line); reflexivity.
Qed.

(** What [parseObsTime] returns is always a well-formed time: six digits
    and a 'Z' (or 'z') copied from the line, with the day in 1..31, the
    hour in 0..23 and the minute in 0..59. *)
Lemma parseObsTime_sound (line t : string) :
  parseObsTime line = Some t ->
  exists p,
    t = copy_n line p 7
    /\ (forall i, (i < 6)%nat -> isdigit (char_at line (p + i)) = true)
    /\ (char_at line (p + 6) = "Z"%char \/ char_at line (p + 6) = "z"%char)
    /\ (1 <= two_digits line p <= 31)%Z
    /\ (0 <= two_digits line (p + 2) <= 23)%Z
    /\ (0 <= two_digits line (p + 4) <= 59)%Z.
Proof.
  unfold parseObsTime. cbv zeta.
  match goal with
  | |- context [skip_spaces line (?x + 4)] =>
      set (p := skip_spaces line (x + 4)); generalize p; clear p; intros p
  end.
  destruct (_ <? 4)%nat; [discriminate|].
  destruct (_ <? 7)%nat; [discriminate|].
  match goal with
  | |- (if ?b then None else _) = Some _ -> _ =>
      destruct b eqn:Edig; [discriminate|]
  end.
  match goal with
  | |- (if ?b then None else _) = Some _ -> _ =>
      destruct b eqn:Erng; [discriminate|]
  end.
  intros [= Ht]. subst t. exists p. split; [reflexivity|].
  repeat (apply orb_false_iff in Edig as [Edig ?]).
  repeat match goal with
         | H : negb _ = false |- _ => apply negb_false_iff in H
         end.
  repeat (apply orb_false_iff in Erng as [Erng ?]).
  assert (Hdig : forall i, (i < 6)%nat ->
                           isdigit (char_at line (p + i)) = true).
  { intros i Hi.
    do 6 (destruct i as [|i]; [assumption|]). lia. }
  split; [exact Hdig|]. split.
  { match goal with
    | H : _ && _ = false |- _ => apply andb_false_iff in H as [H|H];
        apply negb_false_iff, Ascii.eqb_eq in H; auto
    end. }
  pose proof (digit_val_range _ (Hdig 0%nat ltac:(lia))) as D0.
  pose proof (digit_val_range _ (Hdig 1%nat ltac:(lia))) as D1.
  pose proof (digit_val_range _ (Hdig 2%nat ltac:(lia))) as D2.
  pose proof (digit_val_range _ (Hdig 3%nat ltac:(lia))) as D3.
  pose proof (digit_val_range _ (Hdig 4%nat ltac:(lia))) as D4.
  pose proof (digit_val_range _ (Hdig 5%nat ltac:(lia))) as D5.
  unfold two_digits in *.
  replace (p + 2 + 1)%nat with (p + 3)%nat in * by lia.
  replace (p + 4 + 1)%nat with (p + 5)%nat in * by lia.
  rewrite Nat.add_0_r in D0.
  repeat match goal with
         | H : (_ <? _)%Z = false |- _ => apply Z.ltb_ge in H
         end.
  lia.
Qed.

(** C9 at a report with the SPECI prefix.  [parse] skips the prefix when
    it reads the identifier, [parseObsTime] skips only "METAR": the
    well-formed time of the SPECI report is not stored, while the same
    report with the METAR prefix or with none gets it. *)
Theorem parseObsTime_speci_prefix :
  icaoId (parse speci_report) = "KSFO"
  /\ parseObsTime speci_report = None
  /\ hasObsTime (parse speci_report) = false
  /\ icaoId (parse metar_report) = "KSFO"
  /\ parseObsTime metar_report = Some "081856Z"
  /\ obsTime (parse metar_report) = "081856Z"
  /\ parseObsTime plain_report = Some "081856Z"
  /\ obsTime (parse plain_report) = "081856Z".
Proof. repeat split; vm_compute; reflexivity. Qed.

End ObservationTime.

(** ** The loops never run out of fuel *)

Section Fuel.
Import CLib MetarParser WeatherAPIClient.

Lemma indexOf_from_range (s : string) (c : ascii) (from : Z) :
  indexOf_from s c from = (-1)%Z
  \/ (Z.of_nat (Z.to_nat from) <= indexOf_from s c from
      < Z.of_nat (String.length s))%Z.
Proof.
  unfold indexOf_from.
  destruct (String.index (Z.to_nat from) (String c "") s) as [i|] eqn:E;
    [right | left; reflexivity].
  apply (strstr_from_Some s (String c "") (Z.to_nat from) i)
    in E as (Hge & Hlen & _).
  change (String.length (String c "")) with 1%nat in Hlen. lia.
Qed.

Lemma cut_lines_fuel_enough (rawData : string) (f1 : nat) :
  forall (f2 : nat) (startPos : Z),
    (String.length rawData - Z.to_nat startPos < f1)%nat ->
    (String.length rawData - Z.to_nat startPos < f2)%nat ->
    cut_lines f1 rawData startPos = cut_lines f2 rawData startPos.
Proof.
  induction f1 as [|f1 IH]; intros f2 startPos H1 H2; [lia|].
  destruct f2 as [|f2]; [lia|]. cbn [cut_lines].
  destruct (Z.eqb_spec (indexOf_from rawData newline startPos) (-1))
    as [_|Hfound]; [reflexivity|].
  f_equal.
  destruct (indexOf_from_range rawData newline startPos) as [?|Hrange];
    [contradiction|].
  apply IH; lia.
Qed.

(** More fuel than [parseWeatherData] passes changes nothing. *)
Lemma parse_loop_fuel_enough (rawData : string) (fuel : nat)
    (st : list AirportLED * Z) :
  (String.length rawData < fuel)%nat ->
  parse_loop fuel rawData 0 st
  = parse_loop (S (String.length rawData)) rawData 0 st.
Proof.
  intros Hfuel. rewrite !parse_loop_cut_lines.
  rewrite (cut_lines_fuel_enough rawData fuel (S (String.length rawData)) 0)
    by (cbn; lia).
  reflexivity.
Qed.

Lemma match_code_length (rawText : string) (pos : nat) (code : string) :
  match_code rawText pos = Some code -> (2 <= String.length code)%nat.
Proof.
  unfold match_code, cloudCodes. cbn [List.find].
  repeat case_match; intros [= <-]; cbn; lia.
Qed.

Lemma cloud_loop_fuel_enough (rawText : string) (f1 : nat) :
  forall (f2 pos : nat) (tempLayers : list CloudLayer) (metar : METAR),
    (String.length rawText - pos < f1)%nat ->
    (String.length rawText - pos < f2)%nat ->
    cloud_loop f1 rawText pos tempLayers metar
    = cloud_loop f2 rawText pos tempLayers metar.
Proof.
  induction f1 as [|f1 IH]; intros f2 pos tempLayers metar H1 H2; [lia|].
  destruct f2 as [|f2]; [lia|]. cbn [cloud_loop].
  destruct (Nat.leb_spec (String.length rawText) pos) as [|Hpos];
    [reflexivity|].
  cbn [orb]. destruct (_ <=? _)%nat; [reflexivity|].
  assert (Hskip : (pos <= skip_spaces rawText pos)%nat)
    by (unfold skip_spaces; lia).
  destruct (Nat.leb_spec (String.length rawText) (skip_spaces rawText pos))
    as [|Hpos']; [reflexivity|].
  destruct (match_code rawText (skip_spaces rawText pos)) as [code|] eqn:E;
    [|apply IH; lia].
  apply match_code_length in E.
  repeat case_match; apply IH; lia.
Qed.

End Fuel.

(** ** The fields and presence bits each block of [parse] writes *)

Section ParseFields.
Import CLib MetarParser.

Lemma testbit_lor_other (f b k : Z) :
  (0 <= b)%Z -> k <> b ->
  Z.testbit (Z.lor f (2 ^ b)) k = Z.testbit f k.
Proof.
  intros Hb Hk. rewrite Z.lor_spec, Z.pow2_bits_eqb by exact Hb.
  destruct (Z.eqb_spec b k); [congruence | apply orb_false_r].
Qed.

Lemma testbit_lor_same (f b : Z) :
  (0 <= b)%Z -> Z.testbit (Z.lor f (2 ^ b)) b = true.
Proof.
  intros Hb. rewrite Z.lor_spec, Z.pow2_bits_true by exact Hb.
  apply orb_true_r.
Qed.

Ltac expose_masks :=
  change HAS_TEMP with (2 ^ 0)%Z; change HAS_DEWP with (2 ^ 1)%Z;
  change HAS_WSPD with (2 ^ 2)%Z; change HAS_WDIR with (2 ^ 3)%Z;
  change HAS_VISIB with (2 ^ 4)%Z; change HAS_ALTIM with (2 ^ 5)%Z;
  change HAS_FLTCAT with (2 ^ 6)%Z; change HAS_THUNDERSTORM with (2 ^ 7)%Z.

Ltac unfold_all_setters :=
  unfold setObsTime, setThunderstorm, set_flags, setIcaoId, setWdir, setWspd,
    setVisib, setTemp, setDewp, setAltim, setFltcat, setCloudLayers,
    setRawText.

(** Close the goals about a block once it is unfolded: untouched fields
    by computation, untouched bits through [Z.lor]. *)
Ltac fields :=
  unfold_all_setters; repeat case_match;
  cbn [rawText cloudLayers temp dewp wspd visib altim wdir flags icaoId
       receiptTime obsTime fltcat];
  repeat split; try reflexivity;
  intros; unfold bit; cbn [flags]; expose_masks;
  rewrite ?testbit_lor_other by (lia || congruence); reflexivity.

Lemma parse_obsTime_fields (line : string) (m : METAR) :
  let m' := parse_obsTime line m in
  rawText m' = rawText m /\ cloudLayers m' = cloudLayers m
  /\ temp m' = temp m /\ dewp m' = dewp m /\ wspd m' = wspd m
  /\ wdir m' = wdir m /\ icaoId m' = icaoId m /\ fltcat m' = fltcat m
  /\ receiptTime m' = receiptTime m /\ flags m' = flags m.
Proof. unfold parse_obsTime. fields. Qed.

Lemma parse_thunderstorm_fields (line : string) (m : METAR) :
  let m' := parse_thunderstorm line m in
  rawText m' = rawText m /\ cloudLayers m' = cloudLayers m
  /\ temp m' = temp m /\ dewp m' = dewp m /\ wspd m' = wspd m
  /\ wdir m' = wdir m /\ icaoId m' = icaoId m /\ fltcat m' = fltcat m
  /\ receiptTime m' = receiptTime m
  /\ forall k, k <> 7%Z -> bit k m' = bit k m.
Proof. unfold parse_thunderstorm. fields. Qed.

Lemma parse_icao_fields (line : string) (m : METAR) :
  let m' := parse_icao line m in
  rawText m' = rawText m /\ cloudLayers m' = cloudLayers m
  /\ temp m' = temp m /\ dewp m' = dewp m /\ wspd m' = wspd m
  /\ wdir m' = wdir m /\ fltcat m' = fltcat m
  /\ receiptTime m' = receiptTime m /\ flags m' = flags m.
Proof. unfold parse_icao. fields. Qed.

Lemma parse_wind_fields (line : string) (m : METAR) :
  let m' := parse_wind line m in
  rawText m' = rawText m /\ cloudLayers m' = cloudLayers m
  /\ temp m' = temp m /\ dewp m' = dewp m /\ icaoId m' = icaoId m
  /\ fltcat m' = fltcat m /\ receiptTime m' = receiptTime m
  /\ forall k, k <> 2%Z -> k <> 3%Z -> bit k m' = bit k m.
Proof. unfold parse_wind. fields. Qed.

Lemma parse_visibility_fields (line : string) (m : METAR) :
  let m' := parse_visibility line m in
  rawText m' = rawText m /\ cloudLayers m' = cloudLayers m
  /\ temp m' = temp m /\ dewp m' = dewp m /\ wspd m' = wspd m
  /\ wdir m' = wdir m /\ icaoId m' = icaoId m /\ fltcat m' = fltcat m
  /\ receiptTime m' = receiptTime m
  /\ forall k, k <> 4%Z -> bit k m' = bit k m.
Proof. unfold parse_visibility. fields. Qed.

Lemma parse_temperature_fields (line : string) (m : METAR) :
  let m' := parse_temperature line m in
  rawText m' = rawText m /\ cloudLayers m' = cloudLayers m
  /\ wspd m' = wspd m /\ wdir m' = wdir m /\ icaoId m' = icaoId m
  /\ fltcat m' = fltcat m /\ receiptTime m' = receiptTime m
  /\ visib m' = visib m
  /\ forall k, k <> 0%Z -> k <> 1%Z -> bit k m' = bit k m.
Proof. unfold parse_temperature. fields. Qed.

Lemma parse_fltcat_fields (line : string) (m : METAR) :
  let m' := parse_fltcat line m in
  rawText m' = rawText m /\ cloudLayers m' = cloudLayers m
  /\ temp m' = temp m /\ dewp m' = dewp m /\ wspd m' = wspd m
  /\ wdir m' = wdir m /\ icaoId m' = icaoId m
  /\ receiptTime m' = receiptTime m /\ visib m' = visib m
  /\ forall k, k <> 6%Z -> bit k m' = bit k m.
Proof. unfold parse_fltcat. fields. Qed.

Lemma parseCloudConditions_fields (line : string) (m : METAR) :
  let m' := parseCloudConditions m line in
  rawText m' = rawText m
  /\ temp m' = temp m /\ dewp m' = dewp m /\ wspd m' = wspd m
  /\ wdir m' = wdir m /\ icaoId m' = icaoId m /\ fltcat m' = fltcat m
  /\ receiptTime m' = receiptTime m
  /\ forall k, k <> 7%Z -> bit k m' = bit k m.
Proof.
  cbv zeta. destruct (parseCloudConditions_spec m line) as [layers ->].
  fields.
Qed.

Lemma altimeter_loop_fields (line : string) (fuel : nat) :
  forall (altPtr : option nat) (m : METAR),
    let m' := altimeter_loop fuel line altPtr m in
    rawText m' = rawText m /\ cloudLayers m' = cloudLayers m
    /\ temp m' = temp m /\ dewp m' = dewp m /\ wspd m' = wspd m
    /\ wdir m' = wdir m /\ icaoId m' = icaoId m /\ fltcat m' = fltcat m
    /\ receiptTime m' = receiptTime m /\ visib m' = visib m
    /\ forall k, k <> 5%Z -> bit k m' = bit k m.
Proof.
  induction fuel as [|fuel IH]; intros altPtr m; [cbn; fields|].
  cbn [altimeter_loop]. destruct altPtr as [p|]; [|fields].
  destruct (_ && _); [fields | apply IH].
Qed.

Lemma parse_altimeter_fields (line : string) (m : METAR) :
  let m' := parse_altimeter line m in
  rawText m' = rawText m /\ cloudLayers m' = cloudLayers m
  /\ temp m' = temp m /\ dewp m' = dewp m /\ wspd m' = wspd m
  /\ wdir m' = wdir m /\ icaoId m' = icaoId m /\ fltcat m' = fltcat m
  /\ receiptTime m' = receiptTime m /\ visib m' = visib m
  /\ forall k, k <> 5%Z -> bit k m' = bit k m.
Proof. apply altimeter_loop_fields. Qed.

End ParseFields.

(** ** More facts about the string operations *)

Section MoreStringFacts.
Import CLib MetarParser.

Lemma substring_length_exact (s : string) :
  forall p n : nat,
    (p + n <= String.length s)%nat ->
    String.length (String.substring p n s) = n.
Proof.
  induction s as [|c s IH]; intros p n H; cbn in H.
  - assert (p = 0 /\ n = 0)%nat as [-> ->] by lia. reflexivity.
  - destruct p as [|p]; cbn.
    + destruct n as [|n]; cbn; [reflexivity|]. rewrite (IH 0%nat n); lia.
    + apply IH. lia.
Qed.

Lemma substring_whole (s : string) :
  forall n : nat, (String.length s <= n)%nat -> String.substring 0 n s = s.
Proof.
  induction s as [|c s IH]; intros n H.
  - destruct n; reflexivity.
  - destruct n as [|n]; cbn in *; [lia|]. rewrite IH by lia. reflexivity.
Qed.

Lemma atoi_three_digits (s : string) (q : nat) :
  three_digits_at s q = true ->
  atoi (copy_n s q 3) = three_digit_number s q
  /\ (0 <= three_digit_number s q <= 999)%Z.
Proof.
  unfold three_digits_at, three_digit_number, copy_n. intros H.
  apply andb_true_iff in H as [H H2]. apply andb_true_iff in H as [H0 H1].
  pose proof (digit_val_range _ H0). pose proof (digit_val_range _ H1).
  pose proof (digit_val_range _ H2).
  split; [|lia]. clear H H3 H4.
  revert H0 H1 H2. rewrite substring_drop.
  assert (E0 : char_at s q = char_at (drop q s) 0)
    by (rewrite <- char_at_drop; f_equal; lia).
  rewrite E0, !char_at_drop. clear E0.
  generalize (drop q s). clear s q. intros t. unfold char_at.
  destruct t as [|c0 [|c1 [|c2 t]]]; cbn [String.get]; try discriminate.
  intros H0 H1 H2. cbn [String.substring].
  unfold atoi. cbn [skip_ws]. rewrite (isdigit_not_space c0 H0).
  rewrite (strip_sign_digit c0 _ H0).
  cbn [scan_digits]. rewrite H0, H1, H2.
  assert (E : String.substring 0 0 t = "") by (destruct t; reflexivity).
  rewrite E. cbn [scan_digits fst]. lia.
Qed.

Lemma atof_two_digits (s : string) (q : nat) :
  isdigit (char_at s q) = true ->
  isdigit (char_at s (q + 1)) = true ->
  atof (copy_n s q 2) = inject_Z (two_digits s q)
  /\ (0 <= two_digits s q <= 99)%Z.
Proof.
  intros H0 H1.
  pose proof (digit_val_range _ H0). pose proof (digit_val_range _ H1).
  unfold two_digits. split; [|lia]. clear H H2.
  revert H0 H1. unfold copy_n. rewrite substring_drop.
  assert (E0 : char_at s q = char_at (drop q s) 0)
    by (rewrite <- char_at_drop; f_equal; lia).
  rewrite E0, !char_at_drop. clear E0.
  generalize (drop q s). clear s q. intros t. unfold char_at.
  destruct t as [|c0 [|c1 t]]; cbn [String.get]; try discriminate.
  intros H0 H1. cbn [String.substring].
  unfold atof. cbn [skip_ws]. rewrite (isdigit_not_space c0 H0).
  rewrite (strip_sign_digit c0 _ H0).
  cbn [scan_digits]. rewrite H0, H1.
  assert (E : String.substring 0 0 t = "") by (destruct t; reflexivity).
  rewrite E. cbn [scan_digits]. f_equal. lia.
Qed.

End MoreStringFacts.

(** ** Where each field of a parsed observation comes from *)

Section ParseSummary.
Import CLib MetarParser.

(** The observation after each block of [parse], and which block decides
    which field of the result. *)
Lemma parse_fields_summary (line : string) :
  (10 <= String.length line)%nat ->
  let m1 := parse_obsTime line (setRawText METAR_new line) in
  let m2 := parse_thunderstorm line m1 in
  let m3 := parse_icao line m2 in
  let m4 := parse_wind line m3 in
  let m5 := parseCloudConditions m4 line in
  let m6 := parse_visibility line m5 in
  let m7 := parse_temperature line m6 in
  let m8 := parse_altimeter line m7 in
  parse line = parse_fltcat line m8
  /\ rawText (parse line) = Some line
  /\ receiptTime (parse line) = ""
  /\ icaoId (parse line) = icaoId m3
  /\ cloudLayers (parse line) = cloudLayers m5
  /\ (wspd (parse line) = wspd m4 /\ wdir (parse line) = wdir m4
      /\ bit 2 (parse line) = bit 2 m4 /\ bit 3 (parse line) = bit 3 m4)
  /\ (wspd m3 = 0%Q /\ wdir m3 = 0%Z /\ bit 2 m3 = false /\ bit 3 m3 = false)
  /\ (temp (parse line) = temp m7 /\ dewp (parse line) = dewp m7
      /\ bit 0 (parse line) = bit 0 m7 /\ bit 1 (parse line) = bit 1 m7)
  /\ (temp m6 = 0%Q /\ dewp m6 = 0%Q /\ bit 0 m6 = false /\ bit 1 m6 = false)
  /\ visib (parse line) = visib m8.
Proof.
  intros Hlen m1 m2 m3 m4 m5 m6 m7 m8.
  assert (Hchain : parse line = parse_fltcat line m8)
    by (rewrite (parse_chain line Hlen); reflexivity).
  rewrite Hchain.
  pose proof (parse_obsTime_fields line (setRawText METAR_new line)) as F1.
  pose proof (parse_thunderstorm_fields line m1) as F2.
  pose proof (parse_icao_fields line m2) as F3.
  pose proof (parse_wind_fields line m3) as F4.
  pose proof (parseCloudConditions_fields line m4) as F5.
  pose proof (parse_visibility_fields line m5) as F6.
  pose proof (parse_temperature_fields line m6) as F7.
  pose proof (parse_altimeter_fields line m7) as F8.
  pose proof (parse_fltcat_fields line m8) as F9.
  cbv zeta in F1, F2, F3, F4, F5, F6, F7, F8, F9.
  fold m1 in F1. fold m2 in F2. fold m3 in F3. fold m4 in F4. fold m5 in F5.
  fold m6 in F6. fold m7 in F7. fold m8 in F8.
  destruct F1 as (R1 & L1 & T1 & D1 & S1 & W1 & I1 & C1 & X1 & G1).
  destruct F2 as (R2 & L2 & T2 & D2 & S2 & W2 & I2 & C2 & X2 & B2).
  destruct F3 as (R3 & L3 & T3 & D3 & S3 & W3 & C3 & X3 & G3).
  destruct F4 as (R4 & L4 & T4 & D4 & I4 & C4 & X4 & B4).
  destruct F5 as (R5 & T5 & D5 & S5 & W5 & I5 & C5 & X5 & B5).
  destruct F6 as (R6 & L6 & T6 & D6 & S6 & W6 & I6 & C6 & X6 & B6).
  destruct F7 as (R7 & L7 & S7 & W7 & I7 & C7 & X7 & V7 & B7).
  destruct F8 as (R8 & L8 & T8 & D8 & S8 & W8 & I8 & C8 & X8 & V8 & B8).
  destruct F9 as (R9 & L9 & T9 & D9 & S9 & W9 & I9 & X9 & V9 & B9).
  assert (Hbit3 : forall k, k <> 7%Z -> bit k m3 = false).
  { intros k Hk. unfold bit in *. rewrite G3, (B2 k Hk), G1. cbn.
    apply Z.bits_0. }
  split; [reflexivity|].
  split; [rewrite R9, R8, R7, R6, R5, R4, R3, R2, R1; reflexivity|].
  split; [rewrite X9, X8, X7, X6, X5, X4, X3, X2, X1; reflexivity|].
  split; [rewrite I9, I8, I7, I6, I5, I4; reflexivity|].
  split; [rewrite L9, L8, L7, L6; reflexivity|].
  split.
  { rewrite S9, S8, S7, S6, S5, W9, W8, W7, W6, W5.
    rewrite !B9, !B8, !B7, !B6, !B5 by lia. auto. }
  split.
  { rewrite S3, S2, S1, W3, W2, W1, !Hbit3 by lia. auto. }
  split.
  { rewrite T9, T8, D9, D8, !B9, !B8 by lia. auto. }
  split.
  { rewrite T6, T5, T4, T3, T2, T1, D6, D5, D4, D3, D2, D1.
    rewrite !B6, !B5, !B4, !Hbit3 by lia. auto. }
  exact V9.
Qed.

End ParseSummary.

(** ** Invariants of parsed observations *)

Section ParseInvariants.
Import CLib MetarParser.

Lemma parse_hasFltcat (line : string) :
  (10 <= String.length line)%nat -> hasFltcat (parse line) = true.
Proof.
  intros Hlen. rewrite (parse_chain line Hlen).
  unfold hasFltcat. change HAS_FLTCAT with (2 ^ 6)%Z.
  rewrite has_flag_bit by lia. unfold bit, parse_fltcat, setFltcat.
  cbn [flags]. change HAS_FLTCAT with (2 ^ 6)%Z.
  apply testbit_lor_same. lia.
Qed.

(** X1.  Every line of at least ten characters gets a flight category:
    the category bit is set, the stored text is the classification of the
    parsed visibility and of the ceiling of the line, it is one of the
    four category names (the five-byte buffer never cuts it), and the
    colour looked up for it is never the no-data colour. *)
Theorem parse_category_present (line : string) :
  (10 <= String.length line)%nat ->
  hasFltcat (parse line) = true
  /\ fltcat (parse line)
     = deriveFlightCategory (visib (parse line)) (calculateCeiling line)
  /\ (exists cat, fltcat (parse line) = CategorySpec.name cat)
  /\ LEDController.getFlightCategoryColor (fltcat (parse line))
     <> LEDColors.NO_DATA.
Proof.
  intros Hlen. split; [exact (parse_hasFltcat line Hlen)|].
  destruct (parse_fields_summary line Hlen)
    as (Hchain & _ & _ & _ & _ & _ & _ & _ & _ & Hvis).
  cbv zeta in Hchain, Hvis. rewrite Hvis. rewrite Hchain.
  unfold parse_fltcat, setFltcat. cbn [fltcat].
  match goal with
  | |- context [deriveFlightCategory ?v ?c] =>
      destruct (deriveFlightCategory_table v c) as (cat & -> & _)
  end.
  assert (Hcopy : safeCopy 5 (CategorySpec.name cat) = CategorySpec.name cat)
    by (destruct cat; reflexivity).
  rewrite Hcopy. split; [reflexivity|]. split; [exists cat; reflexivity|].
  destruct cat; vm_compute; discriminate.
Qed.

Lemma parse_category_present_witness :
  (10 <= String.length whole_report)%nat
  /\ fltcat (parse whole_report) = "VFR".
Proof.
  assert (Hlen : (10 <= String.length whole_report)%nat)
    by (vm_compute; lia).
  split; [exact Hlen|].
  destruct (parse_category_present whole_report Hlen) as (_ & -> & _).
  vm_compute. reflexivity.
Defined.

Lemma parse_icaoId_source (line : string) :
  (10 <= String.length line)%nat ->
  icaoId (parse line) =
    let icaoStart :=
      skip_spaces line
        (if starts_with line 0 "METAR " then 6%nat
         else if starts_with line 0 "SPECI " then 6%nat else 0%nat) in
    if (4 <=? String.length (drop icaoStart line))%nat
    then copy_n line icaoStart 4 else "".
Proof.
  intros Hlen.
  destruct (parse_fields_summary line Hlen) as (_ & _ & _ & -> & _).
  pose proof (parse_thunderstorm_fields line
                (parse_obsTime line (setRawText METAR_new line))) as F2.
  pose proof (parse_obsTime_fields line (setRawText METAR_new line)) as F1.
  cbv zeta in F1, F2.
  destruct F1 as (_ & _ & _ & _ & _ & _ & I1 & _).
  destruct F2 as (_ & _ & _ & _ & _ & _ & I2 & _).
  unfold parse_icao.
  destruct (Nat.leb_spec 10 (String.length line)) as [_|]; [|lia].
  cbv zeta.
  destruct (Nat.leb_spec 4 (String.length (drop (skip_spaces line
              (if starts_with line 0 "METAR " then 6%nat
               else if starts_with line 0 "SPECI " then 6%nat else 0%nat))
              line))) as [H4|H4].
  - unfold setIcaoId, safeCopy, copy_n, ICAO_BUFFER_SIZE, ICAO_CODE_LENGTH.
    cbn [icaoId Nat.sub].
    apply substring_whole. rewrite drop_length in H4.
    rewrite substring_length_exact by lia. lia.
  - rewrite I2, I1. reflexivity.
Qed.

(** X2.  A line shorter than ten characters gives the empty observation.
    For any line the identifier of the observation is either empty or
    exactly four characters long, the raw text of an accepted line is kept
    as it is, and the observation is valid exactly when the line was
    accepted and four characters followed the optional prefix. *)
Theorem parse_identifier_shape (line : string) :
  ((String.length line < 10)%nat -> parse line = METAR_new)
  /\ ((10 <= String.length line)%nat -> rawText (parse line) = Some line)
  /\ (String.length (icaoId (parse line)) = 0%nat
      \/ String.length (icaoId (parse line)) = 4%nat)
  /\ (isValid (parse line) = true <->
      (10 <= String.length line)%nat
      /\ String.length (icaoId (parse line)) = 4%nat).
Proof.
  assert (Hshort : (String.length line < 10)%nat -> parse line = METAR_new).
  { intros H. unfold parse.
    destruct (Nat.ltb_spec (String.length line) 10); [reflexivity | lia]. }
  assert (Hid : (10 <= String.length line)%nat ->
                String.length (icaoId (parse line)) = 0%nat
                \/ String.length (icaoId (parse line)) = 4%nat).
  { intros Hlen. rewrite (parse_icaoId_source line Hlen). cbv zeta.
    destruct (Nat.leb_spec 4 (String.length (drop (skip_spaces line
                (if starts_with line 0 "METAR " then 6%nat
                 else if starts_with line 0 "SPECI " then 6%nat else 0%nat))
                line))) as [H4|H4]; [right | left; reflexivity].
    unfold copy_n. rewrite drop_length in H4.
    apply substring_length_exact. lia. }
  split; [exact Hshort|]. split.
  { intros Hlen. apply (parse_fields_summary line Hlen). }
  split.
  { destruct (Nat.lt_ge_cases (String.length line) 10) as [H|H].
    - rewrite (Hshort H). left. reflexivity.
    - exact (Hid H). }
  unfold isValid, ICAO_CODE_LENGTH.
  destruct (Nat.lt_ge_cases (String.length line) 10) as [H|H].
  - rewrite (Hshort H). cbn. split; [discriminate | intros [? _]; lia].
  - rewrite (parse_hasFltcat line H), andb_true_r, Nat.eqb_eq.
    split; [auto | intros [_ ?]; assumption].
Qed.

Lemma parse_identifier_shape_witness :
  (String.length "KSFO" < 10)%nat /\ parse "KSFO" = METAR_new.
Proof.
  assert (H : (String.length "KSFO" < 10)%nat) by (vm_compute; lia).
  split; [exact H|].
  exact (proj1 (parse_identifier_shape "KSFO") H).
Defined.

End ParseInvariants.

(** ** Wind, temperature, cloud layers and ceiling of a parsed line *)

Section ParseGroups.
Import CLib MetarParser.

Lemma hasTemp_is_bit (m : METAR) : hasTemp m = bit 0 m.
Proof. apply (has_flag_bit m 0). lia. Qed.

Lemma hasDewp_is_bit (m : METAR) : hasDewp m = bit 1 m.
Proof. apply (has_flag_bit m 1). lia. Qed.

Lemma hasWspd_is_bit (m : METAR) : hasWspd m = bit 2 m.
Proof. apply (has_flag_bit m 2). lia. Qed.

Lemma hasWdir_is_bit (m : METAR) : hasWdir m = bit 3 m.
Proof. apply (has_flag_bit m 3). lia. Qed.

Lemma setWspd_view (m : METAR) (v : Q) :
  wspd (setWspd m v) = v /\ wdir (setWspd m v) = wdir m
  /\ bit 2 (setWspd m v) = true /\ bit 3 (setWspd m v) = bit 3 m.
Proof.
  unfold bit, setWspd. cbn [wspd wdir flags].
  change HAS_WSPD with (2 ^ 2)%Z.
  rewrite testbit_lor_same, testbit_lor_other by lia. auto.
Qed.

Lemma setWdir_view (m : METAR) (v : Z) :
  wdir (setWdir m v) = (v mod 65536)%Z /\ wspd (setWdir m v) = wspd m
  /\ bit 3 (setWdir m v) = true /\ bit 2 (setWdir m v) = bit 2 m.
Proof.
  unfold bit, setWdir. cbn [wspd wdir flags].
  change HAS_WDIR with (2 ^ 3)%Z.
  rewrite testbit_lor_same, testbit_lor_other by lia. auto.
Qed.

Lemma setTemp_view (m : METAR) (v : Q) :
  temp (setTemp m v) = v /\ dewp (setTemp m v) = dewp m
  /\ bit 0 (setTemp m v) = true /\ bit 1 (setTemp m v) = bit 1 m.
Proof.
  unfold bit, setTemp. cbn [temp dewp flags].
  change HAS_TEMP with (2 ^ 0)%Z.
  rewrite testbit_lor_same, testbit_lor_other by lia. auto.
Qed.

Lemma setDewp_view (m : METAR) (v : Q) :
  dewp (setDewp m v) = v /\ temp (setDewp m v) = temp m
  /\ bit 1 (setDewp m v) = true /\ bit 0 (setDewp m v) = bit 0 m.
Proof.
  unfold bit, setDewp. cbn [temp dewp flags].
  change HAS_DEWP with (2 ^ 1)%Z.
  rewrite testbit_lor_same, testbit_lor_other by lia. auto.
Qed.

Lemma walk_back_le (accept : ascii -> bool) (s : string) (p : nat) :
  (walk_back accept s p <= p)%nat.
Proof.
  induction p as [|p IH]; cbn [walk_back]; [lia|].
  destruct (accept (char_at s p)); lia.
Qed.

(** X3.  The wind of a parsed line comes from the characters before the
    first "KT" of the line, when that "KT" is at offset five or later: the
    direction is present exactly when the three characters five places
    before it are digits and is then their number (0 to 999), the speed is
    present exactly when the two characters right before it are digits and
    is then their number (0 to 99).  Without such a "KT" neither is
    present and both values stay 0. *)
Theorem parse_wind_group (line : string) :
  (10 <= String.length line)%nat ->
  match strstr line "KT" with
  | Some p =>
      if (4 <? p)%nat then
        hasWdir (parse line) = three_digits_at line (p - 5)
        /\ hasWspd (parse line)
           = isdigit (char_at line (p - 2)) && isdigit (char_at line (p - 1))
        /\ (hasWdir (parse line) = true ->
            wdir (parse line) = three_digit_number line (p - 5)
            /\ (0 <= wdir (parse line) <= 999)%Z)
        /\ (hasWspd (parse line) = true ->
            wspd (parse line) = inject_Z (two_digits line (p - 2))
            /\ (0 <= two_digits line (p - 2) <= 99)%Z)
      else
        hasWdir (parse line) = false /\ hasWspd (parse line) = false
        /\ wdir (parse line) = 0%Z /\ wspd (parse line) = 0%Q
  | None =>
      hasWdir (parse line) = false /\ hasWspd (parse line) = false
      /\ wdir (parse line) = 0%Z /\ wspd (parse line) = 0%Q
  end.
Proof.
  intros Hlen.
  destruct (parse_fields_summary line Hlen)
    as (_ & _ & _ & _ & _ & (Hs & Hd & Hb2 & Hb3) & (Zs & Zd & Z2 & Z3) & _).
  cbv zeta in Hs, Hd, Hb2, Hb3, Zs, Zd, Z2, Z3.
  rewrite hasWdir_is_bit, hasWspd_is_bit, Hs, Hd, Hb2, Hb3.
  clear Hs Hd Hb2 Hb3.
  set (m3 := parse_icao line _) in *.
  unfold parse_wind.
  destruct (strstr line "KT") as [p|]; [|auto].
  destruct (Nat.ltb_spec 4 p) as [Hp|Hp]; [|auto].
  cbv zeta.
  replace (p - 5 + 3)%nat with (p - 2)%nat by lia.
  replace (p - 5 + 4)%nat with (p - 1)%nat by lia.
  destruct (three_digits_at line (p - 5)) eqn:E3;
    destruct (isdigit (char_at line (p - 2))) eqn:D0;
    destruct (isdigit (char_at line (p - 1))) eqn:D1; cbn [andb];
    repeat match goal with
           | |- context [setWspd ?m ?v] =>
               destruct (setWspd_view m v) as (V1 & V2 & V3 & V4);
               rewrite ?V1, ?V2, ?V3, ?V4; clear V1 V2 V3 V4
           | |- context [setWdir ?m ?v] =>
               destruct (setWdir_view m v) as (V1 & V2 & V3 & V4);
               rewrite ?V1, ?V2, ?V3, ?V4; clear V1 V2 V3 V4
           end;
    rewrite ?Z2, ?Z3;
    (split; [reflexivity|]); (split; [reflexivity|]);
    split; try (intros; discriminate).
  all: try (intros _; destruct (atoi_three_digits line (p - 5) E3) as [-> ?];
            rewrite Z.mod_small by lia; split; [reflexivity | assumption]).
  all: intros _; apply atof_two_digits; [assumption|];
    replace (p - 2 + 1)%nat with (p - 1)%nat by lia; assumption.
Qed.

Lemma parse_wind_group_witness :
  (10 <= String.length gust_report)%nat
  /\ hasWdir (parse gust_report) = false
  /\ wspd (parse gust_report) = inject_Z 25.
Proof.
  assert (Hlen : (10 <= String.length gust_report)%nat) by (vm_compute; lia).
  split; [exact Hlen|].
  pose proof (parse_wind_group gust_report Hlen) as H.
  assert (E : strstr gust_report "KT" = Some 21%nat)
    by (vm_compute; reflexivity).
  rewrite E in H. change (4 <? 21)%nat with true in H. cbv iota in H.
  destruct H as (Hd & Hs & _ & Hv).
  split; [rewrite Hd; vm_compute; reflexivity|].
  destruct Hv as [-> _]; [rewrite Hs; vm_compute; reflexivity|].
  vm_compute. reflexivity.
Defined.

(** X4.  The temperature group of a parsed line is looked for at one
    place only, the first '/' at or after the first "SM": the temperature
    is present exactly when that '/' lies beyond offset ten and the run of
    digits and 'M' before it starts right after a blank.  A dew point is
    never present without a temperature, and when the temperature is
    absent both values stay 0. *)
Theorem parse_temperature_group (line : string) :
  (10 <= String.length line)%nat ->
  (hasDewp (parse line) = true -> hasTemp (parse line) = true)
  /\ (hasTemp (parse line) = true <->
      exists t,
        temperature_slash line = Some t /\ (10 < t)%nat
        /\ (0 < walk_back temp_char line (t - 1))%nat
        /\ char_at line (walk_back temp_char line (t - 1) - 1) = " "%char)
  /\ (hasTemp (parse line) = false ->
      temp (parse line) = 0%Q /\ dewp (parse line) = 0%Q).
Proof.
  intros Hlen.
  destruct (parse_fields_summary line Hlen)
    as (_ & _ & _ & _ & _ & _ & _ & (Ht & Hd & Hb0 & Hb1)
        & (Zt & Zd & Z0 & Z1) & _).
  cbv zeta in Ht, Hd, Hb0, Hb1, Zt, Zd, Z0, Z1.
  rewrite hasTemp_is_bit, hasDewp_is_bit, Ht, Hd, Hb0, Hb1.
  clear Ht Hd Hb0 Hb1.
  set (m6 := parse_visibility line _) in *.
  unfold parse_temperature, temperature_slash.
  destruct (strchr_from line "/" _) as [t|];
    [|rewrite Z0, Z1; repeat split; try discriminate; try assumption;
      intros (t & [=] & _)].
  destruct (Nat.ltb_spec 10 t) as [Hp|Hp];
    [|rewrite Z0, Z1; repeat split; try discriminate; try assumption;
      intros (t' & [= <-] & ? & _); lia].
  cbv zeta.
  pose proof (walk_back_le temp_char line (t - 1)) as Hw.
  set (s := walk_back temp_char line (t - 1)) in *.
  destruct (Nat.ltb_spec 0 s) as [Hs|Hs]; cbn [andb];
    [|rewrite Z0, Z1; repeat split; try discriminate; try assumption;
      intros (t' & [= <-] & _ & ? & _); lia].
  destruct (Ascii.eqb_spec (char_at line (s - 1)) " ") as [Hc|Hc];
    [|rewrite Z0, Z1; repeat split; try discriminate; try assumption;
      intros (t' & [= <-] & _ & _ & ?); contradiction].
  destruct (Nat.ltb_spec s t) as [_|]; [|lia].
  assert (Hex : exists t0 : nat,
             Some t = Some t0 /\ (10 < t0)%nat
             /\ (0 < walk_back temp_char line (t0 - 1))%nat
             /\ char_at line (walk_back temp_char line (t0 - 1) - 1)
                = " "%char)
    by (exists t; auto).
  destruct (_ <? _)%nat;
    repeat match goal with
           | |- context [setDewp ?m ?v] =>
               destruct (setDewp_view m v) as (V1 & V2 & V3 & V4);
               rewrite ?V1, ?V2, ?V3, ?V4; clear V1 V2 V3 V4
           | |- context [setTemp ?m ?v] =>
               destruct (setTemp_view m v) as (V1 & V2 & V3 & V4);
               rewrite ?V1, ?V2, ?V3, ?V4; clear V1 V2 V3 V4
           end;
    repeat split; auto; discriminate.
Qed.

Lemma parse_temperature_group_witness :
  (10 <= String.length whole_report)%nat
  /\ hasTemp (parse whole_report) = true
  /\ hasTemp (parse rvr_report) = false.
Proof.
  assert (Hlen : (10 <= String.length whole_report)%nat)
    by (vm_compute; lia).
  split; [exact Hlen|]. split; [|vm_compute; reflexivity].
  apply (proj1 (parse_temperature_group whole_report Hlen)).
  vm_compute. reflexivity.
Defined.

End ParseGroups.

(** ** Cloud layers, ceiling and observation time *)

Section ParseLayers.
Import CLib MetarParser.

Lemma match_code_table (rawText : string) (pos : nat) (code : string) :
  match_code rawText pos = Some code -> In code cloudCodes.
Proof.
  unfold match_code. intros H. apply List.find_some in H. tauto.
Qed.

Lemma clear_layer_ok (cov : string) :
  cov = "SKC" \/ cov = "CLR" -> layer_ok (mkCloudLayer cov 0 "").
Proof.
  intros H. unfold layer_ok. cbn [coverage height type].
  split; [destruct H as [->| ->]; cbn; tauto|].
  split; [lia|]. split; [cbn; tauto|]. auto.
Qed.

Lemma cloud_loop_layers_ok (rawText : string) (fuel : nat) :
  forall (pos : nat) (tempLayers : list CloudLayer) (metar : METAR),
    Forall layer_ok tempLayers -> (length tempLayers <= 10)%nat ->
    Forall layer_ok (cloud_loop fuel rawText pos tempLayers metar).1
    /\ (length (cloud_loop fuel rawText pos tempLayers metar).1 <= 10)%nat.
Proof.
  induction fuel as [|fuel IH]; intros pos l m Hok Hlen; [cbn; auto|].
  cbn [cloud_loop].
  destruct (String.length rawText <=? pos)%nat; cbn [orb]; [auto|].
  destruct (Nat.leb_spec 10 (length l)) as [|Hlt]; [cbn; auto|].
  cbv zeta.
  destruct (String.length rawText <=? skip_spaces rawText pos)%nat; [auto|].
  destruct (match_code rawText _) as [code|] eqn:Hm; [|apply IH; auto].
  apply match_code_table in Hm.
  assert (Hext : forall x, layer_ok x ->
            Forall layer_ok (l ++ [x]) /\ (length (l ++ [x]) <= 10)%nat).
  { intros x Hx. split.
    - apply Forall_app. split; [assumption | constructor; [assumption|constructor]].
    - rewrite length_app. cbn. lia. }
  assert (Hcase : code = "SKC" \/ code = "CLR"
                  \/ (In code ["FEW"; "SCT"; "BKN"; "OVC"; "VV"])).
  { cbn in Hm. cbn. intuition. }
  destruct Hcase as [->|[->|Hrest]].
  - change (String.eqb "SKC" "SKC" || String.eqb "SKC" "CLR") with true.
    cbv iota.
    apply IH; apply Hext; apply clear_layer_ok; cbn; tauto.
  - change (String.eqb "CLR" "SKC" || String.eqb "CLR" "CLR") with true.
    cbv iota.
    apply IH; apply Hext; apply clear_layer_ok; cbn; tauto.
  - assert (Hno : String.eqb code "SKC" || String.eqb code "CLR" = false)
      by (cbn in Hrest; intuition; subst code; reflexivity).
    rewrite Hno.
    assert (Hcov : In (String.substring 0 3 code)
                      ["SKC"; "CLR"; "FEW"; "SCT"; "BKN"; "OVC"; "VV"]
                   /\ String.substring 0 3 code <> "SKC"
                   /\ String.substring 0 3 code <> "CLR").
    { cbn in Hrest. intuition; subst code; cbn; intuition discriminate. }
    destruct Hcov as (Hin & Hn1 & Hn2).
    destruct (three_digits_at rawText _) eqn:E3; [|apply IH; auto].
    destruct (atoi_three_digits _ _ E3) as [-> Hr].
    cbv zeta.
    destruct (starts_with rawText _ "CB");
      [|destruct (starts_with rawText _ "TCU")];
      apply IH; apply Hext;
      (split; [exact Hin|]); cbn [height type coverage];
      (split; [exact Hr|]); (split; [cbn; tauto|]);
      intros [Hc|Hc]; contradiction.
Qed.

(** X5.  The cloud layers of a parsed line: at most ten of them; each has
    one of the seven coverage codes, a height of 0 to 999 hundreds of
    feet and the type empty, CB or TCU; a clear-sky layer (SKC, CLR) has
    height 0 and no type; and a layer of type CB always comes with the
    thunderstorm flag. *)
Theorem parse_cloud_layers_shape (line : string) :
  (length (cloudLayers (parse line)) <= 10)%nat
  /\ Forall layer_ok (cloudLayers (parse line))
  /\ (Exists (fun l => type l = "CB") (cloudLayers (parse line)) ->
      hasThunderstorm (parse line) = true).
Proof.
  destruct (Nat.lt_ge_cases (String.length line) 10) as [Hs|Hlen].
  { unfold parse. destruct (Nat.ltb_spec (String.length line) 10); [|lia].
    cbn. split; [lia|]. split; [constructor|].
    intros Hex. apply Exists_nil in Hex. contradiction. }
  assert (Hshape : (length (cloudLayers (parse line)) <= 10)%nat
                   /\ Forall layer_ok (cloudLayers (parse line))).
  { destruct (parse_fields_summary line Hlen) as (_ & _ & _ & _ & -> & _).
    unfold parseCloudConditions.
    match goal with
    | |- context [cloud_loop ?f ?r ?p ?l ?m] =>
        pose proof (cloud_loop_layers_ok r f p l m) as H;
        destruct (cloud_loop f r p l m) as [layers m']
    end.
    cbn [setCloudLayers cloudLayers fst] in *.
    destruct H as [H1 H2]; [constructor | cbn; lia |]. auto. }
  destruct Hshape as [H1 H2]. split; [exact H1|]. split; [exact H2|].
  intros Hcb. rewrite (parse_storm_view line Hlen).
  apply orb_true_iff. right. apply existsb_exists.
  apply Exists_exists in Hcb as (l & Hl & Ht).
  exists l. split; [apply list_elem_of_In; exact Hl|].
  unfold is_cb. rewrite Ht. reflexivity.
Qed.

(** X6.  The ceiling computed from a line is a whole number of hundreds
    of feet between 0 and 99900. *)
Theorem calculateCeiling_range (line : string) :
  (0 <= calculateCeiling line <= 99900)%Z
  /\ (calculateCeiling line mod 100 = 0)%Z.
Proof.
  unfold calculateCeiling.
  assert (Hh : forall q, three_digits_at line q = true ->
            (0 <= atoi (copy_n line q 3) * 100 <= 99900)%Z
            /\ ((atoi (copy_n line q 3) * 100) mod 100 = 0)%Z).
  { intros q Hq. destruct (atoi_three_digits line q Hq) as [-> Hr].
    split; [lia | apply Z.mod_mul; lia]. }
  destruct (strstr line "BKN") as [b|], (strstr line "OVC") as [o|];
    repeat match goal with
           | |- context [three_digits_at ?s ?p] =>
               let E := fresh "E" in
               destruct (three_digits_at s p) eqn:E;
               [pose proof (Hh _ E)|]
           end;
    repeat match goal with
           | |- context [if ?c then _ else _] => destruct c
           end;
    try assumption; split; try lia; reflexivity.
Qed.

Lemma char_at_copy_n (s : string) (p n i : nat) :
  (i < n)%nat -> char_at (copy_n s p n) i = char_at s (p + i).
Proof.
  intros Hi. unfold char_at, copy_n.
  rewrite (String.substring_correct1 s p n i Hi).
  replace (i + p)%nat with (p + i)%nat by lia. reflexivity.
Qed.

Lemma digit_inside (s : string) (q : nat) :
  isdigit (char_at s q) = true -> (q < String.length s)%nat.
Proof.
  intros H. destruct (Nat.lt_ge_cases q (String.length s)) as [|Hge];
    [assumption|].
  rewrite (char_at_beyond s q Hge) in H. discriminate H.
Qed.



End ParseLayers.

(** ** What a batch stores, and what it leaves out *)

Section Batch.
Import CLib MetarParser WeatherAPIClient LEDColors LEDController.

Lemma prefix_char (c a : ascii) (s : string) :
  String.prefix (String c EmptyString) (String a s) = Ascii.eqb a c.
Proof.
  cbn [String.prefix].
  destruct (ascii_dec c a) as [->|Hne].
  - rewrite Ascii.eqb_refl. destruct s; reflexivity.
  - symmetry. apply Ascii.eqb_neq. congruence.
Qed.

Lemma index_char_absent (c : ascii) (tail : string) :
  contains c tail = false ->
  forall n, String.index n (String c EmptyString) tail = None.
Proof.
  induction tail as [|a tail IH]; intros Hc n.
  - destruct n; reflexivity.
  - cbn [contains] in Hc. apply orb_false_iff in Hc as [Ha Hc].
    destruct n as [|n]; cbn [String.index].
    + rewrite prefix_char, Ha. rewrite (IH Hc 0%nat). reflexivity.
    + rewrite (IH Hc n). reflexivity.
Qed.

Lemma index_char_app (c : ascii) (s tail : string) :
  contains c tail = false ->
  forall n, String.index n (String c EmptyString) (String.append s tail)
            = String.index n (String c EmptyString) s.
Proof.
  intros Hc. induction s as [|a s IH]; intros n.
  - cbn [String.append]. rewrite (index_char_absent c tail Hc).
    destruct n; reflexivity.
  - cbn [String.append]. destruct n as [|n]; cbn [String.index].
    + rewrite !prefix_char. rewrite (IH 0%nat). reflexivity.
    + rewrite (IH n). reflexivity.
Qed.

Lemma substring_app_l (s tail : string) :
  forall n m : nat,
    (n + m <= String.length s)%nat ->
    String.substring n m (String.append s tail) = String.substring n m s.
Proof.
  induction s as [|a s IH]; intros n m H; cbn [String.length] in H.
  - assert (n = 0 /\ m = 0)%nat as [-> ->] by lia.
    cbn [String.append]. destruct tail; reflexivity.
  - cbn [String.append]. destruct n as [|n]; cbn [String.substring].
    + destruct m as [|m]; [reflexivity|]. rewrite (IH 0%nat m) by lia.
      reflexivity.
    + apply IH. lia.
Qed.

Lemma append_length (s t : string) :
  String.length (String.append s t) = (String.length s + String.length t)%nat.
Proof. induction s as [|a s IH]; cbn; [reflexivity | rewrite IH; reflexivity]. Qed.

Lemma cut_lines_app (rawData tail : string) (fuel : nat) :
  contains newline tail = false ->
  forall startPos : Z,
    (0 <= startPos)%Z ->
    cut_lines fuel (String.append rawData tail) startPos
    = cut_lines fuel rawData startPos.
Proof.
  intros Hc. induction fuel as [|fuel IH]; intros startPos Hs; [reflexivity|].
  cbn [cut_lines]. cbv zeta.
  assert (E : indexOf_from (String.append rawData tail) newline startPos
              = indexOf_from rawData newline startPos).
  { unfold indexOf_from. rewrite (index_char_app newline rawData tail Hc).
    reflexivity. }
  rewrite E.
  destruct (indexOf_from_range rawData newline startPos) as [Hn|Hr].
  { rewrite Hn. reflexivity. }
  destruct (Z.eqb_spec (indexOf_from rawData newline startPos) (-1)) as [|_];
    [lia|].
  rewrite Z2Nat.id in Hr by exact Hs.
  set (e := indexOf_from rawData newline startPos) in *.
  f_equal; [|apply IH; lia].
  unfold substring. destruct (Z.ltb_spec e startPos) as [|_]; [lia|].
  rewrite append_length, Nat2Z.inj_add.
  destruct (Z.leb_spec (Z.of_nat (String.length rawData)
                        + Z.of_nat (String.length tail)) startPos); [lia|].
  destruct (Z.leb_spec (Z.of_nat (String.length rawData)) startPos); [lia|].
  rewrite !Z.min_l by lia.
  apply substring_app_l. lia.
Qed.

Lemma observations_app (rawData tail : string) :
  contains newline tail = false ->
  observations (String.append rawData tail) = observations rawData.
Proof.
  intros Hc. unfold observations. f_equal.
  rewrite (cut_lines_app rawData tail _ Hc 0%Z) by lia.
  apply cut_lines_fuel_enough; rewrite ?append_length;
    change (Z.to_nat 0) with 0%nat; lia.
Qed.

(** X8.  [parseWeatherData] only reads lines that end in a line feed:
    whatever follows the last line feed of the response is ignored, and a
    response without any line feed stores nothing and is reported as a
    parsing failure, whatever it holds. *)
Theorem parseWeatherData_unterminated_tail (rawData tail : string)
    (airports : list AirportLED) :
  contains newline tail = false ->
  parseWeatherData (String.append rawData tail) airports
  = parseWeatherData rawData airports
  /\ parseWeatherData tail airports = (PARSING_FAILURE, airports).
Proof.
  intros Hc. split.
  - rewrite !parseWeatherData_fold.
    rewrite (observations_app rawData tail Hc). reflexivity.
  - rewrite parseWeatherData_fold.
    change tail with (String.append "" tail).
    rewrite (observations_app "" tail Hc). reflexivity.
Qed.

Lemma parseWeatherData_unterminated_tail_witness :
  contains newline plain_report = false
  /\ parseWeatherData plain_report example_slots
     = (PARSING_FAILURE, example_slots).
Proof.
  assert (Hc : contains newline plain_report = false)
    by (vm_compute; reflexivity).
  split; [exact Hc|].
  exact (proj2 (parseWeatherData_unterminated_tail "" plain_report
                  example_slots Hc)).
Defined.

End Batch.

(** ** The observations a batch stores *)

Section Stored.
Import CLib MetarParser WeatherAPIClient LEDColors LEDController.

Lemma parse_icaoId_length (line : string) :
  (10 <= String.length line)%nat ->
  String.length (icaoId (parse line)) = 0%nat
  \/ String.length (icaoId (parse line)) = 4%nat.
Proof.
  intros Hlen. rewrite (parse_icaoId_source line Hlen). cbv zeta.
  destruct (Nat.leb_spec 4 (String.length (drop (skip_spaces line
              (if starts_with line 0 "METAR " then 6%nat
               else if starts_with line 0 "SPECI " then 6%nat else 0%nat))
              line))) as [H4|H4]; [right | left; reflexivity].
  unfold copy_n. rewrite drop_length in H4.
  apply substring_length_exact. lia.
Qed.

Lemma parse_fltcat_name (line : string) :
  (10 <= String.length line)%nat ->
  exists cat, fltcat (parse line) = CategorySpec.name cat.
Proof.
  intros Hlen. rewrite (parse_chain line Hlen).
  unfold parse_fltcat, setFltcat. cbn [fltcat].
  match goal with
  | |- context [deriveFlightCategory ?v ?c] =>
      destruct (deriveFlightCategory_table v c) as (cat & -> & _)
  end.
  exists cat. destruct cat; reflexivity.
Qed.

Lemma observations_parsed (rawData : string) (metar : METAR) :
  metar ∈ observations rawData ->
  exists line,
    (10 < String.length line)%nat /\ metar = parse line
    /\ icaoId metar <> "".
Proof.
  intros Hin. unfold observations in Hin.
  apply list_elem_of_omap in Hin as (raw & _ & Hobs).
  pose proof (observation_has_identifier raw metar Hobs) as Hid.
  unfold observation in Hobs. cbv zeta in Hobs.
  destruct (Nat.ltb_spec 10 (String.length (trim raw))) as [Hl|];
    [|discriminate Hobs].
  destruct (0 <? String.length (icaoId (parse (trim raw))))%nat;
    [|discriminate Hobs].
  injection Hobs as <-. exists (trim raw). auto.
Qed.

(** X9.  A slot that [parseWeatherData] has changed keeps its code and
    holds a valid observation of its own station: the observation was
    parsed from a line of more than ten characters, which it keeps as raw
    text, its identifier is the four-character code of the slot, and it
    has a flight category.  With the display on, [updateFromAirports]
    therefore shows such a slot in one of the four category colours or in
    the wind-warning colour, never as missing data. *)
Theorem parseWeatherData_stores_valid (rawData : string)
    (airports : list AirportLED) (i : nat) (before after : AirportLED) :
  airports !! i = Some before ->
  (parseWeatherData rawData airports).2 !! i = Some after ->
  after <> before ->
  hasValidData after = true
  /\ icaoCode after = icaoCode before
  /\ icaoId (metarData after) = icaoCode after
  /\ String.length (icaoCode after) = 4%nat
  /\ isValid (metarData after) = true
  /\ (exists line,
        (10 < String.length line)%nat /\ metarData after = parse line
        /\ rawText (metarData after) = Some line)
  /\ forall g : SystemState,
       ledPowerState g = true ->
       In (resting_color g after) [VFR; MVFR; IFR; LIFR; WIND_WARNING].
Proof.
  intros Hb Ha Hne. rewrite parseWeatherData_fold in Ha. cbn [snd] in Ha.
  rewrite (foldl_merge_lookup _ airports 0 i before Hb) in Ha.
  destruct (last (assigned_to airports i (observations rawData)))
    as [metar|] eqn:Hlast; [|congruence].
  injection Ha as <-.
  apply last_Some_elem_of in Hlast. unfold assigned_to in Hlast.
  apply list_elem_of_filter in Hlast as [Hfm Hin].
  apply first_match_Some in Hfm as [(a & Hla & Hcode) _].
  rewrite Hb in Hla. injection Hla as <-.
  destruct (observations_parsed rawData metar Hin) as (line & Hlen & -> & Hid).
  assert (Hlen' : (10 <= String.length line)%nat) by lia.
  assert (H4 : String.length (icaoId (parse line)) = 4%nat).
  { destruct (parse_icaoId_length line Hlen') as [H0|H4]; [|exact H4].
    destruct (icaoId (parse line)); [congruence | discriminate H0]. }
  unfold store_metar. cbn [hasValidData icaoCode metarData].
  split; [reflexivity|]. split; [reflexivity|].
  split; [congruence|]. split; [congruence|].
  split.
  { unfold isValid, ICAO_CODE_LENGTH.
    rewrite H4, (parse_hasFltcat line Hlen'). reflexivity. }
  split.
  { exists line. split; [exact Hlen|]. split; [reflexivity|].
    apply (parse_fields_summary line Hlen'). }
  intros g Hg. unfold resting_color, isEmpty.
  cbn [hasValidData icaoCode metarData]. rewrite Hg, Hcode, H4.
  rewrite (parse_hasFltcat line Hlen'). cbn [negb orb Nat.eqb].
  destruct (windCheckEnabled g && high_wind g _); [cbn; tauto|].
  destruct (parse_fltcat_name line Hlen') as [cat ->].
  destruct cat; cbn; tauto.
Qed.

Lemma parseWeatherData_stores_valid_witness :
  (example_slots !! 0%nat = Some (AirportLED_new "KSFO")
   /\ (parseWeatherData example_batch example_slots).2 !! 0%nat
      = Some (store_metar (parse plain_report) (AirportLED_new "KSFO"))
   /\ store_metar (parse plain_report) (AirportLED_new "KSFO")
      <> AirportLED_new "KSFO")
  /\ isValid (parse plain_report) = true.
Proof.
  assert (H1 : example_slots !! 0%nat = Some (AirportLED_new "KSFO"))
    by reflexivity.
  assert (H2 : (parseWeatherData example_batch example_slots).2 !! 0%nat
               = Some (store_metar (parse plain_report)
                         (AirportLED_new "KSFO")))
    by (vm_compute; reflexivity).
  assert (H3 : store_metar (parse plain_report) (AirportLED_new "KSFO")
               <> AirportLED_new "KSFO")
    by (intros E; apply (f_equal hasValidData) in E; discriminate E).
  split; [auto|].
  exact (proj1 (proj2 (proj2 (proj2 (proj2
           (parseWeatherData_stores_valid example_batch example_slots 0
              _ _ H1 H2 H3)))))).
Defined.

End Stored.

(** ** What the LED operations leave alone *)

Section LedFrames.
Import LEDColors LEDController.

Lemma for_upto_write_skip {A : Type} (f : nat -> option A) (n : nat)
    (l : list A) (j : nat) :
  f j = None -> for_upto n (write f) l !! j = l !! j.
Proof.
  intros Hf. rewrite for_upto_write_lookup.
  destruct (decide (j < n)%nat); [rewrite Hf|]; reflexivity.
Qed.

Lemma for_upto_storm_body (airports : list AirportLED)
    (color : nat -> option CRGB) (n : nat) (l : list CRGB) :
  for_upto n (storm_body airports color) l
  = for_upto n (write (storm_write airports color)) l.
Proof. apply for_upto_ext. intros i s. apply storm_body_write. Qed.

Lemma for_upto_wind_body (g : SystemState) (airports : list AirportLED)
    (blink : bool) (n : nat) (l : list CRGB) :
  for_upto n (wind_body g airports blink) l
  = for_upto n (write (wind_write g airports blink)) l.
Proof. apply for_upto_ext. intros i s. apply wind_body_write. Qed.

(** X10.  [updateFromAirports] gives every slot that has an LED its
    resting colour, in [leds] and in [baseColors] alike; LEDs beyond the
    slots, the lengths of both arrays, the timers and the states of the
    two overlays are left as they were.  With the display off every slot
    LED is off. *)
Theorem updateFromAirports_resting (g : SystemState)
    (airports : list AirportLED) (c : LEDController.t) :
  let c' := updateFromAirports g airports c in
  (length (leds c') = length (leds c)
   /\ length (baseColors c') = length (baseColors c))
  /\ (lastFlashTime c' = lastFlashTime c
      /\ lastWindBlinkTime c' = lastWindBlinkTime c
      /\ flashState c' = flashState c
      /\ windBlinkState c' = windBlinkState c)
  /\ (forall i a,
        airports !! i = Some a -> (i < numLeds c)%nat ->
        leds c' !! i = Some (resting_color g a)
        /\ ((i < length (baseColors c))%nat ->
            baseColors c' !! i = Some (resting_color g a))
        /\ (ledPowerState g = false -> leds c' !! i = Some OFF))
  /\ (forall i,
        (length airports <= i)%nat ->
        leds c' !! i = leds c !! i
        /\ baseColors c' !! i = baseColors c !! i).
Proof.
  cbv zeta. unfold updateFromAirports.
  rewrite for_upto_base_body.
  cbn [fst snd leds baseColors lastFlashTime lastWindBlinkTime flashState
       windBlinkState].
  split; [split; apply for_upto_write_length|].
  split; [auto|]. split.
  - intros i a Ha Hi.
    apply lookup_lt_Some in Ha as Hlen.
    assert (Hl : for_upto (Nat.min (length airports) (numLeds c))
                   (write (base_write g airports)) (leds c) !! i
                 = Some (resting_color g a)).
    { rewrite for_upto_write_lookup.
      rewrite decide_True by (unfold numLeds in *; lia).
      unfold base_write. rewrite Ha. cbn.
      rewrite decide_True by exact Hi. reflexivity. }
    split; [exact Hl|]. split.
    + intros Hb. rewrite for_upto_write_lookup.
      rewrite decide_True by (unfold numLeds in *; lia).
      unfold base_write. rewrite Ha. cbn.
      rewrite decide_True by exact Hb. reflexivity.
    + intros Hoff. rewrite Hl. unfold resting_color. rewrite Hoff.
      reflexivity.
  - intros i Hi.
    assert (Hn : base_write g airports i = None).
    { unfold base_write. rewrite (lookup_ge_None_2 airports i Hi).
      reflexivity. }
    split; apply for_upto_write_skip; exact Hn.
Qed.

(** X11.  Neither overlay ever touches [baseColors], the length of the
    strip, or the timer and state of the other overlay.  The thunderstorm
    overlay writes only LEDs of slots with a valid observation that has
    the thunderstorm flag, the wind overlay only LEDs of slots with a
    valid observation, wind above the threshold and no thunderstorm flag;
    and with the display off or the last fetch not successful both leave
    the controller exactly as it was. *)
Theorem overlays_frame (g : SystemState) (currentMillis rnd : Z)
    (airports : list AirportLED) (c : LEDController.t) :
  let s := updateThunderstorms g currentMillis rnd airports c in
  let w := updateWindBlink g currentMillis airports c in
  (baseColors s = baseColors c /\ length (leds s) = length (leds c)
   /\ lastWindBlinkTime s = lastWindBlinkTime c
   /\ windBlinkState s = windBlinkState c)
  /\ (baseColors w = baseColors c /\ length (leds w) = length (leds c)
      /\ lastFlashTime w = lastFlashTime c
      /\ flashState w = flashState c)
  /\ (forall i,
        (forall a, airports !! i = Some a -> storm_slot a = false) ->
        leds s !! i = leds c !! i)
  /\ (forall i,
        (forall a, airports !! i = Some a -> wind_slot g a = false) ->
        leds w !! i = leds c !! i)
  /\ (ledPowerState g = false \/ lastFetchStatus g <> SUCCESS ->
      s = c /\ w = c).
Proof.
  cbv zeta.
  assert (Hs : forall color i,
            (forall a, airports !! i = Some a -> storm_slot a = false) ->
            storm_write airports color i = None).
  { intros color i H. unfold storm_write.
    destruct (airports !! i) as [a|] eqn:E; [|reflexivity].
    rewrite (H a eq_refl). destruct (color i); reflexivity. }
  assert (Hw : forall blink i,
            (forall a, airports !! i = Some a -> wind_slot g a = false) ->
            wind_write g airports blink i = None).
  { intros blink i H. unfold wind_write.
    destruct (airports !! i) as [a|] eqn:E; [|reflexivity].
    rewrite (H a eq_refl). reflexivity. }
  split; [|split; [|split; [|split]]].
  - unfold updateThunderstorms.
    repeat match goal with
           | |- context [if ?b then _ else _] => destruct b
           end;
      cbn [baseColors leds lastWindBlinkTime windBlinkState];
      rewrite ?for_upto_storm_body, ?for_upto_write_length; auto.
  - unfold updateWindBlink.
    repeat match goal with
           | |- context [if ?b then _ else _] => destruct b
           end;
      cbn [baseColors leds lastFlashTime flashState];
      rewrite ?for_upto_wind_body, ?for_upto_write_length; auto.
  - intros i Hi. unfold updateThunderstorms.
    repeat match goal with
           | |- context [if ?b then _ else _] => destruct b
           end;
      cbn [leds]; rewrite ?for_upto_storm_body; try reflexivity;
      apply for_upto_write_skip; apply Hs; exact Hi.
  - intros i Hi. unfold updateWindBlink.
    repeat match goal with
           | |- context [if ?b then _ else _] => destruct b
           end;
      cbn [leds]; rewrite ?for_upto_wind_body; try reflexivity;
      apply for_upto_write_skip; apply Hw; exact Hi.
  - intros [Hoff|Hst]; unfold updateThunderstorms, updateWindBlink.
    + rewrite Hoff. cbn [negb].
      destruct (thunderstormsCheckEnabled g), (windCheckEnabled g); auto.
    + assert (E : METAR_STATUS_eqb (lastFetchStatus g) SUCCESS = false)
        by (destruct (lastFetchStatus g); [congruence | reflexivity ..]).
      rewrite E. cbn [negb].
      destruct (thunderstormsCheckEnabled g), (windCheckEnabled g),
        (ledPowerState g); auto.
Qed.

(** X12.  A flash leaves no trace: when the LEDs of the slots show their
    stored resting colours (as after [updateFromAirports]) and the
    overlay goes from idle to flashing at one evaluation, an evaluation
    at least 100 ms later puts every LED back exactly as it was before
    the flash and returns to idle. *)
Theorem flash_then_restore (g : SystemState) (t1 rnd1 t2 rnd2 : Z)
    (airports : list AirportLED) (c : LEDController.t) :
  (forall i, (i < Nat.min (length airports) (numLeds c))%nat ->
             leds c !! i = baseColors c !! i) ->
  flashState c = false ->
  flashState (updateThunderstorms g t1 rnd1 airports c) = true ->
  (100 <= elapsed t2 t1)%Z ->
  let c1 := updateThunderstorms g t1 rnd1 airports c in
  let c2 := updateThunderstorms g t2 rnd2 airports c1 in
  leds c2 = leds c /\ flashState c2 = false
  /\ baseColors c2 = baseColors c /\ lastFlashTime c2 = t2.
Proof.
  intros Hbase Hidle Hflash Hlate. cbv zeta.
  remember (updateThunderstorms g t1 rnd1 airports c) as c1 eqn:E1.
  unfold updateThunderstorms in E1.
  destruct (thunderstormsCheckEnabled g) eqn:G1; cbn [negb] in E1;
    [|congruence].
  destruct (ledPowerState g) eqn:G2; cbn [negb] in E1; [|congruence].
  destruct (METAR_STATUS_eqb (lastFetchStatus g) SUCCESS) eqn:G3;
    cbn [negb] in E1; [|congruence].
  cbv zeta in E1.
  destruct (existsb storm_slot
              (take (Nat.min (length airports) (numLeds c)) airports))
    eqn:G4; cbn [negb] in E1; [|congruence].
  rewrite Hidle in E1.
  destruct (3000 <=? elapsed t1 (lastFlashTime c))%Z; [|congruence].
  destruct (rnd1 <? 20)%Z; [|congruence].
  rewrite for_upto_storm_body in E1.
  assert (Hn : numLeds c1 = numLeds c)
    by (subst c1; unfold numLeds; cbn [leds]; apply for_upto_write_length).
  unfold updateThunderstorms. rewrite G1, G2, G3. cbn [negb]. cbv zeta.
  rewrite Hn, G4. cbn [negb].
  assert (F1 : flashState c1 = true) by (subst c1; reflexivity).
  assert (T1 : lastFlashTime c1 = t1) by (subst c1; reflexivity).
  rewrite F1, T1.
  destruct (Z.leb_spec 100 (elapsed t2 t1)) as [_|]; [|lia].
  cbn [leds baseColors lastFlashTime flashState].
  split; [|subst c1; auto].
  rewrite for_upto_storm_body. apply list_eq. intros i.
  assert (B1 : baseColors c1 = baseColors c) by (subst c1; reflexivity).
  assert (L1 : forall j,
            leds c1 !! j
            = for_upto (Nat.min (length airports) (numLeds c))
                (write (storm_write airports (fun _ => Some THUNDERSTORM)))
                (leds c) !! j)
    by (subst c1; reflexivity).
  rewrite B1.
  rewrite for_upto_write_lookup.
  destruct (decide (i < Nat.min (length airports) (numLeds c))%nat)
    as [Hi|Hi].
  - destruct (lookup_lt_is_Some_2 airports i) as [a Ha]; [lia|].
    assert (Hl : is_Some (leds c !! i))
      by (apply lookup_lt_is_Some_2; unfold numLeds in Hi; lia).
    destruct Hl as [x Hx]. pose proof (Hbase i Hi) as Hb. rewrite Hx in Hb.
    unfold storm_write at 1. rewrite Ha, <- Hb.
    destruct (storm_slot a) eqn:Hst.
    + rewrite decide_True
        by (unfold numLeds in Hn, Hi; lia).
      symmetry. exact Hx.
    + rewrite L1. apply for_upto_write_skip. unfold storm_write.
      rewrite Ha, Hst. reflexivity.
  - rewrite L1, for_upto_write_lookup. rewrite decide_False by exact Hi.
    reflexivity.
Qed.

Lemma flash_then_restore_witness :
  flashState flashing_controller = true
  /\ leds flashing_controller <> leds storm_controller
  /\ leds (updateThunderstorms example_state 3100 0 [storm_airport]
             flashing_controller) = leds storm_controller.
Proof.
  split; [vm_compute; reflexivity|].
  split; [vm_compute; discriminate|].
  apply (flash_then_restore example_state 3000 0 3100 0 [storm_airport]
           storm_controller).
  - intros i Hi. destruct i as [|i]; [vm_compute; reflexivity|].
    vm_compute in Hi. lia.
  - vm_compute. reflexivity.
  - vm_compute. reflexivity.
  - vm_compute. discriminate.
Defined.

End LedFrames.

(** ** Settings: ranges, the file, and requests *)

Section SettingsFacts.
Import CLib.

Lemma constrain_range (x lo hi : Z) :
  (lo <= hi)%Z -> (lo <= constrain x lo hi <= hi)%Z.
Proof.
  intros H. unfold constrain.
  destruct (Z.ltb_spec x lo); [lia|]. destruct (Z.ltb_spec hi x); lia.
Qed.

Lemma constrain_inside (x lo hi : Z) :
  (lo <= x <= hi)%Z -> constrain x lo hi = x.
Proof.
  intros H. unfold constrain.
  destruct (Z.ltb_spec x lo); [lia|]. destruct (Z.ltb_spec hi x); lia.
Qed.

Lemma printNumber_uint8 (n : Z) :
  (0 <= n <= 255)%Z ->
  all_chars isdigit (printNumber n) = true
  /\ toInt (printNumber n) = n
  /\ trim (printNumber n) = printNumber n
  /\ (String.length (printNumber n) <= 3)%nat.
Proof.
  intros Hn.
  assert (H : forallb
                (fun k =>
                   let d := printNumber (Z.of_nat k) in
                   all_chars isdigit d && (toInt d =? Z.of_nat k)%Z
                   && String.eqb (trim d) d
                   && (String.length d <=? 3)%nat) (seq 0 256) = true)
    by (vm_compute; reflexivity).
  rewrite forallb_forall in H.
  specialize (H (Z.to_nat n)). rewrite Z2Nat.id in H by lia.
  assert (Hin : In (Z.to_nat n) (seq 0 256)) by (apply in_seq; lia).
  specialize (H Hin). cbv zeta in H.
  apply andb_true_iff in H as [H H4]. apply andb_true_iff in H as [H H3].
  apply andb_true_iff in H as [H1 H2].
  apply Z.eqb_eq in H2. apply String.eqb_eq in H3. apply Nat.leb_le in H4.
  auto.
Qed.

Lemma index_from_app (pat pre s : string) (k : nat) :
  String.index (String.length pre + k) pat (String.append pre s)
  = option_map (Nat.add (String.length pre)) (String.index k pat s).
Proof.
  induction pre as [|a pre IH].
  - cbn. destruct (String.index k pat s); reflexivity.
  - cbn [String.length String.append Nat.add String.index].
    rewrite IH. destruct (String.index k pat s); reflexivity.
Qed.

Lemma find_app (pre s pat : string) (k : Z) :
  (0 <= k)%Z ->
  indexOf_string_from (String.append pre s) pat
    (Z.of_nat (String.length pre) + k)
  = shift (String.length pre) (indexOf_string_from s pat k).
Proof.
  intros Hk. unfold indexOf_string_from, shift.
  replace (Z.to_nat (Z.of_nat (String.length pre) + k))
    with (String.length pre + Z.to_nat k)%nat by lia.
  rewrite index_from_app.
  destruct (String.index (Z.to_nat k) pat s) as [i|]; cbn [option_map].
  - destruct (Z.ltb_spec (Z.of_nat i) 0); lia.
  - reflexivity.
Qed.

Lemma index_skip_run (p0 : ascii) (prest d rest : string) :
  all_chars (fun c => negb (Ascii.eqb c p0)) d = true ->
  String.index 0 (String p0 prest) (String.append d rest)
  = option_map (Nat.add (String.length d))
      (String.index 0 (String p0 prest) rest).
Proof.
  induction d as [|a d IH]; intros H.
  - cbn [String.append String.length].
    destruct (String.index 0 (String p0 prest) rest); reflexivity.
  - cbn [all_chars] in H. apply andb_true_iff in H as [Ha Hd].
    cbn [String.append String.length String.index String.prefix].
    destruct (ascii_dec p0 a) as [->|_];
      [rewrite Ascii.eqb_refl in Ha; discriminate Ha|].
    rewrite (IH Hd).
    destruct (String.index 0 (String p0 prest) rest); reflexivity.
Qed.

Lemma digits_avoid (p0 : ascii) (d : string) :
  isdigit p0 = false -> all_chars isdigit d = true ->
  all_chars (fun c => negb (Ascii.eqb c p0)) d = true.
Proof.
  intros Hp. induction d as [|a d IH]; intros H; [reflexivity|].
  cbn [all_chars] in *. apply andb_true_iff in H as [Ha Hd].
  rewrite (IH Hd), andb_true_r.
  destruct (Ascii.eqb_spec a p0) as [->|]; [congruence | reflexivity].
Qed.

Lemma find_skip_digits (p0 : ascii) (prest d rest : string) :
  isdigit p0 = false -> all_chars isdigit d = true ->
  indexOf_string_from (String.append d rest) (String p0 prest) 0
  = shift (String.length d) (indexOf_string_from rest (String p0 prest) 0).
Proof.
  intros Hp Hd. unfold indexOf_string_from, shift.
  change (Z.to_nat 0) with 0%nat.
  rewrite (index_skip_run p0 prest d rest (digits_avoid p0 d Hp Hd)).
  destruct (String.index 0 (String p0 prest) rest) as [i|]; cbn [option_map].
  - destruct (Z.ltb_spec (Z.of_nat i) 0); lia.
  - reflexivity.
Qed.

Lemma index_skip_pre (pat pre rest : string) :
  forall k : nat,
    (k <= String.length pre)%nat ->
    (forall i, (k <= i < String.length pre)%nat ->
               String.prefix pat (drop i (String.append pre rest)) = false) ->
    String.index k pat (String.append pre rest)
    = option_map (Nat.add (String.length pre)) (String.index 0 pat rest).
Proof.
  induction pre as [|a pre IH]; intros k Hk H.
  - cbn in Hk. replace k with 0%nat by lia. cbn.
    destruct (String.index 0 pat rest); reflexivity.
  - cbn [String.append String.length] in *.
    destruct k as [|k]; cbn [String.index].
    + assert (H0 : String.prefix pat (String a (String.append pre rest))
                   = false) by (apply (H 0%nat); lia).
      rewrite H0.
      rewrite (IH 0%nat); [|lia|].
      * destruct (String.index 0 pat rest); reflexivity.
      * intros i Hi. apply (H (S i)). lia.
    + rewrite (IH k); [|lia|].
      * destruct (String.index 0 pat rest); reflexivity.
      * intros i Hi. apply (H (S i)). lia.
Qed.

Lemma find_skip_pre (pat pre rest : string) (k : nat) :
  (k <= String.length pre)%nat ->
  (forall i, (k <= i < String.length pre)%nat ->
             String.prefix pat (drop i (String.append pre rest)) = false) ->
  indexOf_string_from (String.append pre rest) pat (Z.of_nat k)
  = shift (String.length pre) (indexOf_string_from rest pat 0).
Proof.
  intros Hk H. unfold indexOf_string_from, shift.
  rewrite Nat2Z.id. change (Z.to_nat 0) with 0%nat.
  rewrite (index_skip_pre pat pre rest k Hk H).
  destruct (String.index 0 pat rest) as [i|]; cbn [option_map].
  - destruct (Z.ltb_spec (Z.of_nat i) 0); lia.
  - reflexivity.
Qed.

Lemma append_assoc (a b c : string) :
  String.append (String.append a b) c = String.append a (String.append b c).
Proof. induction a as [|x a IH]; cbn; [reflexivity | rewrite IH; reflexivity]. Qed.

Lemma substring_middle (pre d rest : string) :
  String.substring (String.length pre) (String.length d)
    (String.append pre (String.append d rest)) = d.
Proof.
  induction pre as [|a pre IH]; cbn [String.length String.append String.substring].
  - induction d as [|b d IHd]; cbn [String.length String.append String.substring].
    + destruct rest; reflexivity.
    + rewrite IHd. reflexivity.
  - exact IH.
Qed.

Lemma substring_value (pre d rest : string) :
  substring (String.append pre (String.append d rest))
    (Z.of_nat (String.length pre))
    (Z.of_nat (String.length pre) + Z.of_nat (String.length d)) = d.
Proof.
  unfold substring.
  destruct (Z.ltb_spec (Z.of_nat (String.length pre) + Z.of_nat (String.length d))
              (Z.of_nat (String.length pre))) as [|_]; [lia|].
  rewrite !append_length, !Nat2Z.inj_add.
  destruct (Z.leb_spec (Z.of_nat (String.length pre)
                        + (Z.of_nat (String.length d)
                           + Z.of_nat (String.length rest)))
              (Z.of_nat (String.length pre))) as [Hle|_].
  - assert (String.length d = 0)%nat as Hd by lia.
    destruct d; [reflexivity | discriminate Hd].
  - rewrite Z.min_l by lia.
    replace (Z.to_nat (Z.of_nat (String.length pre) + Z.of_nat (String.length d)
                       - Z.of_nat (String.length pre)))
      with (String.length d) by lia.
    rewrite Nat2Z.id. apply substring_middle.
Qed.


Ltac no_match :=
  let i := fresh "i" in
  let Hi := fresh "Hi" in
  intros i Hi; vm_compute in Hi;
  do 70 (destruct i as [|i]; [first [lia | vm_compute; reflexivity]|]);
  lia.

Lemma head_length : String.length settings_head = 14%nat.
Proof. reflexivity. Qed.

Lemma head_brightness (X : string) :
  indexOf_string_from (String.append settings_head X)
    (Settings.key "brightness") 0 = 1%Z.
Proof. destruct X; vm_compute; reflexivity. Qed.

Lemma head_colon (X : string) :
  indexOf_from (String.append settings_head X) ":" 1 = 13%Z.
Proof. destruct X; vm_compute; reflexivity. Qed.

(** A key other than the first one is not found in the head. *)
Lemma head_skip (name X : string) :
  name = "windEnabled" \/ name = "thunderstormsEnabled"
  \/ name = "windThreshold" ->
  indexOf_string_from (String.append settings_head X) (Settings.key name) 0
  = shift 14 (indexOf_string_from X (Settings.key name) 0).
Proof.
  intros H. change 0%Z with (Z.of_nat 0) at 1.
  rewrite find_skip_pre; [reflexivity | vm_compute; lia |].
  destruct H as [->|[->| ->]]; no_match.
Qed.

Lemma middle_comma (w t : bool) (Y : string) :
  indexOf_string_from (String.append (settings_middle w t) Y) "," 0 = 0%Z.
Proof. destruct w, t; vm_compute; reflexivity. Qed.

Lemma middle_windEnabled (w t : bool) (Y : string) :
  indexOf_string_from (String.append (settings_middle w t) Y)
    (Settings.key "windEnabled") 0 = 1%Z.
Proof. destruct w, t; vm_compute; reflexivity. Qed.

Lemma middle_thunderstormsEnabled (w t : bool) (Y : string) :
  indexOf_string_from (String.append (settings_middle w t) Y)
    (Settings.key "thunderstormsEnabled") 0 = (if w then 20 else 21)%Z.
Proof. destruct w, t; vm_compute; reflexivity. Qed.

Lemma middle_windThreshold (w t : bool) (Y : string) :
  indexOf_string_from (String.append (settings_middle w t) Y)
    (Settings.key "windThreshold") 0
  = (Z.of_nat (String.length (settings_middle w t)) - 16)%Z.
Proof. destruct w, t, Y; vm_compute; reflexivity. Qed.

Lemma middle_colon (w t : bool) (Y : string) :
  indexOf_from (String.append (settings_middle w t) Y) ":"
    (Z.of_nat (String.length (settings_middle w t)) - 16)
  = (Z.of_nat (String.length (settings_middle w t)) - 1)%Z.
Proof. destruct w, t, Y; vm_compute; reflexivity. Qed.

Lemma tail_true (dT : string) :
  all_chars isdigit dT = true ->
  indexOf_string_from (String.append dT "}") "true" 0 = (-1)%Z.
Proof.
  intros H. rewrite find_skip_digits by (reflexivity || exact H).
  vm_compute. reflexivity.
Qed.

(** Where "true" is found from the key of each flag on. *)
Lemma middle_true_wind (w t : bool) (dT : string) :
  all_chars isdigit dT = true ->
  indexOf_string_from
    (String.append (settings_middle w t) (String.append dT "}")) "true" 1
  = (if w then 15 else if t then 44 else -1)%Z.
Proof.
  intros Hd. destruct w, t; try (vm_compute; reflexivity).
  change 1%Z with (Z.of_nat 1).
  rewrite find_skip_pre; [|vm_compute; lia|no_match].
  rewrite (tail_true dT Hd). reflexivity.
Qed.

Lemma middle_true_storm (w t : bool) (dT : string) :
  all_chars isdigit dT = true ->
  indexOf_string_from
    (String.append (settings_middle w t) (String.append dT "}")) "true"
    (if w then 20 else 21)
  = (if t then (if w then 43 else 44) else -1)%Z.
Proof.
  intros Hd. destruct w, t; try (vm_compute; reflexivity).
  - change 20%Z with (Z.of_nat 20).
    rewrite find_skip_pre; [|vm_compute; lia|no_match].
    rewrite (tail_true dT Hd). reflexivity.
  - change 21%Z with (Z.of_nat 21).
    rewrite find_skip_pre; [|vm_compute; lia|no_match].
    rewrite (tail_true dT Hd). reflexivity.
Qed.

(** The separator after a run of digits. *)
Lemma value_end (d rest : string) (c : ascii) :
  all_chars isdigit d = true -> isdigit c = false ->
  indexOf_from (String.append d rest) c 0
  = shift (String.length d) (indexOf_from rest c 0).
Proof.
  intros Hd Hc.
  change (indexOf_from (String.append d rest) c 0)
    with (indexOf_string_from (String.append d rest) (String c "") 0).
  rewrite find_skip_digits by assumption. reflexivity.
Qed.

Lemma indexOf_from_app (pre s : string) (c : ascii) (k : Z) :
  (0 <= k)%Z ->
  indexOf_from (String.append pre s) c (Z.of_nat (String.length pre) + k)
  = shift (String.length pre) (indexOf_from s c k).
Proof. intros Hk. apply (find_app pre s (String c "") k Hk). Qed.

(** The number read after a key: the digits between the colon and the
    next comma, or the closing brace when no comma follows. *)
Lemma read_value_digits (pre d rest : string) (idx lo hi : Z) :
  indexOf_from (String.append pre (String.append d rest)) ":" idx
  = (Z.of_nat (String.length pre) - 1)%Z ->
  all_chars isdigit d = true -> trim d = d ->
  (Z.of_nat (String.length pre) + Z.of_nat (String.length d) < 2 ^ 32)%Z ->
  indexOf_from rest "," 0 = 0%Z
  \/ (indexOf_from rest "," 0 = (-1)%Z /\ indexOf_from rest "}" 0 = 0%Z) ->
  Settings.read_value (String.append pre (String.append d rest)) idx lo hi
  = constrain (toInt d) lo hi.
Proof.
  intros Hcolon Hd Htrim Hsmall Hsep. unfold Settings.read_value.
  rewrite Hcolon. cbv zeta.
  replace (Z.of_nat (String.length pre) - 1 + 1)%Z
    with (Z.of_nat (String.length pre) + 0)%Z by lia.
  rewrite !indexOf_from_app by lia.
  rewrite !value_end by (reflexivity || assumption).
  assert (Hend : (if (shift (String.length pre)
                        (shift (String.length d) (indexOf_from rest "," 0))
                      <? 0)%Z
                  then shift (String.length pre)
                         (shift (String.length d) (indexOf_from rest "}" 0))
                  else shift (String.length pre)
                         (shift (String.length d) (indexOf_from rest "," 0)))
                 = (Z.of_nat (String.length pre)
                    + Z.of_nat (String.length d))%Z).
  { destruct Hsep as [-> | [-> ->]]; unfold shift; cbn [Z.ltb Z.compare].
    - destruct (Z.ltb_spec (Z.of_nat (String.length d) + 0) 0); [lia|].
      destruct (Z.ltb_spec (Z.of_nat (String.length pre)
                            + (Z.of_nat (String.length d) + 0)) 0); lia.
    - destruct (Z.ltb_spec (Z.of_nat (String.length d) + 0) 0); [lia|].
      destruct (Z.ltb_spec (Z.of_nat (String.length pre)
                            + (Z.of_nat (String.length d) + 0)) 0); lia. }
  rewrite Hend. unfold Settings.unsigned.
  rewrite Z.mod_small by lia.
  rewrite Z.add_0_r, substring_value, Htrim. reflexivity.
Qed.


Lemma middle_length (w t : bool) :
  (16 <= Z.of_nat (String.length (settings_middle w t)) <= 70)%Z.
Proof. destruct w, t; vm_compute; split; discriminate. Qed.

Lemma shift_pos (n : nat) (r : Z) :
  (0 <= r)%Z -> shift n r = (Z.of_nat n + r)%Z.
Proof. intros H. unfold shift. destruct (Z.ltb_spec r 0); lia. Qed.

Lemma shift_shift (a b : nat) (r : Z) :
  (0 <= r)%Z -> shift a (shift b r) = (Z.of_nat a + (Z.of_nat b + r))%Z.
Proof. intros H. rewrite (shift_pos b r H). apply shift_pos. lia. Qed.

Lemma shift_none (a b : nat) : shift a (shift b (-1)) = (-1)%Z.
Proof. reflexivity. Qed.

(** Loading a file of the shape that [saveSettings] writes. *)
Lemma load_text (dB dT : string) (w t : bool) (prefs : option bool) :
  all_chars isdigit dB = true -> trim dB = dB ->
  (String.length dB <= 3)%nat ->
  all_chars isdigit dT = true -> trim dT = dT ->
  (String.length dT <= 3)%nat ->
  Settings.loadSettings
    (Some (String.append settings_head
             (String.append dB
                (String.append (settings_middle w t)
                   (String.append dT "}"))))) prefs
  = Settings.mk (default true prefs) (constrain (toInt dB) 0 255) w t
      (constrain (toInt dT) 5 100).
Proof.
  intros HB TB LB HT TT LT.
  pose proof (middle_length w t) as Lm.
  set (R := String.append (settings_middle w t) (String.append dT "}")).
  set (content := String.append settings_head (String.append dB R)).
  assert (Ekey : forall name,
            name = "windEnabled" \/ name = "thunderstormsEnabled"
            \/ name = "windThreshold" ->
            indexOf_string_from content (Settings.key name) 0
            = shift 14 (shift (String.length dB)
                          (indexOf_string_from R (Settings.key name) 0))).
  { intros name Hn. unfold content. rewrite (head_skip name _ Hn).
    unfold Settings.key at 1.
    rewrite find_skip_digits by (reflexivity || assumption). reflexivity. }
  assert (Efrom : forall pat k, (0 <= k)%Z ->
            indexOf_string_from content pat
              (14 + (Z.of_nat (String.length dB) + k))
            = shift 14 (shift (String.length dB)
                          (indexOf_string_from R pat k))).
  { intros pat k Hk. unfold content.
    change 14%Z with (Z.of_nat (String.length settings_head)).
    rewrite find_app by lia. rewrite find_app by lia. reflexivity. }
  unfold Settings.loadSettings. fold content. cbv zeta.
  (* brightness *)
  assert (Eb : indexOf_string_from content (Settings.key "brightness") 0
               = 1%Z) by apply head_brightness.
  rewrite Eb. change (0 <=? 1)%Z with true. cbv iota.
  assert (Vb : Settings.read_value content 1 0 255
               = constrain (toInt dB) 0 255).
  { unfold content. apply read_value_digits; try assumption.
    - apply head_colon.
    - rewrite head_length. lia.
    - left. exact (middle_comma w t (String.append dT "}")). }
  rewrite Vb.
  (* wind flag *)
  assert (Ew : indexOf_string_from content (Settings.key "windEnabled") 0
               = (14 + (Z.of_nat (String.length dB) + 1))%Z).
  { rewrite Ekey by tauto. unfold R. rewrite middle_windEnabled.
    rewrite shift_shift by lia. reflexivity. }
  rewrite Ew.
  assert (Fw : Settings.read_flag content
                 (14 + (Z.of_nat (String.length dB) + 1)) 20 = w).
  { unfold Settings.read_flag. rewrite Efrom by lia.
    unfold R. rewrite (middle_true_wind w t dT HT).
    destruct w; [|destruct t]; rewrite ?shift_none, ?shift_shift by lia.
    - apply andb_true_iff. split; apply Z.ltb_lt; lia.
    - apply andb_false_iff. right. apply Z.ltb_ge. lia.
    - apply andb_false_iff. left. apply Z.ltb_ge. lia. }
  rewrite Fw.
  (* thunderstorm flag *)
  assert (Et : indexOf_string_from content
                 (Settings.key "thunderstormsEnabled") 0
               = (14 + (Z.of_nat (String.length dB)
                        + (if w then 20 else 21)))%Z).
  { rewrite Ekey by tauto. unfold R. rewrite middle_thunderstormsEnabled.
    rewrite shift_shift by (destruct w; lia). reflexivity. }
  rewrite Et.
  assert (Ft : Settings.read_flag content
                 (14 + (Z.of_nat (String.length dB)
                        + (if w then 20 else 21))) 30 = t).
  { unfold Settings.read_flag. rewrite Efrom by (destruct w; lia).
    unfold R. rewrite (middle_true_storm w t dT HT).
    destruct t; rewrite ?shift_none, ?shift_shift by (destruct w; lia).
    - apply andb_true_iff. split; apply Z.ltb_lt; destruct w; lia.
    - apply andb_false_iff. left. apply Z.ltb_ge. destruct w; lia. }
  rewrite Ft.
  (* threshold *)
  assert (Eh : indexOf_string_from content (Settings.key "windThreshold") 0
               = (14 + (Z.of_nat (String.length dB)
                        + (Z.of_nat (String.length (settings_middle w t))
                           - 16)))%Z).
  { rewrite Ekey by tauto. unfold R. rewrite middle_windThreshold.
    rewrite shift_shift by lia. reflexivity. }
  rewrite Eh.
  assert (Vh : Settings.read_value content
                 (14 + (Z.of_nat (String.length dB)
                        + (Z.of_nat (String.length (settings_middle w t))
                           - 16))) 5 100
               = constrain (toInt dT) 5 100).
  { assert (Ec : content
                 = String.append
                     (String.append settings_head
                        (String.append dB (settings_middle w t)))
                     (String.append dT "}"))
      by (unfold content, R; rewrite !append_assoc; reflexivity).
    assert (Ecolon : indexOf_from content ":"
                       (14 + (Z.of_nat (String.length dB)
                              + (Z.of_nat (String.length (settings_middle w t))
                                 - 16)))
                     = (14 + (Z.of_nat (String.length dB)
                              + (Z.of_nat (String.length (settings_middle w t))
                                 - 1)))%Z).
    { change (indexOf_from content ":" ?k)
        with (indexOf_string_from content ":" k).
      rewrite Efrom by lia. unfold R.
      change (indexOf_string_from ?s ":" ?k) with (indexOf_from s ":" k).
      rewrite middle_colon. rewrite shift_shift by lia. reflexivity. }
    revert Ecolon. rewrite Ec. intros Ecolon.
    apply read_value_digits; try assumption.
    - rewrite Ecolon, !append_length, head_length. lia.
    - rewrite !append_length, head_length. lia.
    - right. split; reflexivity. }
  rewrite Vh.
  assert (G : forall k, (0 <= k)%Z ->
            (0 <=? 14 + (Z.of_nat (String.length dB) + k))%Z = true)
    by (intros k Hk; apply Z.leb_le; lia).
  rewrite !G by (try destruct w; lia). reflexivity.
Qed.


Lemma loadSettings_settings_text (s : Settings.t) (prefs : option bool) :
  settings_ok s ->
  Settings.loadSettings (Some (Settings.settings_text s)) prefs
  = Settings.mk (default true prefs) (Settings.ledBrightness s)
      (Settings.windCheckEnabled s) (Settings.thunderstormsCheckEnabled s)
      (Settings.windCheckThreshold s).
Proof.
  intros [HB HT].
  destruct (printNumber_uint8 (Settings.ledBrightness s) HB)
    as (B1 & B2 & B3 & B4).
  destruct (printNumber_uint8 (Settings.windCheckThreshold s))
    as (T1 & T2 & T3 & T4); [lia|].
  assert (E : Settings.settings_text s
              = String.append settings_head
                  (String.append (printNumber (Settings.ledBrightness s))
                     (String.append
                        (settings_middle (Settings.windCheckEnabled s)
                           (Settings.thunderstormsCheckEnabled s))
                        (String.append
                           (printNumber (Settings.windCheckThreshold s))
                           "}")))).
  { unfold Settings.settings_text, settings_head, settings_middle.
    rewrite !append_assoc. reflexivity. }
  rewrite E, load_text by assumption.
  rewrite B2, T2, !constrain_inside by lia. reflexivity.
Qed.

Lemma settings_ok_update (s : Settings.t) (b t : Z) (p w ts : bool) :
  settings_ok s ->
  settings_ok
    (Settings.mk p (constrain (Settings.uint8 b) 0 255) w ts
       (Settings.windCheckThreshold s))
  /\ settings_ok
       (Settings.mk p (Settings.ledBrightness s) w ts
          (constrain (Settings.uint8 t) 5 100))
  /\ settings_ok
       (Settings.mk p (Settings.ledBrightness s) w ts
          (Settings.windCheckThreshold s)).
Proof.
  intros [HB HT]. unfold settings_ok. cbn.
  pose proof (constrain_range (Settings.uint8 b) 0 255).
  pose proof (constrain_range (Settings.uint8 t) 5 100).
  repeat split; lia.
Qed.

(** X13.  Whatever the settings file holds, [loadSettings] yields a
    brightness between 0 and 255 and a wind threshold between 5 and 100.
    Without a file it yields the defaults (brightness 30, threshold 25,
    both overlays enabled) with the display on, whatever the stored
    display preference is; with a file the display state is the stored
    preference, on when there is none. *)
Theorem loadSettings_in_range (file : option string) (prefs : option bool) :
  settings_ok (Settings.loadSettings file prefs)
  /\ (file = None ->
      Settings.loadSettings file prefs = Settings.mk true 30 true true 25)
  /\ (file <> None ->
      Settings.ledPowerState (Settings.loadSettings file prefs)
      = default true prefs).
Proof.
  split; [|split].
  - destruct file as [content|]; unfold Settings.loadSettings, settings_ok.
    + cbn [Settings.ledBrightness Settings.windCheckThreshold].
      assert (Hr : forall (b : bool) i lo hi d,
                (lo <= d <= hi)%Z ->
                (lo <= (if b then Settings.read_value content i lo hi else d)
                 <= hi)%Z).
      { intros b i lo hi d Hd. destruct b; [|exact Hd].
        unfold Settings.read_value. apply constrain_range. lia. }
      split; apply Hr; vm_compute; split; discriminate.
    + vm_compute. repeat split; discriminate.
  - intros ->. reflexivity.
  - intros H. destruct file; [reflexivity | congruence].
Qed.

(** X14.  Saved settings survive a restart: when the brightness is
    between 0 and 255 and the threshold between 5 and 100, loading the
    file that [saveSettings] wrote gives back the same brightness, flags
    and threshold. *)
Theorem settings_round_trip (s : Settings.t) (file : option string)
    (prefs : option bool) :
  settings_ok s ->
  Settings.loadSettings (Settings.saveSettings true s file) prefs
  = Settings.mk (default true prefs) (Settings.ledBrightness s)
      (Settings.windCheckEnabled s) (Settings.thunderstormsCheckEnabled s)
      (Settings.windCheckThreshold s).
Proof.
  intros H. unfold Settings.saveSettings.
  apply loadSettings_settings_text. exact H.
Qed.

Lemma settings_round_trip_witness :
  settings_ok example_settings
  /\ Settings.loadSettings (Settings.saveSettings true example_settings None)
       (Some true) = example_settings.
Proof.
  assert (H : settings_ok example_settings)
    by (unfold settings_ok; cbn; lia).
  split; [exact H|].
  exact (settings_round_trip example_settings None (Some true) H).
Defined.



End SettingsFacts.

(** ** The update schedule and the button *)

Section Schedule.
Import CLib WeatherAPIClient LEDColors LEDController.

Lemma fetch_failure_same (freeHeap : Z) (response : METAR_STATUS * string)
    (airports : list AirportLED) :
  (fetchWeatherData freeHeap response airports).1 <> SUCCESS ->
  (fetchWeatherData freeHeap response airports).2 = airports.
Proof.
  unfold fetchWeatherData.
  destruct (freeHeap <? MIN_HEAP_FOR_OPERATION)%Z; [reflexivity|].
  destruct response as [status rawData].
  destruct (negb (METAR_STATUS_eqb status SUCCESS)); [reflexivity|].
  rewrite parseWeatherData_fold. cbn [fst snd].
  destruct (foldl_merge_count (observations rawData) (airports, 0%Z))
    as (Hle & Hsame & _). cbn [fst snd] in *.
  destruct (Z.ltb_spec 0 (foldl merge_metar (airports, 0%Z)
                            (observations rawData)).2) as [Hpos|Hneg];
    [contradiction|].
  intros _. rewrite Hsame; [reflexivity|]. lia.
Qed.

Lemma METAR_STATUS_eqb_eq (a b : METAR_STATUS) :
  METAR_STATUS_eqb a b = true <-> a = b.
Proof. destruct a, b; cbn; split; congruence. Qed.

(** X16.  [handleWeatherUpdates] does nothing until [interval]
    milliseconds have passed since [previousMillis] (in 32-bit clock
    arithmetic).  Then, unless the memory check restarts the device, it
    records the time and schedules the next attempt: after 900000 ms when
    WiFi is connected and the fetch succeeded, after 15000 ms otherwise.
    On success the slots are those of the fetch, the fetch status is
    [SUCCESS] and the resting colours are computed from the new slots.
    Otherwise the slots are as before, every LED is dark and [baseColors]
    is kept; without WiFi the status of the last fetch is kept too. *)
Theorem handleWeatherUpdates_schedule (currentMillis : Z) (connected : bool)
    (attemptTime fetchTime : option string) (heapAtCheck heapAtFetch : Z)
    (response : METAR_STATUS * string) (G : Sketch.Globals) :
  let r :=
    Sketch.handleWeatherUpdates currentMillis connected attemptTime
      fetchTime heapAtCheck heapAtFetch response G in
  let fetched :=
    fetchWeatherData heapAtFetch response (Sketch.airportLEDs G) in
  ((elapsed currentMillis (Sketch.previousMillis G) < Sketch.interval G)%Z ->
   r = Some G)
  /\ ((Sketch.interval G <= elapsed currentMillis (Sketch.previousMillis G))%Z ->
      (r = None <->
       connected = true /\ (heapAtCheck < Sketch.CRITICAL_MEMORY_THRESHOLD)%Z)
      /\ forall G', r = Some G' ->
           Sketch.previousMillis G' = currentMillis
           /\ (Sketch.interval G' = 900000%Z <->
               connected = true /\ fetched.1 = SUCCESS)
           /\ (Sketch.interval G' <> 900000%Z ->
               Sketch.interval G' = 15000%Z
               /\ Sketch.airportLEDs G' = Sketch.airportLEDs G
               /\ leds (Sketch.ledController G')
                  = replicate (numLeds (Sketch.ledController G)) OFF
               /\ baseColors (Sketch.ledController G')
                  = baseColors (Sketch.ledController G))
           /\ (Sketch.interval G' = 900000%Z ->
               lastFetchStatus (Sketch.g_state G') = SUCCESS
               /\ Sketch.airportLEDs G' = fetched.2
               /\ Sketch.ledController G'
                  = updateFromAirports (Sketch.g_state G')
                      (Sketch.airportLEDs G') (Sketch.ledController G))
           /\ (connected = false -> Sketch.g_state G' = Sketch.g_state G)
           /\ (connected = true ->
               lastFetchStatus (Sketch.g_state G') = fetched.1)
           /\ Sketch.ledsEnabledPref G' = Sketch.ledsEnabledPref G).
Proof.
  cbv zeta. unfold Sketch.handleWeatherUpdates.
  split.
  { intros Hearly.
    destruct (Z.ltb_spec (elapsed currentMillis (Sketch.previousMillis G))
                (Sketch.interval G)); [reflexivity | lia]. }
  intros Hdue.
  destruct (Z.ltb_spec (elapsed currentMillis (Sketch.previousMillis G))
              (Sketch.interval G)) as [|_]; [lia|].
  destruct connected; cbn [negb].
  - destruct (Z.ltb_spec heapAtCheck Sketch.CRITICAL_MEMORY_THRESHOLD)
      as [Hlow|Hok].
    { split; [split; auto|]. intros G' [=]. }
    split; [split; [|intros [_ ?]; lia]|].
    { destruct (fetchWeatherData heapAtFetch response (Sketch.airportLEDs G))
        as [result airports].
      destruct (METAR_STATUS_eqb result SUCCESS); discriminate. }
    pose proof (fetch_failure_same heapAtFetch response
                  (Sketch.airportLEDs G)) as Hsame.
    destruct (fetchWeatherData heapAtFetch response (Sketch.airportLEDs G))
      as [result airports].
    cbn [fst snd] in *.
    destruct (METAR_STATUS_eqb result SUCCESS) eqn:E; intros G' [= <-];
      cbn [Sketch.previousMillis Sketch.interval Sketch.airportLEDs
           Sketch.ledController Sketch.g_state Sketch.ledsEnabledPref
           Sketch.setFetchStatus lastFetchStatus].
    + apply METAR_STATUS_eqb_eq in E. subst result.
      unfold Sketch.REQUEST_INTERVAL.
      repeat split; auto; try congruence; try discriminate.
    + assert (Hne : result <> SUCCESS)
        by (intros ->; discriminate E).
      unfold Sketch.RETRY_TIMEOUT.
      repeat split; auto; try congruence; try discriminate;
        try (intros [_ ?]; contradiction).
  - split; [split; [discriminate | intros [? _]; discriminate]|].
    intros G' [= <-].
    cbn [Sketch.previousMillis Sketch.interval Sketch.airportLEDs
         Sketch.ledController Sketch.g_state Sketch.ledsEnabledPref
         Sketch.setStatus].
    unfold Sketch.RETRY_TIMEOUT.
    repeat split; auto; try congruence; try discriminate;
      try (intros [? _]; discriminate).
Qed.

End Schedule.

Section Button.
Import CLib LEDController.

(** X17.  The button, from rest: a poll with the button up changes
    nothing, and the first poll with the button down records the time.
    While it is held, polls less than 7000 ms after that time change
    nothing, and a poll from 7000 ms on removes the WiFi credentials and
    restarts the device.  A release less than 7000 ms after the press
    inverts the display state and stores it as the preference, leaving
    everything else as it was; a later release changes nothing but the
    button.  Two short presses bring the display state back. *)
Theorem handleButtonPress_press (b : Sketch.Button) (G : Sketch.Globals)
    (t0 : Z) :
  Sketch.buttonWasPressed b = false ->
  let toggled := Sketch.setLEDState (negb (ledPowerState (Sketch.g_state G))) G in
  let released :=
    {| Sketch.pressStartTime := t0; Sketch.buttonWasPressed := false;
       Sketch.longPressHandled := false |} in
  Sketch.handleButtonPress false t0 (b, G) = Some (b, G)
  /\ Sketch.handleButtonPress true t0 (b, G) = Some (button_held t0, G)
  /\ (forall t, (elapsed t t0 < 7000)%Z ->
        Sketch.handleButtonPress true t (button_held t0, G)
        = Some (button_held t0, G)
        /\ Sketch.handleButtonPress false t (button_held t0, G)
           = Some (released, toggled))
  /\ (forall t, (7000 <= elapsed t t0)%Z ->
        Sketch.handleButtonPress true t (button_held t0, G) = None
        /\ Sketch.handleButtonPress false t (button_held t0, G)
           = Some (released, G))
  /\ (ledPowerState (Sketch.g_state toggled)
      = negb (ledPowerState (Sketch.g_state G))
      /\ Sketch.ledsEnabledPref toggled
         = Some (negb (ledPowerState (Sketch.g_state G)))
      /\ Sketch.airportLEDs toggled = Sketch.airportLEDs G
      /\ Sketch.ledController toggled = Sketch.ledController G
      /\ Sketch.interval toggled = Sketch.interval G
      /\ Sketch.previousMillis toggled = Sketch.previousMillis G)
  /\ Sketch.g_state
       (Sketch.setLEDState (negb (ledPowerState (Sketch.g_state toggled)))
          toggled)
     = Sketch.g_state G.
Proof.
  intros Hrest. cbv zeta. unfold Sketch.handleButtonPress, button_held.
  rewrite Hrest.
  cbn [andb negb Sketch.buttonWasPressed Sketch.pressStartTime
       Sketch.longPressHandled].
  unfold Sketch.BUTTON_LONG_PRESS_DURATION.
  split; [reflexivity|]. split; [reflexivity|].
  split; [|split; [|split]].
  - intros t Ht.
    destruct (Z.leb_spec 7000 (elapsed t t0)); [lia|].
    destruct (Z.ltb_spec (elapsed t t0) 7000); [|lia].
    split; reflexivity.
  - intros t Ht.
    destruct (Z.leb_spec 7000 (elapsed t t0)); [|lia].
    destruct (Z.ltb_spec (elapsed t t0) 7000); [lia|].
    split; reflexivity.
  - repeat split.
  - unfold Sketch.setLEDState. cbn [Sketch.g_state ledPowerState].
    rewrite negb_involutive.
    destruct (Sketch.g_state G); reflexivity.
Qed.

Lemma handleButtonPress_press_witness :
  Sketch.buttonWasPressed button_at_rest = false
  /\ (ledPowerState (Sketch.g_state example_globals) = true
      /\ exists G',
           Sketch.handleButtonPress false 1250
             (button_held 1000, example_globals)
           = Some ({| Sketch.pressStartTime := 1000;
                      Sketch.buttonWasPressed := false;
                      Sketch.longPressHandled := false |}, G')
           /\ ledPowerState (Sketch.g_state G') = false).
Proof.
  split; [reflexivity|]. split; [reflexivity|].
  destruct (handleButtonPress_press button_at_rest example_globals 1000
              eq_refl) as (_ & _ & Hshort & _).
  destruct (Hshort 1250%Z) as [_ Hrel]; [vm_compute; reflexivity|].
  eexists. split; [exact Hrel | reflexivity].
Defined.

(** X18.  [updateTime] keeps at most the first three characters of the
    text that [ctime] returns: the copy is bounded by the size of its
    [char*] parameter, four bytes on the ESP32, and not by the 32-byte
    buffer.  So after an update the fetch and attempt times show the
    weekday only. *)
Theorem updateTime_keeps_three (timeStr buffer : string) :
  (String.length (Sketch.updateTime (Some timeStr) buffer) <= 3)%nat
  /\ String.prefix (Sketch.updateTime (Some timeStr) buffer) timeStr = true
  /\ Sketch.updateTime (Some example_ctime) buffer = "Mon"
  /\ Sketch.updateTime None buffer = buffer
  /\ forall currentMillis fetchTime heapAtCheck heapAtFetch response G G',
       Sketch.handleWeatherUpdates currentMillis true (Some timeStr)
         fetchTime heapAtCheck heapAtFetch response G = Some G' ->
       G' <> G ->
       (String.length (Sketch.lastAttemptTime G') <= 3)%nat.
Proof.
  assert (Hcut : forall s, (String.length (Sketch.cut_at_newline s)
                            <= String.length s)%nat
                           /\ String.prefix (Sketch.cut_at_newline s) s = true).
  { induction s as [|c s [IH1 IH2]]; [split; reflexivity|].
    cbn [Sketch.cut_at_newline].
    destruct (Ascii.eqb c "010"); cbn [String.length String.prefix];
      [split; [lia | reflexivity]|].
    split; [lia|]. destruct (ascii_dec c c); [exact IH2 | congruence]. }
  assert (Hpre : forall n s, String.prefix (String.substring 0 n s) s = true).
  { induction n as [|n IH]; intros [|c s]; cbn; try reflexivity.
    destruct (ascii_dec c c); [apply IH | congruence]. }
  assert (Htrans : forall a b c, String.prefix a b = true ->
                                 String.prefix b c = true ->
                                 String.prefix a c = true).
  { induction a as [|x a IH]; intros [|y b] [|z c] H1 H2; cbn in *;
      try reflexivity; try discriminate.
    destruct (ascii_dec x y) as [->|]; [|discriminate].
    destruct (ascii_dec y z) as [->|]; [|discriminate].
    destruct (ascii_dec z z); [|congruence]. eapply IH; eassumption. }
  assert (Hlen : (String.length (Sketch.updateTime (Some timeStr) buffer)
                  <= 3)%nat).
  { unfold Sketch.updateTime, safeCopy, Sketch.POINTER_SIZE.
    destruct (Hcut (String.substring 0 (4 - 1) timeStr)) as [H _].
    assert (Hsub : forall n s, (String.length (String.substring 0 n s)
                                <= n)%nat).
    { induction n as [|n IH]; intros [|c s]; cbn; try lia.
      specialize (IH s). lia. }
    pose proof (Hsub (4 - 1)%nat timeStr) as H3.
    change (4 - 1)%nat with 3%nat in *. lia. }
  split; [exact Hlen|]. split.
  { unfold Sketch.updateTime, safeCopy.
    eapply Htrans; [apply Hcut | apply Hpre]. }
  split; [vm_compute; reflexivity|]. split; [reflexivity|].
  intros currentMillis fetchTime heapAtCheck heapAtFetch response G G' Hr Hne.
  unfold Sketch.handleWeatherUpdates in Hr.
  destruct (_ <? Sketch.interval G)%Z; [congruence|].
  cbn [negb] in Hr.
  destruct (heapAtCheck <? Sketch.CRITICAL_MEMORY_THRESHOLD)%Z;
    [discriminate Hr|].
  destruct (WeatherAPIClient.fetchWeatherData heapAtFetch response
              (Sketch.airportLEDs G)) as [result airports].
  destruct (METAR_STATUS_eqb result SUCCESS); injection Hr as <-;
    cbn [Sketch.lastAttemptTime]; exact Hlen.
Qed.

End Button.

(** ** The response of the weather service *)

Section Response.
Import CLib WeatherAPIClient.

Lemma rtrim_last (s : string) :
  rtrim s = ""
  \/ exists body c,
       rtrim s = String.append body (String c EmptyString)
       /\ isspace c = false.
Proof.
  induction s as [|a s IH]; [left; reflexivity|].
  cbn [rtrim]. destruct (rtrim s) as [|b r] eqn:E.
  - destruct (isspace a) eqn:Ha; [left; reflexivity|].
    right. exists "", a. split; [reflexivity | exact Ha].
  - right. destruct IH as [IH|(body & c & IH & Hc)]; [discriminate IH|].
    exists (String a body), c. split; [|exact Hc].
    cbn [String.append]. rewrite <- IH. reflexivity.
Qed.

Lemma append_last_inj (h b : string) (x y : ascii) :
  String.append h (String x EmptyString)
  = String.append b (String y EmptyString) -> x = y.
Proof.
  revert b. induction h as [|c h IH]; intros [|d b] H; cbn in H.
  - congruence.
  - destruct b; discriminate H.
  - destruct h; discriminate H.
  - injection H as _ H. exact (IH b H).
Qed.

(** A text is its lines that end in a line feed, then a rest without
    one. *)
Lemma split_last_line (s : string) :
  exists head tail,
    s = String.append head tail
    /\ contains newline tail = false
    /\ (head = ""
        \/ exists h, head = String.append h (String newline EmptyString)).
Proof.
  induction s as [|c s (head & tail & -> & Ht & Hh)].
  - exists "", "". auto.
  - destruct head as [|d head].
    + destruct (Ascii.eqb_spec c newline) as [->|Hc].
      * exists (String newline ""), tail. split; [reflexivity|].
        split; [exact Ht|]. right. exists "". reflexivity.
      * exists "", (String c tail). split; [reflexivity|].
        split; [|left; reflexivity].
        cbn [contains String.append]. cbn [String.append] in Ht.
        rewrite Ht, orb_false_r. apply Ascii.eqb_neq. exact Hc.
    + exists (String c (String d head)), tail. split; [reflexivity|].
      split; [exact Ht|]. right.
      destruct Hh as [Hh|[h Hh]]; [discriminate Hh|].
      exists (String c h). cbn [String.append]. rewrite Hh. reflexivity.
Qed.

Lemma trimmed_last_line (s : string) :
  trim s <> "" ->
  exists head tail,
    trim s = String.append head tail
    /\ tail <> ""
    /\ contains newline tail = false.
Proof.
  intros Hne.
  destruct (split_last_line (trim s)) as (head & tail & E & Ht & Hh).
  exists head, tail. split; [exact E|]. split; [|exact Ht].
  intros ->.
  destruct (rtrim_last (skip_ws s)) as [H0|(body & c & Hb & Hc)];
    [exact (Hne H0)|].
  fold (trim s) in Hb.
  destruct Hh as [->|[h ->]]; [apply Hne; rewrite E; reflexivity|].
  rewrite E in Hb.
  assert (Eh : String.append (String.append h (String newline "")) ""
               = String.append h (String newline "")).
  { clear. induction h as [|x h IH]; cbn; [reflexivity|].
    rewrite IH. reflexivity. }
  rewrite Eh in Hb. apply append_last_inj in Hb. subst c.
  discriminate Hc.
Qed.

Lemma fetchRawData_response_body (fullResponse : string) :
  (fetchRawData_response fullResponse).1 = SUCCESS
  \/ (fetchRawData_response fullResponse).1 = RESPONSE_FAILURE.
Proof.
  unfold fetchRawData_response.
  repeat match goal with
         | |- context [if ?b then _ else _] => destruct b
         end; cbn; auto.
Qed.

(** X19.  What [fetchRawData] makes of a response is either a failure
    or a body that is not empty and is trimmed, so that its last line
    never ends in a line feed.  [parseWeatherData] therefore never reads
    the last line of a body: the fetch gives the same result as parsing
    the body without it.  A body of one line stores nothing and the
    fetch does not succeed; of a body with two reports only the first is
    stored. *)
Theorem fetch_drops_last_line (fullResponse : string) (freeHeap : Z)
    (airports : list AirportLED) :
  let response := fetchRawData_response fullResponse in
  let fetched := fetchWeatherData freeHeap response airports in
  (response.1 <> SUCCESS ->
   response.1 = RESPONSE_FAILURE /\ fetched.1 <> SUCCESS
   /\ fetched.2 = airports)
  /\ (response.1 = SUCCESS ->
      exists head tail,
        response.2 = String.append head tail
        /\ tail <> ""
        /\ contains newline tail = false
        /\ ((MIN_HEAP_FOR_OPERATION <= freeHeap)%Z ->
            fetched = parseWeatherData head airports))
  /\ (contains newline response.2 = false ->
      fetched.1 <> SUCCESS /\ fetched.2 = airports)
  /\ (fetchWeatherData 10000 (fetchRawData_response one_report_response)
        example_slots).1 = PARSING_FAILURE
  /\ map hasValidData
       (fetchWeatherData 10000 (fetchRawData_response two_report_response)
          example_slots).2 = [true; false; false; false].
Proof.
  cbv zeta.
  set (response := fetchRawData_response fullResponse).
  assert (Hfail : response.1 <> SUCCESS ->
            (fetchWeatherData freeHeap response airports).1 <> SUCCESS
            /\ (fetchWeatherData freeHeap response airports).2 = airports).
  { intros Hne. unfold fetchWeatherData.
    destruct (freeHeap <? MIN_HEAP_FOR_OPERATION)%Z;
      [split; [discriminate | reflexivity]|].
    destruct response as [status rawData]. cbn [fst] in Hne.
    destruct status; [congruence | | | |];
      (split; [discriminate | reflexivity]). }
  assert (Hone : forall tail,
            contains newline tail = false ->
            parseWeatherData tail airports = (PARSING_FAILURE, airports)).
  { intros tail Ht. rewrite parseWeatherData_fold.
    change tail with (String.append "" tail).
    rewrite (observations_app "" tail Ht). reflexivity. }
  split; [|split; [|split; [|split; vm_compute; reflexivity]]].
  - intros Hne. split; [|exact (Hfail Hne)].
    destruct (fetchRawData_response_body fullResponse) as [H|H];
      [contradiction | exact H].
  - intros Hs.
    assert (Hbody : exists raw, response.2 = trim raw /\ trim raw <> "").
    { revert Hs. unfold response, fetchRawData_response.
      destruct (_ <? 0)%Z; [discriminate|]. cbv zeta.
      match goal with
      | |- context [if (?h <? 0)%Z then (RESPONSE_FAILURE, _) else _] =>
          destruct (h <? 0)%Z; [discriminate|]
      end.
      match goal with
      | |- context [trim ?raw] =>
          destruct (trim raw) as [|c r] eqn:E; [discriminate|];
          intros _; exists raw; rewrite E; split; [reflexivity | discriminate]
      end. }
    destruct Hbody as (raw & Eraw & Hne).
    destruct (trimmed_last_line raw Hne) as (head & tail & E & Ht & Hc).
    exists head, tail. rewrite Eraw. split; [exact E|].
    split; [exact Ht|]. split; [exact Hc|].
    intros Hheap. unfold fetchWeatherData.
    destruct (Z.ltb_spec freeHeap MIN_HEAP_FOR_OPERATION); [lia|].
    destruct response as [status rawData]. cbn [fst snd] in *. subst status.
    cbn [METAR_STATUS_eqb negb]. rewrite Eraw, E.
    rewrite !parseWeatherData_fold.
    rewrite (observations_app head tail Hc). reflexivity.
  - intros Hc.
    destruct (METAR_STATUS_eqb response.1 SUCCESS) eqn:Es.
    + unfold fetchWeatherData.
      destruct (freeHeap <? MIN_HEAP_FOR_OPERATION)%Z;
        [split; [discriminate | reflexivity]|].
      destruct response as [status rawData]. cbn [fst snd] in *.
      rewrite Es. cbn [negb]. rewrite (Hone rawData Hc).
      split; [discriminate | reflexivity].
    + apply Hfail. intros E. rewrite E in Es. discriminate Es.
Qed.

End Response.

(** ** The web pages *)

Section Pages.
Import CLib LEDController.

Lemma detailed_slots_spec (airports : list AirportLED) (page i : Z) :
  In i (WebServerHandler.detailed_slots airports page) <->
  ((WebServerHandler.detailed_page (Z.of_nat (length airports)) page).1.2
   <= i
   < (WebServerHandler.detailed_page (Z.of_nat (length airports)) page).2)%Z
  /\ exists a, airports !! Z.to_nat i = Some a
               /\ isEmpty a = false /\ hasValidData a = true.
Proof.
  unfold WebServerHandler.detailed_slots.
  destruct (WebServerHandler.detailed_page (Z.of_nat (length airports)) page)
    as [[[p total] s] e].
  cbn [fst snd]. rewrite filter_In, <- list_elem_of_In, elem_of_seqZ.
  split.
  - intros [Hr Hv]. split; [lia|].
    destruct (airports !! Z.to_nat i) as [a|]; [|discriminate Hv].
    apply andb_true_iff in Hv as [H1 H2]. apply negb_true_iff in H1.
    exists a. auto.
  - intros [Hr (a & -> & H1 & H2)]. split; [lia|].
    rewrite H1, H2. reflexivity.
Qed.

(** X20.  The detailed page, for at least one slot: there are
    ceil(n / 10) pages, a request below 0 shows page 0 and one beyond the
    last page shows the last page, and the page shown has between one and
    ten slots, all inside the registry.  Every slot with a code and a
    valid observation is printed on page i / 10 and on no other page. *)
Theorem detailed_page_window (airports : list AirportLED) (page : Z) :
  (0 < length airports)%nat ->
  let n := Z.of_nat (length airports) in
  let w := WebServerHandler.detailed_page n page in
  let shown := w.1.1.1 in
  let totalPages := w.1.1.2 in
  let startIdx := w.1.2 in
  let endIdx := w.2 in
  (totalPages = (n + 9) / 10
   /\ shown = Z.max 0 (Z.min page (totalPages - 1))
   /\ 0 <= shown < totalPages
   /\ startIdx = 10 * shown
   /\ 0 <= startIdx < endIdx /\ endIdx <= n /\ endIdx - startIdx <= 10)%Z
  /\ (forall i a,
        airports !! i = Some a -> isEmpty a = false ->
        hasValidData a = true ->
        In (Z.of_nat i)
          (WebServerHandler.detailed_slots airports (Z.of_nat i / 10)))
  /\ (forall i q,
        (0 <= q < totalPages)%Z ->
        In i (WebServerHandler.detailed_slots airports q) ->
        q = (i / 10)%Z).
Proof.
  intros Hpos. cbv zeta.
  assert (Hn : (0 < Z.of_nat (length airports))%Z) by lia.
  set (n := Z.of_nat (length airports)) in *.
  assert (Hw : forall q,
            let w := WebServerHandler.detailed_page n q in
            (w.1.1.2 = (n + 9) / 10
             /\ w.1.1.1 = Z.max 0 (Z.min q (w.1.1.2 - 1))
             /\ 0 <= w.1.1.1 < w.1.1.2
             /\ w.1.2 = 10 * w.1.1.1
             /\ 0 <= w.1.2 < w.2 /\ w.2 <= n /\ w.2 - w.1.2 <= 10
             /\ w.2 = Z.min (10 * w.1.1.1 + 10) n)%Z).
  { intros q. cbv zeta. unfold WebServerHandler.detailed_page,
      WebServerHandler.airportsPerPage. cbn [fst snd].
    rewrite Z.quot_div_nonneg by lia.
    replace (n + 10 - 1)%Z with (n + 9)%Z by lia.
    assert (Ht : (1 <= (n + 9) / 10)%Z)
      by (apply Z.div_le_lower_bound; lia).
    pose proof (Z.div_mod (n + 9) 10 ltac:(lia)) as Hdm.
    pose proof (Z.mod_pos_bound (n + 9) 10 ltac:(lia)) as Hm.
    set (t := ((n + 9) / 10)%Z) in *.
    destruct (Z.ltb_spec q 0);
      [destruct (Z.leb_spec t 0) | destruct (Z.leb_spec t q)]; lia. }
  split; [|split].
  - pose proof (Hw page) as H. cbv zeta in H. tauto.
  - intros i a Ha He Hv. apply detailed_slots_spec.
    fold n. pose proof (Hw (Z.of_nat i / 10)%Z) as H. cbv zeta in H.
    apply lookup_lt_Some in Ha as Hi.
    assert (Hin : (0 <= Z.of_nat i < n)%Z) by (unfold n; lia).
    pose proof (Z.div_mod (Z.of_nat i) 10 ltac:(lia)) as Hdm.
    pose proof (Z.mod_pos_bound (Z.of_nat i) 10 ltac:(lia)) as Hm.
    pose proof (Z.div_mod (n + 9) 10 ltac:(lia)) as Hdm'.
    pose proof (Z.mod_pos_bound (n + 9) 10 ltac:(lia)) as Hm'.
    split; [lia|]. exists a. rewrite Nat2Z.id. auto.
  - intros i q Hq Hi. apply detailed_slots_spec in Hi as [Hr _].
    fold n in Hr. pose proof (Hw q) as H. cbv zeta in H.
    pose proof (Z.div_mod i 10 ltac:(lia)) as Hdm.
    pose proof (Z.mod_pos_bound i 10 ltac:(lia)) as Hm.
    pose proof (Hw page) as H'. cbv zeta in H'.
    lia.
Qed.

Lemma detailed_page_window_witness :
  (0 < length example_slots)%nat
  /\ WebServerHandler.detailed_page 4 7 = (0, 1, 0, 4)%Z.
Proof.
  assert (H : (0 < length example_slots)%nat) by (vm_compute; lia).
  split; [exact H|].
  destruct (detailed_page_window example_slots 7 H) as [_ _].
  vm_compute. reflexivity.
Defined.

(** X21.  The status page: the uptime is the clock difference modulo
    2^32 ms in whole seconds, split into days (at most 49), hours below 24
    and minutes below 60, so it starts again from zero after 49 days and
    17 hours.  The time to the next update is counted down from 15
    minutes since the last attempt, whatever interval is actually
    scheduled, and is 0 once 15 minutes have passed. *)
Theorem status_page_times (millis programStartTime currentMillis
    previousMillis : Z) :
  let u := WebServerHandler.uptime millis programStartTime in
  let days := u.1.1 in
  let hours := u.1.2 in
  let minutes := u.2 in
  let seconds := (elapsed millis programStartTime / 1000)%Z in
  let next := WebServerHandler.nextUpdate currentMillis previousMillis in
  let waited := elapsed currentMillis previousMillis in
  (0 <= days <= 49 /\ 0 <= hours < 24 /\ 0 <= minutes < 60
   /\ days * 86400 + hours * 3600 + minutes * 60 <= seconds
      < days * 86400 + hours * 3600 + minutes * 60 + 60)%Z
  /\ (0 <= next.1 <= 15 /\ 0 <= next.2 < 60)%Z
  /\ ((900000 <= waited)%Z -> next = (0, 0)%Z)
  /\ ((waited < 900000)%Z ->
      (next.1 * 60000 + next.2 * 1000 <= 900000 - waited
       < next.1 * 60000 + next.2 * 1000 + 1000)%Z).
Proof.
  cbv zeta. unfold WebServerHandler.uptime, WebServerHandler.nextUpdate,
    Sketch.REQUEST_INTERVAL. cbn [fst snd].
  assert (He : forall a b, (0 <= elapsed a b < 2 ^ 32)%Z)
    by (intros a b; unfold elapsed; apply Z.mod_pos_bound; lia).
  pose proof (He millis programStartTime) as H1.
  pose proof (He currentMillis previousMillis) as H2.
  set (e1 := elapsed millis programStartTime) in *.
  set (e2 := elapsed currentMillis previousMillis) in *.
  change (2 ^ 32)%Z with 4294967296%Z in *.
  split; [|split; [|split]].
  - Z.div_mod_to_equations. lia.
  - destruct (Z.ltb_spec e2 900000); Z.div_mod_to_equations; lia.
  - intros Hw. destruct (Z.ltb_spec e2 900000); [lia | reflexivity].
  - intros Hw. destruct (Z.ltb_spec e2 900000); [|lia].
    Z.div_mod_to_equations. lia.
Qed.

End Pages.

(** ** The request path *)

Section RequestPath.
Import CLib WeatherAPIClient.

Lemma substring_app_r (p c : string) (k m : nat) :
  String.substring (String.length p + k) m (String.append p c)
  = String.substring k m c.
Proof. induction p as [|a p IH]; cbn; [reflexivity | exact IH]. Qed.

Lemma endsWith_app (p c suffix : string) :
  (String.length suffix <= String.length c)%nat ->
  endsWith (String.append p c) suffix = endsWith c suffix.
Proof.
  intros H. unfold endsWith. rewrite append_length.
  replace (String.length p + String.length c - String.length suffix)%nat
    with (String.length p + (String.length c - String.length suffix))%nat
    by lia.
  rewrite substring_app_r.
  destruct (Nat.leb_spec (String.length suffix) (String.length c)); [|lia].
  destruct (Nat.leb_spec (String.length suffix)
              (String.length p + String.length c)); [|lia].
  reflexivity.
Qed.

Lemma append_nil_r (s : string) : String.append s "" = s.
Proof. induction s as [|a s IH]; cbn; [reflexivity | rewrite IH; reflexivity]. Qed.

Lemma fold_codes (airports : list AirportLED) :
  (forall a, a ∈ airports -> endsWith (icaoCode a) "=" = false) ->
  forall path,
    foldl
      (fun path a =>
         if (String.length (icaoCode a) =? 0)%nat then path
         else
           let path :=
             if negb (endsWith path "=") then String.append path ","
             else path in
           String.append path (icaoCode a))
      path airports
    = match requested_codes airports with
      | [] => path
      | cs =>
          String.append path
            (String.append (if endsWith path "=" then "" else ",")
               (join_codes cs))
      end.
Proof.
  induction airports as [|a rest IH]; intros Hc path; [reflexivity|].
  cbn [foldl]. unfold requested_codes. cbn [map List.filter].
  fold (requested_codes rest).
  destruct (Nat.eqb_spec (String.length (icaoCode a)) 0) as [H0|Hne];
    cbn [negb].
  { apply IH. intros b Hb. apply Hc. right. exact Hb. }
  cbv zeta.
  assert (Hsep : (if negb (endsWith path "=") then String.append path ","
                  else path)
                 = String.append path (if endsWith path "=" then "" else ","))
    by (destruct (endsWith path "="); cbn [negb];
        [rewrite append_nil_r|]; reflexivity).
  rewrite Hsep, IH by (intros b Hb; apply Hc; right; exact Hb).
  rewrite endsWith_app by (cbn; lia).
  rewrite (Hc a) by (left).
  destruct (requested_codes rest) as [|c cs]; cbn [join_codes];
    rewrite !append_assoc; reflexivity.
Qed.

(** X22.  The request path lists the codes of the slots that have one, in
    slot order and separated by single commas, between the fixed head and
    tail of the query; empty slots leave no trace.  (A code ending in '='
    would make the next comma disappear; no station code does.) *)
Theorem buildAPIPath_codes (airports : list AirportLED) :
  (forall a, a ∈ airports -> endsWith (icaoCode a) "=" = false) ->
  buildAPIPath airports
  = String.append "/api/data/metar?ids="
      (String.append (join_codes (requested_codes airports))
         "&format=raw&taf=false&hours=1").
Proof.
  intros Hc. unfold buildAPIPath. rewrite (fold_codes airports Hc).
  destruct (requested_codes airports) as [|c cs]; [reflexivity|].
  change (endsWith "/api/data/metar?ids=" "=") with true. cbv iota.
  rewrite !append_assoc. reflexivity.
Qed.

Lemma buildAPIPath_codes_witness :
  (forall a, a ∈ example_slots -> endsWith (icaoCode a) "=" = false)
  /\ buildAPIPath example_slots
     = "/api/data/metar?ids=KSFO,KSJC,KOAK&format=raw&taf=false&hours=1".
Proof.
  assert (H : forall a, a ∈ example_slots ->
                        endsWith (icaoCode a) "=" = false).
  { intros a Ha. unfold example_slots in Ha.
    repeat (apply elem_of_cons in Ha as [->|Ha]; [vm_compute; reflexivity|]).
    apply elem_of_nil in Ha. contradiction. }
  split; [exact H|].
  rewrite (buildAPIPath_codes example_slots H). vm_compute. reflexivity.
Defined.

End RequestPath.

(** ** One round of the main loop *)

Section Round.
Import CLib WeatherAPIClient LEDColors LEDController.

Lemma memory_check_spec (i : Sketch.Inputs) (L : Sketch.Loop) :
  (Sketch.memory_check i L = None <->
   (30000 < elapsed (Sketch.currentMillis i) (Sketch.memoryCheckMillis L))%Z
   /\ (Sketch.heapAtLoop i < 8000)%Z)
  /\ forall L1, Sketch.memory_check i L = Some L1 ->
       Sketch.globals L1 = Sketch.globals L
       /\ Sketch.button L1 = Sketch.button L
       /\ Sketch.wifiCheckMillis L1 = Sketch.wifiCheckMillis L
       /\ Sketch.reconnectFailures L1 = Sketch.reconnectFailures L.
Proof.
  unfold Sketch.memory_check, Sketch.MEMORY_CHECK_INTERVAL,
    Sketch.CRITICAL_MEMORY_THRESHOLD.
  destruct (Z.ltb_spec 30000
              (elapsed (Sketch.currentMillis i) (Sketch.memoryCheckMillis L)));
    [destruct (Z.ltb_spec (Sketch.heapAtLoop i) 8000)|].
  - split; [split; auto | intros L1 [=]].
  - split; [split; [discriminate | lia] | intros L1 [= <-]; auto].
  - split; [split; [discriminate | lia] | intros L1 [= <-]; auto].
Qed.

Lemma same_shape_refl (c : LEDController.t) : same_shape c c.
Proof. split; auto. Qed.

Lemma same_shape_trans (a b c : LEDController.t) :
  same_shape a b -> same_shape b c -> same_shape a c.
Proof. unfold same_shape. intros [H1 H2] [H3 H4]. split; [lia | auto]. Qed.

Lemma showErrorState_shape (c : LEDController.t) :
  same_shape c (Sketch.showErrorState c).
Proof.
  unfold same_shape, Sketch.showErrorState, numLeds. cbn [leds baseColors].
  rewrite length_replicate. auto.
Qed.

Lemma setAll_shape (color : CRGB) (c : LEDController.t) :
  same_shape c (Sketch.setAll color c).
Proof.
  unfold same_shape, Sketch.setAll, numLeds. cbn [leds baseColors].
  rewrite length_app, !length_replicate, length_skipn. split; lia.
Qed.

Lemma wifi_check_spec (i : Sketch.Inputs) (L : Sketch.Loop) :
  (Sketch.wifi_check i L = None <->
   (10000 <= elapsed (Sketch.currentMillis i) (Sketch.wifiCheckMillis L))%Z
   /\ Sketch.connectedAtCheck i = false /\ Sketch.reconnected i = false
   /\ (2 <= Sketch.reconnectFailures L)%Z)
  /\ forall L2, Sketch.wifi_check i L = Some L2 ->
       Sketch.button L2 = Sketch.button L
       /\ Sketch.memoryCheckMillis L2 = Sketch.memoryCheckMillis L
       /\ exists c,
            Sketch.globals L2 = Sketch.with_controller c (Sketch.globals L)
            /\ same_shape (Sketch.ledController (Sketch.globals L)) c.
Proof.
  unfold Sketch.wifi_check, Sketch.WIFI_CHECK_INTERVAL,
    Sketch.MAX_WIFI_RETRIES.
  assert (Hid : forall G, G = Sketch.with_controller (Sketch.ledController G) G)
    by (intros []; reflexivity).
  destruct (Z.leb_spec 10000
              (elapsed (Sketch.currentMillis i) (Sketch.wifiCheckMillis L)));
    [destruct (Sketch.connectedAtCheck i);
     [|destruct (Sketch.reconnected i);
       [|destruct (Z.leb_spec 3 (Sketch.reconnectFailures L + 1))]]|];
    cbn [negb].
  - split; [split; [discriminate | intros (_ & ? & _); discriminate]|].
    intros L2 [= <-]. cbn. repeat split.
    eexists. split; [apply Hid | apply same_shape_refl].
  - split; [split; [discriminate | intros (_ & _ & ? & _); discriminate]|].
    intros L2 [= <-]. cbn. repeat split.
    eexists. split; [reflexivity | apply setAll_shape].
  - split; [split; [intros _; repeat split; auto; lia | reflexivity]|].
    intros L2 [=].
  - split; [split; [discriminate | intros (_ & _ & _ & ?); lia]|].
    intros L2 [= <-]. cbn. repeat split.
    eexists. split; [reflexivity | apply showErrorState_shape].
  - split; [split; [discriminate | intros (? & _); lia]|].
    intros L2 [= <-]. repeat split.
    eexists. split; [apply Hid | apply same_shape_refl].
Qed.

Lemma updateThunderstorms_shape (g : SystemState) (t rnd : Z)
    (airports : list AirportLED) (c : LEDController.t) :
  same_shape c (updateThunderstorms g t rnd airports c).
Proof.
  unfold same_shape, numLeds, updateThunderstorms.
  repeat match goal with
         | |- context [if ?b then _ else _] => destruct b
         end;
    cbn [baseColors leds];
    rewrite ?for_upto_storm_body, ?for_upto_write_length; auto.
Qed.

Lemma updateWindBlink_shape (g : SystemState) (t : Z)
    (airports : list AirportLED) (c : LEDController.t) :
  same_shape c (updateWindBlink g t airports c).
Proof.
  unfold same_shape, numLeds, updateWindBlink.
  repeat match goal with
         | |- context [if ?b then _ else _] => destruct b
         end;
    cbn [baseColors leds];
    rewrite ?for_upto_wind_body, ?for_upto_write_length; auto.
Qed.

Lemma updateFromAirports_shape (g : SystemState)
    (airports : list AirportLED) (c : LEDController.t) :
  same_shape c (updateFromAirports g airports c).
Proof.
  unfold same_shape, numLeds, updateFromAirports.
  rewrite for_upto_base_body. cbn [fst snd leds baseColors].
  rewrite !for_upto_write_length. auto.
Qed.

Lemma merge_metar_codes (st : list AirportLED * Z) (metar : METAR) :
  map icaoCode (merge_metar st metar).1 = map icaoCode st.1
  /\ forall k a a',
       st.1 !! k = Some a -> (merge_metar st metar).1 !! k = Some a' ->
       hasValidData a = true -> hasValidData a' = true.
Proof.
  unfold merge_metar.
  destruct (first_match st.1 (icaoId metar) 0) as [j|];
    [|split; [reflexivity | intros k a a' H1 H2; congruence]].
  cbn [fst]. split.
  - apply list_eq. intros k. rewrite !list_lookup_fmap.
    destruct (decide (k = j)) as [->|Hne].
    + rewrite list_lookup_alter_eq.
      destruct (st.1 !! j); reflexivity.
    + rewrite list_lookup_alter_ne by congruence. reflexivity.
  - intros k a a' H1 H2 Hv.
    destruct (decide (k = j)) as [->|Hne].
    + rewrite list_lookup_alter_eq, H1 in H2. injection H2 as <-. reflexivity.
    + rewrite list_lookup_alter_ne, H1 in H2 by congruence. congruence.
Qed.

Lemma foldl_merge_codes (obs : list METAR) :
  forall st : list AirportLED * Z,
    map icaoCode (foldl merge_metar st obs).1 = map icaoCode st.1
    /\ forall k a a',
         st.1 !! k = Some a -> (foldl merge_metar st obs).1 !! k = Some a' ->
         hasValidData a = true -> hasValidData a' = true.
Proof.
  induction obs as [|m obs IH]; intros st; cbn [foldl].
  { split; [reflexivity | intros k a a' H1 H2; congruence]. }
  destruct (IH (merge_metar st m)) as [IH1 IH2].
  destruct (merge_metar_codes st m) as [M1 M2].
  split; [congruence|].
  intros k a a' H1 H2 Hv.
  assert (Hk : is_Some ((merge_metar st m).1 !! k)).
  { apply lookup_lt_is_Some. apply lookup_lt_Some in H1.
    rewrite <- (List.length_map icaoCode), M1, List.length_map. exact H1. }
  destruct Hk as [b Hb].
  apply (IH2 k b a' Hb H2). apply (M2 k a b H1 Hb Hv).
Qed.

Lemma fetchWeatherData_codes (freeHeap : Z)
    (response : METAR_STATUS * string) (airports : list AirportLED) :
  map icaoCode (fetchWeatherData freeHeap response airports).2
  = map icaoCode airports
  /\ forall k a a',
       airports !! k = Some a ->
       (fetchWeatherData freeHeap response airports).2 !! k = Some a' ->
       hasValidData a = true -> hasValidData a' = true.
Proof.
  unfold fetchWeatherData.
  assert (Hsame : map icaoCode airports = map icaoCode airports
                  /\ forall k a a',
                       airports !! k = Some a -> airports !! k = Some a' ->
                       hasValidData a = true -> hasValidData a' = true)
    by (split; [reflexivity | intros k a a' H1 H2; congruence]).
  destruct (freeHeap <? MIN_HEAP_FOR_OPERATION)%Z; [exact Hsame|].
  destruct response as [status rawData].
  destruct (negb (METAR_STATUS_eqb status SUCCESS)); [exact Hsame|].
  rewrite parseWeatherData_fold. cbn [snd].
  apply (foldl_merge_codes (observations rawData) (airports, 0%Z)).
Qed.

Lemma handleButtonPress_spec (pressed : bool) (now : Z)
    (b : Sketch.Button) (G : Sketch.Globals) :
  (Sketch.handleButtonPress pressed now (b, G) = None <->
   pressed = true /\ Sketch.buttonWasPressed b = true
   /\ (7000 <= elapsed now (Sketch.pressStartTime b))%Z
   /\ Sketch.longPressHandled b = false)
  /\ forall b' G',
       Sketch.handleButtonPress pressed now (b, G) = Some (b', G') ->
       G' = G
       \/ (G' = Sketch.setLEDState
                  (negb (ledPowerState (Sketch.g_state G))) G
           /\ pressed = false /\ Sketch.buttonWasPressed b = true
           /\ (elapsed now (Sketch.pressStartTime b) < 7000)%Z).
Proof.
  unfold Sketch.handleButtonPress, Sketch.BUTTON_LONG_PRESS_DURATION.
  destruct pressed, (Sketch.buttonWasPressed b); cbn [andb negb].
  - destruct (Z.leb_spec 7000 (elapsed now (Sketch.pressStartTime b)));
      destruct (Sketch.longPressHandled b); cbn [andb negb].
    + split; [split; [discriminate | intros (_ & _ & _ & ?); discriminate]|].
      intros b' G' [= <- <-]. auto.
    + split; [split; auto|]. intros b' G' [=].
    + split; [split; [discriminate | intros (_ & _ & ? & _); lia]|].
      intros b' G' [= <- <-]. auto.
    + split; [split; [discriminate | intros (_ & _ & ? & _); lia]|].
      intros b' G' [= <- <-]. auto.
  - split; [split; [discriminate | intros (_ & ? & _); discriminate]|].
    intros b' G' [= <- <-]. auto.
  - split; [split; [discriminate | intros (? & _); discriminate]|].
    intros b' G' [= <- <-].
    destruct (Z.ltb_spec (elapsed now (Sketch.pressStartTime b)) 7000);
      auto.
  - split; [split; [discriminate | intros (? & _); discriminate]|].
    intros b' G' [= <- <-]. auto.
Qed.

Lemma handleWeatherUpdates_spec (now : Z) (connected : bool)
    (attemptTime fetchTime : option string) (heapAtCheck heapAtFetch : Z)
    (response : METAR_STATUS * string) (G : Sketch.Globals) :
  (Sketch.handleWeatherUpdates now connected attemptTime fetchTime
     heapAtCheck heapAtFetch response G = None <->
   (Sketch.interval G <= elapsed now (Sketch.previousMillis G))%Z
   /\ connected = true /\ (heapAtCheck < 8000)%Z)
  /\ forall G',
       Sketch.handleWeatherUpdates now connected attemptTime fetchTime
         heapAtCheck heapAtFetch response G = Some G' ->
       map icaoCode (Sketch.airportLEDs G')
       = map icaoCode (Sketch.airportLEDs G)
       /\ (forall k a a',
             Sketch.airportLEDs G !! k = Some a ->
             Sketch.airportLEDs G' !! k = Some a' ->
             hasValidData a = true -> hasValidData a' = true)
       /\ same_shape (Sketch.ledController G) (Sketch.ledController G')
       /\ (ledPowerState (Sketch.g_state G')
           = ledPowerState (Sketch.g_state G)
           /\ windCheckEnabled (Sketch.g_state G')
              = windCheckEnabled (Sketch.g_state G)
           /\ thunderstormsCheckEnabled (Sketch.g_state G')
              = thunderstormsCheckEnabled (Sketch.g_state G)
           /\ windCheckThreshold (Sketch.g_state G')
              = windCheckThreshold (Sketch.g_state G))
       /\ Sketch.ledsEnabledPref G' = Sketch.ledsEnabledPref G
       /\ (Sketch.airportLEDs G' <> Sketch.airportLEDs G ->
           lastFetchStatus (Sketch.g_state G') = SUCCESS
           /\ Sketch.interval G' = 900000%Z
           /\ Sketch.previousMillis G' = now).
Proof.
  unfold Sketch.handleWeatherUpdates, Sketch.CRITICAL_MEMORY_THRESHOLD.
  assert (Hsame : forall l : list AirportLED,
            forall k a a', l !! k = Some a -> l !! k = Some a' ->
                           hasValidData a = true -> hasValidData a' = true)
    by (intros l k a a' H1 H2; congruence).
  destruct (Z.ltb_spec (elapsed now (Sketch.previousMillis G))
              (Sketch.interval G)).
  { split; [split; [discriminate | intros (? & _); lia]|].
    intros G' [= <-].
    repeat split; eauto using same_shape_refl; congruence. }
  destruct connected; cbn [negb].
  - destruct (Z.ltb_spec heapAtCheck 8000).
    { split; [split; auto|]. intros G' [=]. }
    pose proof (fetchWeatherData_codes heapAtFetch response
                  (Sketch.airportLEDs G)) as [Hc Hv].
    pose proof (fetch_failure_same heapAtFetch response
                  (Sketch.airportLEDs G)) as Hf.
    destruct (fetchWeatherData heapAtFetch response (Sketch.airportLEDs G))
      as [result airports]. cbn [fst snd] in *.
    split.
    { split; [|intros (_ & _ & ?); lia].
      destruct (METAR_STATUS_eqb result SUCCESS); discriminate. }
    intros G'.
    destruct (METAR_STATUS_eqb result SUCCESS) eqn:E; intros [= <-];
      cbn [Sketch.airportLEDs Sketch.ledController Sketch.g_state
           Sketch.ledsEnabledPref Sketch.interval Sketch.previousMillis
           Sketch.setFetchStatus lastFetchStatus ledPowerState
           windCheckEnabled thunderstormsCheckEnabled windCheckThreshold].
    + apply METAR_STATUS_eqb_eq in E. subst result.
      repeat split; eauto using updateFromAirports_shape;
        apply updateFromAirports_shape; assumption.
    + assert (Hne : result <> SUCCESS) by (intros ->; discriminate E).
      pose proof (Hf Hne) as Hkeep.
      repeat split; eauto using showErrorState_shape;
        first [congruence | apply showErrorState_shape; assumption].
  - split; [split; [discriminate | intros (_ & ? & _); discriminate]|].
    intros G' [= <-].
    cbn [Sketch.airportLEDs Sketch.ledController Sketch.g_state
         Sketch.ledsEnabledPref Sketch.interval Sketch.previousMillis
         Sketch.setStatus].
    repeat split; eauto using showErrorState_shape;
      first [congruence | apply showErrorState_shape; assumption].
Qed.

(** X23.  A round of [loop] restarts the device in exactly four cases:
    the memory check is due (more than 30 s after the last one) and the
    free heap is below 8000 bytes; the WiFi check is due (10 s), WiFi is
    down, the reconnection fails and two failures were counted already;
    the button has been held for 7000 ms; or a weather update is due,
    WiFi is up and the free heap is below 8000 bytes. *)
Theorem loop_restarts (i : Sketch.Inputs) (L : Sketch.Loop) :
  Sketch.loop i L = None <->
  ((30000 < elapsed (Sketch.currentMillis i) (Sketch.memoryCheckMillis L))%Z
   /\ (Sketch.heapAtLoop i < 8000)%Z)
  \/ ((10000 <= elapsed (Sketch.currentMillis i) (Sketch.wifiCheckMillis L))%Z
      /\ Sketch.connectedAtCheck i = false /\ Sketch.reconnected i = false
      /\ (2 <= Sketch.reconnectFailures L)%Z)
  \/ (Sketch.buttonPressed i = true
      /\ Sketch.buttonWasPressed (Sketch.button L) = true
      /\ (7000 <= elapsed (Sketch.buttonMillis i)
                    (Sketch.pressStartTime (Sketch.button L)))%Z
      /\ Sketch.longPressHandled (Sketch.button L) = false)
  \/ ((Sketch.interval (Sketch.globals L)
       <= elapsed (Sketch.currentMillis i)
            (Sketch.previousMillis (Sketch.globals L)))%Z
      /\ Sketch.connectedAtUpdate i = true
      /\ (Sketch.heapAtCheck i < 8000)%Z).
Proof.
  unfold Sketch.loop.
  destruct (memory_check_spec i L) as [M0 M1].
  destruct (Sketch.memory_check i L) as [L1|];
    [|split; [intros _; left; apply M0; reflexivity | reflexivity]].
  destruct (M1 L1 eq_refl) as (Mg & Mb & Mw & Mr).
  assert (Nm : ~ ((30000 < elapsed (Sketch.currentMillis i)
                             (Sketch.memoryCheckMillis L))%Z
                  /\ (Sketch.heapAtLoop i < 8000)%Z))
    by (intros H; apply M0 in H; discriminate H).
  destruct (wifi_check_spec i L1) as [W0 W1]. rewrite Mw, Mr in W0.
  destruct (Sketch.wifi_check i L1) as [L2|];
    [|split; [intros _; right; left; apply W0; reflexivity | reflexivity]].
  destruct (W1 L2 eq_refl) as (Wb & _ & c & Wg & _).
  assert (Nw : ~ ((10000 <= elapsed (Sketch.currentMillis i)
                               (Sketch.wifiCheckMillis L))%Z
                  /\ Sketch.connectedAtCheck i = false
                  /\ Sketch.reconnected i = false
                  /\ (2 <= Sketch.reconnectFailures L)%Z))
    by (intros H; apply W0 in H; discriminate H).
  cbv zeta. unfold Sketch.overlays. cbv zeta.
  cbn [Sketch.button Sketch.globals Sketch.memoryCheckMillis
       Sketch.wifiCheckMillis Sketch.reconnectFailures].
  rewrite Wb, Mb.
  match goal with
  | |- context [Sketch.handleButtonPress ?p ?t (?b, ?G)] =>
      destruct (handleButtonPress_spec p t b G) as [B0 B1];
      destruct (Sketch.handleButtonPress p t (b, G)) as [[b' G3]|] eqn:EB
  end;
    [|split; [intros _; right; right; left; apply B0; reflexivity
             | reflexivity]].
  assert (Nb : ~ (Sketch.buttonPressed i = true
                  /\ Sketch.buttonWasPressed (Sketch.button L) = true
                  /\ (7000 <= elapsed (Sketch.buttonMillis i)
                                (Sketch.pressStartTime (Sketch.button L)))%Z
                  /\ Sketch.longPressHandled (Sketch.button L) = false))
    by (intros H; apply B0 in H; discriminate H).
  assert (Htime : Sketch.interval G3 = Sketch.interval (Sketch.globals L)
                  /\ Sketch.previousMillis G3
                     = Sketch.previousMillis (Sketch.globals L)).
  { destruct (B1 b' G3 eq_refl) as [->|[-> _]];
      rewrite Wg, Mg; split; reflexivity. }
  destruct Htime as [Hi Hp].
  match goal with
  | |- context [Sketch.handleWeatherUpdates ?n ?cn ?a ?f ?h1 ?h2 ?r ?G] =>
      destruct (handleWeatherUpdates_spec n cn a f h1 h2 r G) as [U0 _];
      destruct (Sketch.handleWeatherUpdates n cn a f h1 h2 r G) as [G4|]
  end.
  - split; [discriminate|]. intros [H|[H|[H|H]]]; [tauto | tauto | tauto |].
    rewrite <- Hi, <- Hp in H. apply U0 in H. discriminate H.
  - split; [|reflexivity]. intros _. right. right. right.
    rewrite <- Hi, <- Hp. apply U0. reflexivity.
Qed.

(** X24.  A round of [loop] that does not restart the device keeps the
    registry in shape: the codes of the slots and their number never
    change, a slot that had valid data still has, the strip keeps its
    length (and [baseColors] the same length as the strip), and the
    overlay switches and the wind threshold are untouched.  The slots
    change only in a round whose fetch succeeded, which schedules the next
    update 900000 ms later; and the display state changes only on the
    release of the button less than 7000 ms after it was pressed. *)
Theorem loop_invariants (i : Sketch.Inputs) (L L' : Sketch.Loop) :
  Sketch.loop i L = Some L' ->
  let G := Sketch.globals L in
  let G' := Sketch.globals L' in
  map icaoCode (Sketch.airportLEDs G') = map icaoCode (Sketch.airportLEDs G)
  /\ (forall k a a',
        Sketch.airportLEDs G !! k = Some a ->
        Sketch.airportLEDs G' !! k = Some a' ->
        hasValidData a = true -> hasValidData a' = true)
  /\ same_shape (Sketch.ledController G) (Sketch.ledController G')
  /\ (windCheckEnabled (Sketch.g_state G')
      = windCheckEnabled (Sketch.g_state G)
      /\ thunderstormsCheckEnabled (Sketch.g_state G')
         = thunderstormsCheckEnabled (Sketch.g_state G)
      /\ windCheckThreshold (Sketch.g_state G')
         = windCheckThreshold (Sketch.g_state G))
  /\ (Sketch.airportLEDs G' <> Sketch.airportLEDs G ->
      lastFetchStatus (Sketch.g_state G') = SUCCESS
      /\ Sketch.interval G' = 900000%Z
      /\ Sketch.previousMillis G' = Sketch.currentMillis i)
  /\ (ledPowerState (Sketch.g_state G') <> ledPowerState (Sketch.g_state G) ->
      Sketch.buttonPressed i = false
      /\ Sketch.buttonWasPressed (Sketch.button L) = true
      /\ (elapsed (Sketch.buttonMillis i)
            (Sketch.pressStartTime (Sketch.button L)) < 7000)%Z
      /\ Sketch.ledsEnabledPref G'
         = Some (ledPowerState (Sketch.g_state G'))).
Proof.
  unfold Sketch.loop. intros Hloop. cbv zeta.
  destruct (memory_check_spec i L) as [_ M1].
  destruct (Sketch.memory_check i L) as [L1|]; [|discriminate Hloop].
  destruct (M1 L1 eq_refl) as (Mg & Mb & _).
  destruct (wifi_check_spec i L1) as [_ W1].
  destruct (Sketch.wifi_check i L1) as [L2|]; [|discriminate Hloop].
  destruct (W1 L2 eq_refl) as (Wb & _ & c & Wg & Wc).
  cbv zeta in Hloop. unfold Sketch.overlays in Hloop. cbv zeta in Hloop.
  cbn [Sketch.button Sketch.globals Sketch.memoryCheckMillis
       Sketch.wifiCheckMillis Sketch.reconnectFailures] in Hloop.
  rewrite Wb, Mb, Wg, Mg in Hloop. rewrite Mg in Wc.
  set (G := Sketch.globals L) in *.
  cbn [Sketch.with_controller Sketch.g_state Sketch.airportLEDs
       Sketch.ledController] in Hloop.
  set (c2 := updateWindBlink (Sketch.g_state G) (Sketch.blinkMillis i)
               (Sketch.airportLEDs G)
               (updateThunderstorms (Sketch.g_state G) (Sketch.stormMillis i)
                  (Sketch.rnd i) (Sketch.airportLEDs G) c)) in *.
  assert (Hc2 : same_shape (Sketch.ledController G) c2).
  { eapply same_shape_trans; [exact Wc|].
    eapply same_shape_trans;
      [apply updateThunderstorms_shape | apply updateWindBlink_shape]. }
  match type of Hloop with
  | context [Sketch.handleButtonPress ?p ?t (?b, ?G2)] =>
      destruct (handleButtonPress_spec p t b G2) as [_ B1];
      destruct (Sketch.handleButtonPress p t (b, G2)) as [[b' G3]|];
      [|discriminate Hloop];
      specialize (B1 b' G3 eq_refl)
  end.
  match type of Hloop with
  | context [Sketch.handleWeatherUpdates ?n ?cn ?a ?f ?h1 ?h2 ?r ?G3] =>
      destruct (handleWeatherUpdates_spec n cn a f h1 h2 r G3) as [_ U1];
      destruct (Sketch.handleWeatherUpdates n cn a f h1 h2 r G3) as [G4|];
      [|discriminate Hloop];
      specialize (U1 G4 eq_refl)
  end.
  injection Hloop as <-. cbn [Sketch.globals].
  destruct U1 as (U1 & U2 & U3 & (U4 & U5 & U6 & U7) & U8 & U9).
  assert (H3 : Sketch.airportLEDs G3 = Sketch.airportLEDs G
               /\ Sketch.ledController G3 = c2
               /\ windCheckEnabled (Sketch.g_state G3)
                  = windCheckEnabled (Sketch.g_state G)
               /\ thunderstormsCheckEnabled (Sketch.g_state G3)
                  = thunderstormsCheckEnabled (Sketch.g_state G)
               /\ windCheckThreshold (Sketch.g_state G3)
                  = windCheckThreshold (Sketch.g_state G)).
  { destruct B1 as [->|[-> _]]; cbn; auto. }
  destruct H3 as (A3 & C3 & E1 & E2 & E3).
  rewrite A3 in *. rewrite C3 in U3.
  split; [exact U1|]. split; [exact U2|].
  split; [eapply same_shape_trans; eassumption|].
  split; [repeat split; congruence|].
  split; [exact U9|].
  intros Hled. rewrite U4 in Hled.
  destruct B1 as [->|(-> & B2 & B3 & B4)];
    [exfalso; apply Hled; reflexivity|].
  split; [exact B2|]. split; [exact B3|]. split; [exact B4|].
  rewrite U8, U4. reflexivity.
Qed.

Lemma loop_invariants_witness :
  exists L',
    Sketch.loop update_round example_loop = Some L'
    /\ Sketch.interval (Sketch.globals L') = 900000%Z.
Proof.
  destruct (Sketch.loop update_round example_loop) as [L'|] eqn:E;
    [|vm_compute in E; discriminate E].
  exists L'. split; [reflexivity|].
  destruct (loop_invariants update_round example_loop L' E)
    as (_ & _ & _ & _ & Hfetch & _).
  vm_compute in E. injection E as <-.
  destruct Hfetch as (_ & H & _); [|exact H].
  intros Heq. vm_compute in Heq. discriminate Heq.
Defined.

End Round.

(** ** WiFi credentials *)

Section Credentials.
Import CLib.

Lemma read_line_substring (n : nat) :
  forall s, WiFiManager.read_line n (String.substring 0 n s)
            = WiFiManager.read_line n s.
Proof.
  induction n as [|n IH]; intros [|c s]; cbn; try reflexivity.
  rewrite IH. reflexivity.
Qed.

Lemma read_line_one_line (s : string) :
  forall n,
    (String.length s <= n)%nat ->
    all_chars
      (fun c => negb (Ascii.eqb c "010" || Ascii.eqb c "013"
                      || Ascii.eqb c NUL)) s = true ->
    WiFiManager.read_line n s = s.
Proof.
  induction s as [|c s IH]; intros [|n] Hlen Hc; cbn in *; try reflexivity;
    try lia.
  apply andb_true_iff in Hc as [Hc Hs]. apply negb_true_iff in Hc.
  rewrite Hc, IH by (lia || exact Hs). reflexivity.
Qed.

Lemma read_line_prefix (n : nat) :
  forall s, String.prefix (WiFiManager.read_line n s) s = true
            /\ (String.length (WiFiManager.read_line n s) <= n)%nat.
Proof.
  induction n as [|n IH]; intros [|c s]; cbn; try (split; [reflexivity|lia]).
  destruct (_ || _); cbn; [split; [reflexivity | lia]|].
  destruct (IH s) as [H1 H2].
  destruct (ascii_dec c c); [|congruence]. split; [exact H1 | lia].
Qed.

(** X25.  Credentials saved by [saveCredentials] are what
    [loadCredentials] reads back after a restart, each cut to 63
    characters and at its first line break: the loaded text is a prefix
    of the saved one, and it is the saved text itself when that has at
    most 63 characters and no line break.  [loadCredentials] reports
    success exactly when the loaded SSID is not empty, and after
    [resetCredentials] it reports failure with both texts empty. *)
Theorem credentials_round_trip (newSsid newPass : string)
    (files : option string * option string) :
  let saved :=
    WiFiManager.saveCredentials true true newSsid newPass files in
  let loaded := WiFiManager.loadCredentials saved.2 in
  (WiFiManager.ssid loaded.2 = WiFiManager.read_line 63 newSsid
   /\ WiFiManager.pass loaded.2 = WiFiManager.read_line 63 newPass)
  /\ (String.prefix (WiFiManager.ssid loaded.2) newSsid = true
      /\ String.prefix (WiFiManager.pass loaded.2) newPass = true
      /\ (String.length (WiFiManager.ssid loaded.2) <= 63)%nat
      /\ (String.length (WiFiManager.pass loaded.2) <= 63)%nat)
  /\ (one_line newSsid -> WiFiManager.ssid loaded.2 = newSsid)
  /\ (one_line newPass -> WiFiManager.pass loaded.2 = newPass)
  /\ (loaded.1 = true <-> WiFiManager.ssid loaded.2 <> "")
  /\ WiFiManager.loadCredentials WiFiManager.resetCredentials.2
     = (false, WiFiManager.mk "" "").
Proof.
  cbv zeta. unfold WiFiManager.saveCredentials, WiFiManager.loadCredentials,
    WiFiManager.writeFile, WiFiManager.readFile, safeCopy,
    WiFiManager.CREDENTIAL_BUFFER_SIZE.
  cbn [fst snd WiFiManager.ssid WiFiManager.pass].
  change (64 - 1)%nat with 63%nat. rewrite !read_line_substring.
  destruct (read_line_prefix 63 newSsid) as [P1 L1].
  destruct (read_line_prefix 63 newPass) as [P2 L2].
  split; [split; reflexivity|]. split; [auto|].
  split; [intros [H1 H2]; apply read_line_one_line; assumption|].
  split; [intros [H1 H2]; apply read_line_one_line; assumption|].
  split; [|reflexivity].
  destruct (WiFiManager.read_line 63 newSsid); cbn;
    split; congruence || discriminate.
Qed.

End Credentials.

(** ** The text of the cloud layers *)

Section CloudText.
Import CLib MetarParser.

Lemma write_pieces_length (pieces : list string) :
  forall remaining,
    (Z.of_nat (String.length (write_pieces pieces remaining))
     <= Z.max 0 (remaining - 1))%Z.
Proof.
  induction pieces as [|p rest IH]; intros r; cbn [write_pieces];
    [cbn; lia|].
  cbv zeta. destruct (Z.leb_spec r (Z.of_nat (String.length p)));
    [cbn; lia|].
  rewrite append_length, Nat2Z.inj_add.
  specialize (IH (r - Z.of_nat (String.length p))%Z). lia.
Qed.

Lemma write_pieces_take (pieces : list string) :
  forall remaining,
    exists k, write_pieces pieces remaining = join_pieces (take k pieces).
Proof.
  induction pieces as [|p rest IH]; intros r; cbn [write_pieces].
  - exists 0%nat. reflexivity.
  - cbv zeta. destruct (r <=? Z.of_nat (String.length p))%Z.
    + exists 0%nat. reflexivity.
    + destruct (IH (r - Z.of_nat (String.length p))%Z) as [k ->].
      exists (S k). reflexivity.
Qed.

Lemma write_pieces_all (pieces : list string) :
  forall remaining,
    (Z.of_nat (String.length (join_pieces pieces)) < remaining)%Z ->
    write_pieces pieces remaining = join_pieces pieces.
Proof.
  induction pieces as [|p rest IH]; intros r Hr; cbn [write_pieces join_pieces];
    [reflexivity|].
  cbn [join_pieces] in Hr. rewrite append_length, Nat2Z.inj_add in Hr.
  cbv zeta. destruct (Z.leb_spec r (Z.of_nat (String.length p))); [lia|].
  rewrite IH by lia. reflexivity.
Qed.

Lemma prefix_append (a b : string) : String.prefix a (String.append a b) = true.
Proof.
  induction a as [|c a IH]; cbn; [destruct b; reflexivity|].
  destruct (ascii_dec c c); [exact IH | congruence].
Qed.

Lemma join_take_prefix (pieces : list string) :
  forall k, String.prefix (join_pieces (take k pieces)) (join_pieces pieces)
            = true.
Proof.
  induction pieces as [|p rest IH]; intros [|k]; cbn [take join_pieces];
    try reflexivity.
  - destruct (String.append p (join_pieces rest)); reflexivity.
  - induction p as [|c p IHp]; cbn; [apply IH|].
    destruct (ascii_dec c c); [exact IHp | congruence].
Qed.

Lemma printNumber_three (h : Z) :
  (0 <= h <= 999)%Z -> (String.length (printNumber h) <= 3)%nat.
Proof.
  intros Hh.
  assert (H : forallb
                (fun k => (String.length (printNumber (Z.of_nat k)) <=? 3)%nat)
                (seq 0 1000) = true) by (vm_compute; reflexivity).
  rewrite forallb_forall in H.
  specialize (H (Z.to_nat h)). rewrite Z2Nat.id in H by lia.
  apply Nat.leb_le, H, in_seq. lia.
Qed.

Lemma layer_pieces_length (n i : nat) (l : CloudLayer) :
  layer_ok l ->
  (String.length (join_pieces (layer_pieces n i l)) <= 23)%nat.
Proof.
  intros (Hcov & Hh & Hty & _). unfold layer_pieces.
  assert (L1 : (String.length (coverage l) <= 3)%nat).
  { cbn in Hcov. destruct Hcov as [<-|[<-|[<-|[<-|[<-|[<-|[<-|[]]]]]]]];
      cbn; lia. }
  assert (L2 : (String.length (type l) <= 3)%nat).
  { cbn in Hty. destruct Hty as [<-|[<-|[<-|[]]]]; cbn; lia. }
  pose proof (printNumber_three (height l) Hh) as L3.
  destruct (0 <? height l)%Z, (negb (String.eqb (type l) "")),
    (Z.of_nat i <? Z.of_nat n - 1)%Z;
    cbn [app join_pieces]; rewrite ?append_length; cbn [String.length];
    rewrite ?append_length; cbn [String.length]; lia.
Qed.

Lemma join_pieces_app (a b : list string) :
  join_pieces (a ++ b)
  = String.append (join_pieces a) (join_pieces b).
Proof.
  induction a as [|p a IH]; cbn [app join_pieces]; [reflexivity|].
  rewrite IH, append_assoc. reflexivity.
Qed.

Lemma all_pieces_length (layers : list CloudLayer) :
  forall f : nat -> CloudLayer -> list string,
    (forall i l, layer_ok l ->
                 (String.length (join_pieces (f i l)) <= 23)%nat) ->
    Forall layer_ok layers ->
    (String.length (join_pieces (concat (imap f layers)))
     <= 23 * length layers)%nat.
Proof.
  induction layers as [|l layers IH]; intros f Hf Hok; [cbn; lia|].
  apply Forall_cons in Hok as [Hl Hok].
  cbn [imap concat length]. rewrite join_pieces_app, append_length.
  specialize (IH (f ∘ S) (fun i x => Hf (S i) x) Hok).
  specialize (Hf 0%nat l Hl). lia.
Qed.

(** X26.  [formatCloudLayers] never fills its buffer: the text has at
    most [outputSize - 2] characters.  It consists of whole pieces of the
    full text, from the start, and is the full text when that is shorter
    than [outputSize - 1].  In the 128-byte buffer of the detailed page
    the layers of a parsed line are shown in full when there are at most
    five of them. *)
Theorem formatCloudLayers_fits (m : METAR) (outputSize : nat) :
  let text := formatCloudLayers m outputSize in
  let full := join_pieces (all_pieces m) in
  (String.length text <= outputSize - 2)%nat
  /\ String.prefix text full = true
  /\ (exists k, text = join_pieces (take k (all_pieces m)))
  /\ ((String.length full + 2 <= outputSize)%nat -> text = full)
  /\ (forall line,
        m = parse line -> (length (cloudLayers m) <= 5)%nat ->
        formatCloudLayers m 128 = full).
Proof.
  cbv zeta. unfold formatCloudLayers.
  assert (Hfull : (String.length (join_pieces (all_pieces m)) + 2
                   <= outputSize)%nat ->
                  (if negb (hasCloudLayers m) || (outputSize =? 0)%nat
                   then ""
                   else write_pieces (all_pieces m)
                          (Z.of_nat outputSize - 1))
                  = join_pieces (all_pieces m)).
  { intros Hlen.
    destruct (hasCloudLayers m) eqn:Hc; cbn [negb orb].
    - destruct (Nat.eqb_spec outputSize 0); [lia|].
      apply write_pieces_all. lia.
    - unfold hasCloudLayers in Hc. apply Nat.ltb_ge in Hc.
      unfold all_pieces. destruct (cloudLayers m); [reflexivity|].
      cbn in Hc. lia. }
  split; [|split; [|split; [|split]]].
  - destruct (negb (hasCloudLayers m) || (outputSize =? 0)%nat);
      [cbn; lia|].
    pose proof (write_pieces_length (all_pieces m)
                  (Z.of_nat outputSize - 1)). lia.
  - destruct (negb (hasCloudLayers m) || (outputSize =? 0)%nat).
    + destruct (join_pieces (all_pieces m)); reflexivity.
    + destruct (write_pieces_take (all_pieces m)
                  (Z.of_nat outputSize - 1)) as [k ->].
      apply join_take_prefix.
  - destruct (negb (hasCloudLayers m) || (outputSize =? 0)%nat).
    + exists 0%nat. destruct (all_pieces m); reflexivity.
    + apply write_pieces_take.
  - exact Hfull.
  - intros line -> Hfive.
    assert (Hok : Forall layer_ok (cloudLayers (parse line))).
    { destruct (Nat.lt_ge_cases (String.length line) 10) as [Hs|Hlen].
      - unfold parse. destruct (Nat.ltb_spec (String.length line) 10);
          [constructor | lia].
      - destruct (parse_fields_summary line Hlen) as (_ & _ & _ & _ & -> & _).
        unfold parseCloudConditions.
        match goal with
        | |- context [cloud_loop ?f ?r ?p ?l ?m] =>
            pose proof (cloud_loop_layers_ok r f p l m) as H;
            destruct (cloud_loop f r p l m) as [layers m']
        end.
        cbn [setCloudLayers cloudLayers fst] in *.
        apply H; [constructor | cbn; lia]. }
    pose proof (all_pieces_length (cloudLayers (parse line))
                  (layer_pieces (length (cloudLayers (parse line))))
                  (layer_pieces_length _) Hok) as Hlen.
    fold (all_pieces (parse line)) in Hlen.
    assert (Hfit : (String.length (join_pieces (all_pieces (parse line))) + 2
                    <= 128)%nat) by lia.
    clear - Hfit. revert Hfit. generalize (parse line). intros m Hfit.
    destruct (hasCloudLayers m) eqn:Hc; cbn [negb orb Nat.eqb].
    + apply write_pieces_all. lia.
    + unfold hasCloudLayers in Hc. apply Nat.ltb_ge in Hc.
      unfold all_pieces. destruct (cloudLayers m); [reflexivity|].
      cbn in Hc. lia.
Qed.

End CloudText.

(** ** The two overlays together *)

Section Overlays.
Import LEDColors LEDController.

Lemma for_upto_write_comm {A : Type} (f g : nat -> option A) (n : nat)
    (l : list A) :
  (forall i, f i = None \/ g i = None) ->
  for_upto n (write f) (for_upto n (write g) l)
  = for_upto n (write g) (for_upto n (write f) l).
Proof.
  intros Hd. apply list_eq. intros i.
  rewrite !for_upto_write_lookup, !for_upto_write_length.
  destruct (decide (i < n)%nat); [|reflexivity].
  destruct (Hd i) as [H|H]; rewrite H; destruct (f i), (g i);
    try discriminate; reflexivity.
Qed.

Lemma storm_wind_disjoint (g : SystemState) (airports : list AirportLED)
    (color : nat -> option CRGB) (blink : bool) (i : nat) :
  storm_write airports color i = None
  \/ wind_write g airports blink i = None.
Proof.
  unfold storm_write, wind_write.
  destruct (airports !! i) as [a|]; [|left; reflexivity].
  unfold storm_slot, wind_slot.
  destruct (hasValidData a), (hasThunderstorm (metarData a));
    cbn [andb negb]; rewrite ?andb_false_r;
    destruct (color i); auto.
Qed.

(** X27.  The two overlays do not interfere: they write different LEDs
    and read nothing the other one writes, so evaluating the wind overlay
    after the thunderstorm overlay, as [loop] does, gives the same
    controller as evaluating them the other way round. *)
Theorem overlays_commute (g : SystemState) (stormMillis rnd blinkMillis : Z)
    (airports : list AirportLED) (c : LEDController.t) :
  updateWindBlink g blinkMillis airports
    (updateThunderstorms g stormMillis rnd airports c)
  = updateThunderstorms g stormMillis rnd airports
      (updateWindBlink g blinkMillis airports c).
Proof.
  unfold updateThunderstorms, updateWindBlink.
  destruct (thunderstormsCheckEnabled g), (windCheckEnabled g),
    (ledPowerState g), (METAR_STATUS_eqb (lastFetchStatus g) SUCCESS);
    cbn [negb]; try reflexivity.
  all: cbv zeta.
  all: destruct (WIND_BLINK_INTERVAL
                 <=? elapsed blinkMillis (lastWindBlinkTime c))%Z eqn:Ew;
    cbn [leds baseColors lastFlashTime lastWindBlinkTime flashState
         windBlinkState numLeds];
    rewrite ?for_upto_wind_body, ?for_upto_write_length;
    try reflexivity.
  all: destruct (existsb storm_slot
                   (take (Nat.min (length airports) (numLeds c)) airports))
    eqn:Es; unfold numLeds in *; rewrite ?Es; cbn [negb];
    cbn [leds baseColors lastFlashTime lastWindBlinkTime flashState
         windBlinkState];
    rewrite ?Ew; try reflexivity.
  all: destruct (flashState c) eqn:Ef;
    [destruct (100 <=? elapsed stormMillis (lastFlashTime c))%Z
    |destruct (3000 <=? elapsed stormMillis (lastFlashTime c))%Z;
     [destruct (rnd <? 20)%Z|]];
    cbn [leds baseColors lastFlashTime lastWindBlinkTime flashState
         windBlinkState];
    rewrite ?Ew, ?for_upto_storm_body, ?for_upto_wind_body,
      ?for_upto_write_length;
    rewrite ?Es, ?Ef; cbn [negb];
    try reflexivity.
  all: f_equal; try congruence; symmetry; apply for_upto_write_comm;
    intros i; apply storm_wind_disjoint.
Qed.

End Overlays.
